(** * Reconciliation engine of sync_dd_from_file.py

    A shallow embedding of the two orchestrators of the script,
    [sync_ad_groups_to_y360] (group-level sync) and [sync_group_members]
    (membership-level sync), together with the helpers they use, and the
    properties of the reconciliation they compute.

    Python dictionaries used as indexes are [gmap string _], Python sets are
    [gset string], records coming from LDAP or from the Yandex 360 API are
    Rocq records whose optional keys are [option] fields.  The remote service
    is an oracle that answers a call knowing the calls made before it; the
    orchestrators thread the list of calls made so far together with their
    statistics, so that the calls a run issues can be inspected afterwards.
    Logging and [time.sleep] have no effect on the results and are left out.

    The second part embeds what surrounds the orchestrators: the request
    loops of the [*_by_api] functions and the paginated reads, whose
    [while True] loops are given fuel, [mask_sensitive_data],
    [get_settings], the cache of the users and the [__main__] block. *)

From Stdlib Require Import ZArith String Ascii List Lia.
From stdpp Require Import base option list strings gmap sets.

#[local] Set Warnings "-clear-no-such-hyp".
#[local] Set Warnings "-register-all".

Local Open Scope string_scope.
Local Open Scope list_scope.

(** ** Python string operations *)

Module Py.

(** [if v:] for a value that is [None] or a string. *)
Definition truthy (v : option string) : bool :=
  match v with
  | Some s => bool_decide (s ≠ "")
  | None => false
  end.

(** [str.lower()], on the ASCII letters. *)
Definition lower_ascii (c : ascii) : ascii :=
  let n := nat_of_ascii c in
  if (Nat.leb 65 n && Nat.leb n 90)%bool then ascii_of_nat (n + 32) else c.

Fixpoint lower (s : string) : string :=
  match s with
  | EmptyString => EmptyString
  | String c r => String (lower_ascii c) (lower r)
  end.

(** [s.split(sep, 1)]: [None] when [sep] does not occur in [s] (the list has
    one element, so index 1 raises IndexError), otherwise the text before
    and after the first occurrence.  [fst] of the result is also
    [s.split(sep)[0]]. *)
Fixpoint split_once (sep : ascii) (s : string) : option (string * string) :=
  match s with
  | EmptyString => None
  | String c r =>
      if bool_decide (c = sep) then Some (EmptyString, r)
      else match split_once sep r with
           | Some (a, b) => Some (String c a, b)
           | None => None
           end
  end.

(** [sep in s] *)
Definition contains (sep : ascii) (s : string) : bool :=
  bool_decide (is_Some (split_once sep s)).

(** [s.split(sep)[0]] *)
Definition before (sep : ascii) (s : string) : string :=
  match split_once sep s with
  | Some (a, _) => a
  | None => s
  end.

(** [s.startswith(p)] *)
Definition startswith (p s : string) : bool := String.prefix p s.

(** [s.replace(a, b)] for single characters. *)
Fixpoint replace (a b : ascii) (s : string) : string :=
  match s with
  | EmptyString => EmptyString
  | String c r => String (if bool_decide (c = a) then b else c) (replace a b r)
  end.

Fixpoint lstrip (p : ascii -> bool) (s : string) : string :=
  match s with
  | EmptyString => EmptyString
  | String c r => if p c then lstrip p r else s
  end.

Fixpoint rstrip (p : ascii -> bool) (s : string) : string :=
  match s with
  | EmptyString => EmptyString
  | String c r =>
      match rstrip p r with
      | EmptyString => if p c then EmptyString else String c EmptyString
      | r' => String c r'
      end
  end.

(** [s.strip(chars)] *)
Definition strip (p : ascii -> bool) (s : string) : string := rstrip p (lstrip p s).

(** The characters [str.strip()] removes, among the ASCII ones. *)
Definition is_space (c : ascii) : bool :=
  let n := nat_of_ascii c in
  (Nat.leb 9 n && Nat.leb n 13 || Nat.leb 28 n && Nat.leb n 32)%bool.

Definition is_char (a c : ascii) : bool := bool_decide (c = a).

End Py.

(** ** Data model *)

(** A group of the source directory, as [get_ldap_dynamic_groups] returns it:
    every requested attribute is a key whose value may be [None]. *)
Record ad_group := {
  ad_objectGUID : option string;
  ad_displayName : option string;
  ad_mail : option string;
  ad_description : option string
}.

(** A group of the target service, as the groups endpoint returns it. *)
Record y360_group := {
  y360_id : option Z;
  y360_externalId : option string;
  y360_name : option string;
  y360_label : option string;
  y360_description : option string
}.

(** A user of the target service; the member list of a group returns the
    same records. *)
Record y360_user := {
  user_id : option string;
  user_nickname : option string;
  user_aliases : list string
}.

#[global] Instance ad_group_eq_dec : EqDecision ad_group.
Proof. solve_decision. Defined.
#[global] Instance y360_group_eq_dec : EqDecision y360_group.
Proof. solve_decision. Defined.
#[global] Instance y360_user_eq_dec : EqDecision y360_user.
Proof. solve_decision. Defined.

(** ** The remote service *)

(** The calls the orchestrators make.  A payload ([group], [patch_data]) is
    the dictionary sent. *)
Inductive call :=
| CreateGroup (group : gmap string string)
| PatchGroup (group_id : option Z) (patch_data : gmap string string)
| DeleteGroup (group_id : option Z)
| GetGroupMembers (group_id : option Z)
| AddMember (group_id : option Z) (member_type : string) (member_id : option string)
| DeleteMember (group_id : option Z) (member_type : string) (member_id : option string).

#[global] Instance call_eq_dec : EqDecision call.
Proof. solve_decision. Defined.

(** The calls that change the target service. *)
Definition mutating (c : call) : bool :=
  match c with
  | GetGroupMembers _ => false
  | _ => true
  end.

(** What the [*_by_api] functions return, given the calls made so far.  Each
    of them retries and catches every exception, so it always returns its
    pair: [success], and what the caller reads in the second component
    ([result.get('removed')], [result.get('added')], [result.get('deleted')],
    the ['users'] list). *)
Record Remote := {
  create_group_by_api : list call -> gmap string string -> bool;
  patch_group_by_api : list call -> option Z -> gmap string string -> bool;
  delete_group_by_api : list call -> option Z -> bool * bool;
  get_group_members_by_api : list call -> option Z -> bool * list y360_user;
  add_member_to_group_by_api :
    list call -> option Z -> string -> option string -> bool * bool;
  delete_member_from_group_by_api :
    list call -> option Z -> string -> option string -> bool * bool
}.

(** ** Group-level sync: [sync_ad_groups_to_y360] *)

Module Groups.

Record stats := {
  ad_groups_count : nat;
  y360_groups_count : nat;
  created_count : nat;
  updated_count : nat;
  deleted_count : nat;
  errors_count : nat;
  skipped_count : nat
}.

Definition stats0 : stats := Build_stats 0 0 0 0 0 0 0.

Definition set_counts (a y : nat) (s : stats) : stats :=
  Build_stats a y (created_count s) (updated_count s) (deleted_count s)
    (errors_count s) (skipped_count s).
Definition incr_created (s : stats) : stats :=
  Build_stats (ad_groups_count s) (y360_groups_count s) (S (created_count s))
    (updated_count s) (deleted_count s) (errors_count s) (skipped_count s).
Definition incr_updated (s : stats) : stats :=
  Build_stats (ad_groups_count s) (y360_groups_count s) (created_count s)
    (S (updated_count s)) (deleted_count s) (errors_count s) (skipped_count s).
Definition incr_deleted (s : stats) : stats :=
  Build_stats (ad_groups_count s) (y360_groups_count s) (created_count s)
    (updated_count s) (S (deleted_count s)) (errors_count s) (skipped_count s).
Definition incr_errors (s : stats) : stats :=
  Build_stats (ad_groups_count s) (y360_groups_count s) (created_count s)
    (updated_count s) (deleted_count s) (S (errors_count s)) (skipped_count s).
Definition incr_skipped (s : stats) : stats :=
  Build_stats (ad_groups_count s) (y360_groups_count s) (created_count s)
    (updated_count s) (deleted_count s) (errors_count s) (S (skipped_count s)).

(** [y360_groups_by_external_id]: later groups overwrite earlier ones, groups
    with an empty or missing externalId are not indexed. *)
Definition y360_groups_by_external_id (y360_groups : list y360_group)
  : gmap string y360_group :=
  foldl (fun m group =>
           let external_id := default "" (y360_externalId group) in
           if bool_decide (external_id ≠ "") then <[external_id := group]> m else m)
        ∅ y360_groups.

(** [expected_label = mail.split('@')[0] if mail and '@' in mail else None] *)
Definition expected_label (mail : string) : option string :=
  if Py.contains "@" mail then Some (Py.before "@" mail) else None.

(** [expected_description = description if description else ""] *)
Definition expected_description (description : option string) : string :=
  if Py.truthy description then default "" description else "".

(** The dictionary [changes_needed] built for a source group found in the
    target. *)
Definition changes_needed (display_name mail : string) (description : option string)
    (y360_group : y360_group) : gmap string string :=
  let changes0 : gmap string string := ∅ in
  let y360_name := default "" (y360_name y360_group) in
  let changes1 :=
    if bool_decide (y360_name ≠ display_name)
    then <["name" := display_name]> changes0 else changes0 in
  let y360_label := default "" (y360_label y360_group) in
  let changes2 :=
    if Py.truthy (expected_label mail)
    then if bool_decide (y360_label ≠ default "" (expected_label mail))
         then <["label" := default "" (expected_label mail)]> changes1
         else changes1
    else changes1 in
  let y360_description := default "" (y360_description y360_group) in
  if bool_decide (y360_description ≠ expected_description description)
  then <["description" := expected_description description]> changes2
  else changes2.

(** The dictionary [group_data] sent to create a group. *)
Definition group_data (display_name external_id mail : string)
    (description : option string) : gmap string string :=
  let data0 : gmap string string :=
    <["externalId" := external_id]> (<["name" := display_name]> ∅) in
  let data1 :=
    if Py.contains "@" mail
    then <["label" := Py.before "@" mail]> data0 else data0 in
  if Py.truthy description
  then <["description" := default "" description]> data1 else data1.

(** One iteration of the loop over [ad_groups]. *)
Definition sync_ad_group (dry_run : bool) (api : Remote)
    (index : gmap string y360_group) (acc : list call * stats)
    (ad_group : ad_group) : list call * stats :=
  let '(h, st) := acc in
  let object_guid := ad_objectGUID ad_group in
  let display_name := ad_displayName ad_group in
  let mail := ad_mail ad_group in
  let description := ad_description ad_group in
  if negb (Py.truthy object_guid) then (h, incr_skipped st)
  else if negb (Py.truthy display_name) then (h, incr_skipped st)
  else if negb (Py.truthy mail) then (h, incr_skipped st)
  else
    let display_name := default "" display_name in
    let mail := default "" mail in
    let external_id := "DDG;" +:+ default "" object_guid in
    match index !! external_id with
    | Some y360_group =>
        let group_id := y360_id y360_group in
        let changes := changes_needed display_name mail description y360_group in
        if bool_decide (changes ≠ ∅) then
          if negb dry_run then
            if patch_group_by_api api h group_id changes
            then (h ++ [PatchGroup group_id changes], incr_updated st)
            else (h ++ [PatchGroup group_id changes], incr_errors st)
          else (h, incr_updated st)
        else (h, st)
    | None =>
        let data := group_data display_name external_id mail description in
        if negb dry_run then
          if create_group_by_api api h data
          then (h ++ [CreateGroup data], incr_created st)
          else (h ++ [CreateGroup data], incr_errors st)
        else (h, incr_created st)
    end.

(** [ad_object_guids] *)
Definition ad_object_guids (ad_groups : list ad_group) : gset string :=
  foldl (fun s ad_group =>
           if Py.truthy (ad_objectGUID ad_group)
           then {[default "" (ad_objectGUID ad_group)]} ∪ s else s)
        ∅ ad_groups.

(** An entry of [groups_to_delete]. *)
Record deletion := {
  del_id : option Z;
  del_name : option string;
  del_externalId : string;
  del_objectGUID : string
}.

Definition groups_to_delete (ad_groups : list ad_group)
    (y360_groups : list y360_group) : list deletion :=
  foldl (fun acc y360_group =>
           let external_id := default "" (y360_externalId y360_group) in
           if Py.startswith "DDG;" external_id then
             match Py.split_once ";" external_id with
             | None => acc
             | Some (_, object_guid) =>
                 if bool_decide (object_guid ∉ ad_object_guids ad_groups)
                 then acc ++ [Build_deletion (y360_id y360_group)
                                (y360_name y360_group) external_id object_guid]
                 else acc
             end
           else acc)
        [] y360_groups.

(** One iteration of the loop over [groups_to_delete]. *)
Definition delete_group (dry_run : bool) (api : Remote)
    (acc : list call * stats) (group : deletion) : list call * stats :=
  let '(h, st) := acc in
  if negb dry_run then
    let '(success, removed) := delete_group_by_api api h (del_id group) in
    if (success && removed)%bool
    then (h ++ [DeleteGroup (del_id group)], incr_deleted st)
    else (h ++ [DeleteGroup (del_id group)], incr_errors st)
  else (h, incr_deleted st).

(** The orchestrator.  It returns the calls it made and its pair
    [(success, stats)]. *)
Definition sync_ad_groups_to_y360 (dry_run : bool) (api : Remote)
    (ad_groups : list ad_group) (y360_groups : list y360_group)
  : list call * (bool * stats) :=
  match ad_groups with
  | [] => ([], (true, stats0))
  | _ =>
      let st := set_counts (length ad_groups) (length y360_groups) stats0 in
      let index := y360_groups_by_external_id y360_groups in
      let acc1 := foldl (sync_ad_group dry_run api index) ([], st) ad_groups in
      let '(h, st') :=
        foldl (delete_group dry_run api) acc1
              (groups_to_delete ad_groups y360_groups) in
      (h, (bool_decide (errors_count st' = 0), st'))
  end.

End Groups.

(** ** Membership-level sync: [sync_group_members] *)

Module Members.

Record stats := {
  y360_groups_processed : nat;
  ad_groups_found : nat;
  users_added_count : nat;
  users_removed_count : nat;
  users_not_found_count : nat;
  errors_count : nat;
  skipped_groups_count : nat
}.

Definition stats0 : stats := Build_stats 0 0 0 0 0 0 0.

Definition incr_processed (s : stats) : stats :=
  Build_stats (S (y360_groups_processed s)) (ad_groups_found s)
    (users_added_count s) (users_removed_count s) (users_not_found_count s)
    (errors_count s) (skipped_groups_count s).
Definition incr_found (s : stats) : stats :=
  Build_stats (y360_groups_processed s) (S (ad_groups_found s))
    (users_added_count s) (users_removed_count s) (users_not_found_count s)
    (errors_count s) (skipped_groups_count s).
Definition incr_added (s : stats) : stats :=
  Build_stats (y360_groups_processed s) (ad_groups_found s)
    (S (users_added_count s)) (users_removed_count s) (users_not_found_count s)
    (errors_count s) (skipped_groups_count s).
Definition incr_removed (s : stats) : stats :=
  Build_stats (y360_groups_processed s) (ad_groups_found s)
    (users_added_count s) (S (users_removed_count s)) (users_not_found_count s)
    (errors_count s) (skipped_groups_count s).
Definition add_not_found (n : nat) (s : stats) : stats :=
  Build_stats (y360_groups_processed s) (ad_groups_found s)
    (users_added_count s) (users_removed_count s) (n + users_not_found_count s)
    (errors_count s) (skipped_groups_count s).
Definition incr_errors (s : stats) : stats :=
  Build_stats (y360_groups_processed s) (ad_groups_found s)
    (users_added_count s) (users_removed_count s) (users_not_found_count s)
    (S (errors_count s)) (skipped_groups_count s).
Definition incr_skipped (s : stats) : stats :=
  Build_stats (y360_groups_processed s) (ad_groups_found s)
    (users_added_count s) (users_removed_count s) (users_not_found_count s)
    (errors_count s) (S (skipped_groups_count s)).

(** The only exception the body of the orchestrator can raise: a method
    called on [None]. *)
Inductive exn := AttributeError.

Inductive result (A : Type) :=
| Return (a : A)
| Raise (e : exn).
Arguments Return {A} a.
Arguments Raise {A} e.

(** The directory of membership files: a file name is mapped to the rows the
    CSV reader yields from it (header included), or to [None] when the file
    does not exist or cannot be read. *)
Definition directory := string -> option (list (list string)).

(** The cell of the second column with white space, then double quotes, then
    single quotes stripped from both ends. *)
Definition double_quote : ascii := ascii_of_nat 34.
Definition single_quote : ascii := ascii_of_nat 39.

Definition clean_email (cell : string) : string :=
  Py.strip (Py.is_char single_quote)
    (Py.strip (Py.is_char double_quote) (Py.strip Py.is_space cell)).

(** The name of the membership file of a group, from its displayName. *)
Definition filename (display_name : string) : string :=
  let display_name_formatted := Py.replace " " "_" display_name in
  "Группа_рассылки_" +:+ display_name_formatted +:+ ".csv".

Definition get_group_members_from_file (members_files_dir : directory)
    (ad_group : ad_group) : list string :=
  let display_name := ad_displayName ad_group in
  if negb (Py.truthy display_name) then []
  else
    match members_files_dir (filename (default "" display_name)) with
    | None => []
    | Some rows =>
        foldl (fun emails row =>
                 match row with
                 | _ :: cell :: _ =>
                     let email := clean_email cell in
                     if bool_decide (email ≠ "") then emails ++ [email] else emails
                 | _ => emails
                 end)
              [] (tail rows)
    end.

(** [ad_groups_by_guid] *)
Definition ad_groups_by_guid (ad_groups : list ad_group) : gmap string ad_group :=
  foldl (fun m ad_group =>
           if Py.truthy (ad_objectGUID ad_group)
           then <[default "" (ad_objectGUID ad_group) := ad_group]> m else m)
        ∅ ad_groups.

(** [y360_users_by_nickname]: the alias index.  Every user with a nickname is
    entered under its lower-cased nickname and under each of its lower-cased
    aliases; a later entry overwrites an earlier one. *)
Definition index_user (m : gmap string y360_user) (user : y360_user)
  : gmap string y360_user :=
  if Py.truthy (user_nickname user) then
    foldl (fun m alias => <[Py.lower alias := user]> m)
          (<[Py.lower (default "" (user_nickname user)) := user]> m)
          (user_aliases user)
  else m.

Definition y360_users_by_nickname (y360_users : list y360_user)
  : gmap string y360_user :=
  foldl index_user ∅ y360_users.

(** [y360_member_nicknames]: the loop over the current members.  The aliases
    of a member are read from the alias index; [nickname.lower()] on a
    missing nickname and [.get('aliases', [])] on a missing index entry raise
    AttributeError. *)
Fixpoint y360_member_nicknames (index : gmap string y360_user)
    (acc : gset string) (y360_member_users : list y360_user)
  : result (gset string) :=
  match y360_member_users with
  | [] => Return acc
  | user :: rest =>
      match user_nickname user with
      | None => Raise AttributeError
      | Some nickname =>
          let acc1 :=
            if bool_decide (nickname ≠ "") then {[Py.lower nickname]} ∪ acc else acc in
          match index !! Py.lower nickname with
          | None => Raise AttributeError
          | Some entry =>
              y360_member_nicknames index
                (foldl (fun s alias => {[Py.lower alias]} ∪ s) acc1 (user_aliases entry))
                rest
          end
      end
  end.

(** [ad_nicknames_set] *)
Definition ad_nicknames_set (ad_member_emails : list string) : gset string :=
  foldl (fun s ad_email =>
           if Py.contains "@" ad_email
           then {[Py.lower (Py.before "@" ad_email)]} ∪ s else s)
        ∅ ad_member_emails.

(** An entry of [users_to_add] or of [users_to_remove]. *)
Record change := {
  nickname : string;
  change_user_id : option string
}.

(** The loop that fills [users_to_add]; the second component counts the
    handles found in no target user.  A Python set is iterated in an order
    the language does not fix; [elements] fixes one. *)
Definition users_to_add (index : gmap string y360_user)
    (member_nicknames ad_nicknames : gset string) : list change * nat :=
  foldl (fun '(to_add, not_found) ad_nickname =>
           if bool_decide (ad_nickname ∉ member_nicknames) then
             match index !! ad_nickname with
             | Some y360_user =>
                 (to_add ++ [Build_change ad_nickname (user_id y360_user)], not_found)
             | None => (to_add, S not_found)
             end
           else (to_add, not_found))
        ([], 0) (elements ad_nicknames).

(** The loop that fills [users_to_remove]. *)
Definition users_to_remove (y360_member_users : list y360_user)
    (ad_nicknames : gset string) : list change :=
  foldl (fun to_remove y360_user =>
           if Py.truthy (user_nickname y360_user) then
             let nickname := default "" (user_nickname y360_user) in
             if bool_decide (Py.lower nickname ∉ ad_nicknames)
             then to_remove ++ [Build_change nickname (user_id y360_user)]
             else to_remove
           else to_remove)
        [] y360_member_users.

(** One iteration of the loop over [users_to_add]. *)
Definition add_user (dry_run : bool) (api : Remote) (group_id : option Z)
    (acc : list call * stats) (user_info : change) : list call * stats :=
  let '(h, st) := acc in
  if negb dry_run then
    let '(success_add, added) :=
      add_member_to_group_by_api api h group_id "user" (change_user_id user_info) in
    let h' := h ++ [AddMember group_id "user" (change_user_id user_info)] in
    if (success_add && added)%bool then (h', incr_added st)
    else if (success_add && negb added)%bool then (h', st)
    else (h', incr_errors st)
  else (h, incr_added st).

(** One iteration of the loop over [users_to_remove]. *)
Definition remove_user (dry_run : bool) (api : Remote) (group_id : option Z)
    (acc : list call * stats) (user_info : change) : list call * stats :=
  let '(h, st) := acc in
  if negb dry_run then
    let '(success_remove, deleted) :=
      delete_member_from_group_by_api api h group_id "user" (change_user_id user_info) in
    let h' := h ++ [DeleteMember group_id "user" (change_user_id user_info)] in
    if (success_remove && deleted)%bool then (h', incr_removed st)
    else if (success_remove && negb deleted)%bool then (h', st)
    else (h', incr_errors st)
  else (h, incr_removed st).

(** One iteration of the loop over [y360_groups]. *)
Definition sync_y360_group (dry_run : bool) (api : Remote)
    (members_files_dir : directory)
    (by_guid : gmap string ad_group) (by_nickname : gmap string y360_user)
    (h : list call) (st : stats) (y360_group : y360_group)
  : list call * result stats :=
  let external_id := default "" (y360_externalId y360_group) in
  if negb (Py.startswith "DDG;" external_id) then (h, Return st)
  else
    let group_id := y360_id y360_group in
    let st := incr_processed st in
    match Py.split_once ";" external_id with
    | None => (h, Return (incr_skipped st))
    | Some (_, object_guid) =>
        match by_guid !! object_guid with
        | None => (h, Return (incr_skipped st))
        | Some ad_group =>
            let st := incr_found st in
            let '(success_y360, y360_member_users) :=
              get_group_members_by_api api h group_id in
            let h := h ++ [GetGroupMembers group_id] in
            if negb success_y360 then (h, Return (incr_errors st))
            else
              match y360_member_nicknames by_nickname ∅ y360_member_users with
              | Raise e => (h, Raise e)
              | Return member_nicknames =>
                  let ad_member_emails :=
                    get_group_members_from_file members_files_dir ad_group in
                  match ad_member_emails with
                  | [] => (h, Return (incr_skipped st))
                  | _ =>
                      let ad_nicknames := ad_nicknames_set ad_member_emails in
                      let '(to_add, not_found) :=
                        users_to_add by_nickname member_nicknames ad_nicknames in
                      let st := add_not_found not_found st in
                      let to_remove := users_to_remove y360_member_users ad_nicknames in
                      let acc1 := foldl (add_user dry_run api group_id) (h, st) to_add in
                      let '(h, st) :=
                        foldl (remove_user dry_run api group_id) acc1 to_remove in
                      (h, Return st)
                  end
              end
        end
    end.

(** The loop over [y360_groups]; an exception ends it. *)
Fixpoint sync_y360_groups (dry_run : bool) (api : Remote)
    (members_files_dir : directory)
    (by_guid : gmap string ad_group) (by_nickname : gmap string y360_user)
    (h : list call) (st : stats) (y360_groups : list y360_group)
  : list call * result stats :=
  match y360_groups with
  | [] => (h, Return st)
  | y360_group :: rest =>
      match sync_y360_group dry_run api members_files_dir by_guid by_nickname
              h st y360_group with
      | (h', Return st') =>
          sync_y360_groups dry_run api members_files_dir by_guid by_nickname h' st' rest
      | (h', Raise e) => (h', Raise e)
      end
  end.

(** The orchestrator.  It returns the calls it made and either its pair
    [(success, stats)] or the exception that escaped. *)
Definition sync_group_members (dry_run : bool) (api : Remote)
    (members_files_dir : directory)
    (ad_groups : list ad_group) (y360_groups : list y360_group)
    (y360_users : list y360_user) : list call * result (bool * stats) :=
  match ad_groups, y360_groups, y360_users with
  | [], _, _ => ([], Return (true, stats0))
  | _, [], _ => ([], Return (true, stats0))
  | _, _, [] => ([], Return (true, stats0))
  | _, _, _ =>
      let by_guid := ad_groups_by_guid ad_groups in
      let by_nickname := y360_users_by_nickname y360_users in
      match sync_y360_groups dry_run api members_files_dir by_guid by_nickname
              [] stats0 y360_groups with
      | (h, Return st) => (h, Return (bool_decide (errors_count st = 0), st))
      | (h, Raise e) => (h, Raise e)
      end
  end.

End Members.

(** ** The target service's group store *)

Module Store.

(** Modelled from the spec: the id the target service assigns to a group it
    creates ([TargetGroup.id] is service-assigned); the service is not part
    of the script.  Here: an id above every id in use. *)
Definition fresh_id (store : list y360_group) : Z :=
  1 + foldr (fun g m => Z.max (default 0%Z (y360_id g)) m) 0%Z store.

(** Modelled from the spec: the group [createGroup(payload)] of section 6
    adds to the service, which stores the payload sent under a new id. *)
Definition created (store : list y360_group) (data : gmap string string)
  : y360_group :=
  Build_y360_group (Some (fresh_id store)) (data !! "externalId")
    (data !! "name") (data !! "label") (data !! "description").

(** Modelled from the spec: the group after [patchGroup(id, patch)] of
    section 6, which overwrites the attributes the patch names. *)
Definition patched (patch : gmap string string) (g : y360_group) : y360_group :=
  Build_y360_group (y360_id g) (y360_externalId g)
    (match patch !! "name" with Some v => Some v | None => y360_name g end)
    (match patch !! "label" with Some v => Some v | None => y360_label g end)
    (match patch !! "description" with Some v => Some v | None => y360_description g end).

(** Modelled from the spec: the effect of one remote operation of section 6
    on the groups the target service holds.  A creation appends the created
    group, a patch changes the group with the given id, a deletion removes
    the group with the given id; reads and member operations leave the
    groups as they are. *)
Definition apply_call (store : list y360_group) (c : call) : list y360_group :=
  match c with
  | CreateGroup data => store ++ [created store data]
  | PatchGroup group_id patch =>
      (fun g => if bool_decide (y360_id g = group_id) then patched patch g else g)
        <$> store
  | DeleteGroup group_id => filter (fun g => y360_id g ≠ group_id) store
  | _ => store
  end.

(** Modelled from the spec: the groups the target service holds after the
    calls [h], applied in the order they were made. *)
Definition replay (h : list call) (store : list y360_group) : list y360_group :=
  foldl apply_call store h.

(** A service that reports every call applied. *)
Definition applied : Remote :=
  Build_Remote (fun _ _ => true) (fun _ _ _ => true) (fun _ _ => (true, true))
    (fun _ _ => (true, [])) (fun _ _ _ _ => (true, true))
    (fun _ _ _ _ => (true, true)).

End Store.

(** ** Hypotheses on the remote service used by the statements *)

(** Every mutating call succeeds and reports its change applied. *)
Definition always_applied (api : Remote) : Prop :=
  (∀ h data, create_group_by_api api h data = true) ∧
  (∀ h gid patch, patch_group_by_api api h gid patch = true) ∧
  (∀ h gid, delete_group_by_api api h gid = (true, true)) ∧
  (∀ h gid ty uid, add_member_to_group_by_api api h gid ty uid = (true, true)) ∧
  (∀ h gid ty uid, delete_member_from_group_by_api api h gid ty uid = (true, true)).

(** The member list read for a group does not depend on the calls made
    before: the snapshot is fixed. *)
Definition static_members (api : Remote) : Prop :=
  ∀ h h' gid, get_group_members_by_api api h gid = get_group_members_by_api api h' gid.

(** ** Sample data *)

Module Sample.

Definition alice : y360_user := Build_y360_user (Some "1") (Some "alice") ["a.smith"].
Definition bob : y360_user := Build_y360_user (Some "2") (Some "bob") [].
Definition carol : y360_user := Build_y360_user (Some "3") (Some "carol") [].

Definition sales : ad_group :=
  Build_ad_group (Some "G1") (Some "Sales") (Some "sales@x") None.

Definition y360_sales : y360_group :=
  Build_y360_group (Some 10%Z) (Some "DDG;G1") (Some "Sales") (Some "sales") None.

(** A service holding one member list, the same for every group. *)
Definition api_with (members : list y360_user) : Remote :=
  Build_Remote (fun _ _ => true) (fun _ _ _ => true) (fun _ _ => (true, true))
    (fun _ _ => (true, members)) (fun _ _ _ _ => (true, true))
    (fun _ _ _ _ => (true, true)).

(** A service whose member read fails. *)
Definition api_down : Remote :=
  Build_Remote (fun _ _ => true) (fun _ _ _ => true) (fun _ _ => (true, true))
    (fun _ _ => (false, [])) (fun _ _ _ _ => (true, true))
    (fun _ _ _ _ => (true, true)).

(** A directory with the membership file of the group Sales. *)
Definition sales_dir : Members.directory :=
  fun filename =>
    if bool_decide (filename = "Группа_рассылки_Sales.csv")
    then Some [["name"; "email"]; ["A. Smith"; "a.smith@x"]; ["Carol"; "carol@x"]]
    else None.

Definition empty_dir : Members.directory := fun _ => None.

(** Target users in which the handle bob is claimed twice: as the nickname
    of one user and as an alias of a later one. *)
Definition bob_robert : y360_user := Build_y360_user (Some "7") (Some "bob") ["robert"].
Definition rob_bob : y360_user := Build_y360_user (Some "8") (Some "rob") ["bob"].

(** A source group absent from the target, and target groups to update, to
    delete and to leave alone. *)
Definition hr : ad_group :=
  Build_ad_group (Some "G2") (Some "HR") (Some "hr@x") (Some "People").
Definition y360_sale : y360_group :=
  Build_y360_group (Some 10%Z) (Some "DDG;G1") (Some "Sale") None None.
Definition y360_old : y360_group :=
  Build_y360_group (Some 11%Z) (Some "DDG;G9") (Some "Old") None None.
Definition y360_foreign : y360_group :=
  Build_y360_group (Some 12%Z) None (Some "Foreign") None None.

End Sample.

(** ** Statement helpers *)

(** The source groups the loop of [sync_ad_groups_to_y360] does not skip:
    objectGUID, displayName and mail are all present and non-empty. *)
Definition has_required (a : ad_group) : bool :=
  (Py.truthy (ad_objectGUID a) && Py.truthy (ad_displayName a)
   && Py.truthy (ad_mail a))%bool.

(** The non-empty objectGUIDs of the source groups, in order. *)
Definition source_guids (ad_groups : list ad_group) : list string :=
  omap (fun a => if Py.truthy (ad_objectGUID a) then ad_objectGUID a else None)
       ad_groups.

(** The entry of [groups_to_delete] a target group gives rise to, if any. *)
Definition deletion_of (ad_groups : list ad_group) (y : y360_group)
  : option Groups.deletion :=
  let external_id := default "" (y360_externalId y) in
  if Py.startswith "DDG;" external_id then
    match Py.split_once ";" external_id with
    | None => None
    | Some (_, object_guid) =>
        if bool_decide (object_guid ∉ Groups.ad_object_guids ad_groups)
        then Some (Groups.Build_deletion (y360_id y) (y360_name y)
                     external_id object_guid)
        else None
    end
  else None.

(** The calls the first loop of [sync_ad_groups_to_y360] can make, given its
    index: a creation, or a patch of the group the index gives for a tag. *)
Definition tagged_patch_or_create (index : gmap string y360_group) (c : call) : Prop :=
  (∃ data, c = CreateGroup data) ∨
  (∃ guid g patch, c = PatchGroup (y360_id g) patch ∧
                   index !! ("DDG;" +:+ guid) = Some g).


(** The tag of a source group. *)
Definition tag_of (a : ad_group) : string := "DDG;" +:+ default "" (ad_objectGUID a).

(** The calls an iteration of the first loop of [sync_ad_groups_to_y360]
    makes in a live run. *)
Definition first_loop_calls (index : gmap string y360_group) (a : ad_group)
  : list call :=
  if has_required a then
    let display_name := default "" (ad_displayName a) in
    let mail := default "" (ad_mail a) in
    match index !! tag_of a with
    | Some g =>
        let changes :=
          Groups.changes_needed display_name mail (ad_description a) g in
        if bool_decide (changes ≠ ∅) then [PatchGroup (y360_id g) changes] else []
    | None =>
        [CreateGroup (Groups.group_data display_name (tag_of a) mail
                        (ad_description a))]
    end
  else [].

(** A target group needs no change to match a source group. *)
Definition in_sync (a : ad_group) (g : y360_group) : Prop :=
  Groups.changes_needed (default "" (ad_displayName a)) (default "" (ad_mail a))
    (ad_description a) g = ∅.

(** The groups of a store carrying a tag. *)
Definition with_tag (k : string) (store : list y360_group) : list y360_group :=
  filter (λ g, y360_externalId g = Some k) store.

(** A call that leaves the group [x] as the last group tagged [k]. *)
Definition harmless (k : string) (x : y360_group) (c : call) : Prop :=
  match c with
  | CreateGroup data => data !! "externalId" ≠ Some k
  | PatchGroup group_id _ => group_id ≠ y360_id x
  | DeleteGroup group_id => group_id ≠ y360_id x
  | _ => True
  end.

(** A group of the store is accounted for when it has the id and the tag of
    a snapshot group, or the tag of a source group. *)
Definition accounted (ad_groups : list ad_group) (y360_groups : list y360_group)
    (g : y360_group) : Prop :=
  (∃ o, o ∈ y360_groups ∧ y360_id g = y360_id o ∧
        y360_externalId g = y360_externalId o) ∨
  (∃ guid, guid ∈ Groups.ad_object_guids ad_groups ∧
           y360_externalId g = Some ("DDG;" +:+ guid)).

(** * The requests, the settings and the script *)

(** ** The request loop of the [*_by_api] functions *)

Module Http.

Definition MAX_RETRIES : nat := 3.
Definition RETRIES_DELAY_SEC : nat := 2.

(** What one request gives: a response with its status code and the value
    [response.json()] returns ([None] when it raises), or an exception raised
    by the request itself. *)
Inductive outcome (A : Type) :=
| Response (status_code : nat) (json : option A)
| Throws.
Arguments Response {A} status_code json.
Arguments Throws {A}.

(** What a [*_by_api] function returns, [success] and the body ([None] is
    the empty dictionary), with the number of requests it made and the
    seconds it slept. *)
Record report (A : Type) := {
  success : bool;
  result : option A;
  requests : nat;
  slept : nat
}.
Arguments Build_report {A} success result requests slept.
Arguments success {A} r.
Arguments result {A} r.
Arguments requests {A} r.
Arguments slept {A} r.

(** The loop of [create_group_by_api], [patch_group_by_api],
    [delete_group_by_api], [get_group_members_by_api],
    [add_member_to_group_by_api] and [delete_member_from_group_by_api]: the
    [while True] is inside the [try], so an exception ends it with
    [has_errors] set.  After a 200 answer each function but
    [patch_group_by_api] looks into the body it read, still inside the [try]:
    [readable body] tells whether that look succeeds, and a body on which it
    raises gives the failure result.  [net k] is the outcome of the request
    made after [k] others; [None] is a loop still running when the fuel is
    spent. *)
Fixpoint request_loop {A : Type} (readable : A → bool) (fuel : nat)
    (net : nat → outcome A) (k retries slept : nat) : option (report A) :=
  match fuel with
  | 0 => None
  | S fuel =>
      match net k with
      | Throws => Some (Build_report false None (S k) slept)
      | Response status_code json =>
          if bool_decide (status_code ≠ 200) then
            if bool_decide (retries < MAX_RETRIES) then
              request_loop readable fuel net (S k) (S retries)
                (slept + RETRIES_DELAY_SEC * retries)
            else Some (Build_report false None (S k) slept)
          else
            match json with
            | Some body =>
                if readable body
                then Some (Build_report true (Some body) (S k) slept)
                else Some (Build_report false None (S k) slept)
            | None => Some (Build_report false None (S k) slept)
            end
      end
  end.

(** The body shared by the six functions, from [retries = 1] on. *)
Definition request_with_retries {A : Type} (readable : A → bool) (fuel : nat)
    (net : nat → outcome A) : option (report A) :=
  request_loop readable fuel net 0 1 0.

(** [add_member_to_group_by_api] and [delete_member_from_group_by_api] first
    check the member type, and make no request for an unknown one. *)
Definition valid_member_types : list string := ["user"; "group"; "department"].

Definition member_request {A : Type} (readable : A → bool) (fuel : nat)
    (member_type : string) (net : nat → outcome A) : option (report A) :=
  if bool_decide (member_type ∉ valid_member_types)
  then Some (Build_report false None 0 0)
  else request_with_retries readable fuel net.

(** The loop of [patch_user_by_api] and [patch_department_by_api]: here the
    [try] is inside the [while True], so after an exception the loop goes
    round again, with [retries] as it was. *)
Fixpoint patch_loop {A : Type} (fuel : nat) (net : nat → outcome A)
    (k retries slept : nat) : option (bool * nat) :=
  match fuel with
  | 0 => None
  | S fuel =>
      match net k with
      | Throws => patch_loop fuel net (S k) retries slept
      | Response status_code _ =>
          if bool_decide (status_code ≠ 200) then
            if bool_decide (retries < MAX_RETRIES) then
              patch_loop fuel net (S k) (S retries)
                (slept + RETRIES_DELAY_SEC * retries)
            else Some (false, S k)
          else Some (true, S k)
      end
  end.

(** [patch_user_by_api]: [success] and the number of requests made. *)
Definition patch_user_by_api {A : Type} (fuel : nat) (net : nat → outcome A)
  : option (bool * nat) :=
  patch_loop fuel net 0 1 0.

End Http.

(** ** The paginated reads *)

Module Paging.

(** What the request for one page gives.  A response answered 200 carries
    the items of the page and the number of pages. *)
Inductive page_outcome (A : Type) :=
| PageResponse (status_code : nat) (items : list A) (pages : nat)
| PageThrows.
Arguments PageResponse {A} status_code items pages.
Arguments PageThrows {A}.

Inductive page_result (A : Type) :=
| Got (items : list A) (pages : nat)
| Failed
| Looping.
Arguments Got {A} items pages.
Arguments Failed {A}.
Arguments Looping {A}.

(** The inner loop, for one page.  [net page retries] is the outcome of the
    request for [page] made when the counter is [retries]. *)
Fixpoint get_page {A : Type} (fuel : nat) (net : nat → nat → page_outcome A)
    (page retries : nat) : page_result A :=
  match fuel with
  | 0 => Looping
  | S fuel =>
      match net page retries with
      | PageThrows => Failed
      | PageResponse status_code items pages =>
          if bool_decide (status_code ≠ 200) then
            if bool_decide (retries < Http.MAX_RETRIES)
            then get_page fuel net page (S retries)
            else Failed
          else Got items pages
      end
  end.

(** What a paginated read returns: its list, or an exception raised while
    the items of a page were examined. *)
Inductive fetched (A : Type) :=
| Fetched (l : list A)
| Escaped.
Arguments Fetched {A} l.
Arguments Escaped {A}.

(** The items of a page that are kept; [keep] gives [None] when examining an
    item raises. *)
Fixpoint select {A : Type} (keep : A → option bool) (items : list A)
  : option (list A) :=
  match items with
  | [] => Some []
  | x :: rest =>
      match keep x with
      | None => None
      | Some b =>
          match select keep rest with
          | None => None
          | Some kept => Some (if b then x :: kept else kept)
          end
      end
  end.

(** The outer loop [while current_page <= last_page]; [None] is a loop still
    running when the fuel is spent. *)
Fixpoint fetch_pages {A : Type} (fuel : nat) (net : nat → nat → page_outcome A)
    (keep : A → option bool) (current_page last_page : nat) (acc : list A)
  : option (fetched A) :=
  match fuel with
  | 0 => None
  | S fuel =>
      if bool_decide (current_page ≤ last_page)%nat then
        match get_page Http.MAX_RETRIES net current_page 1 with
        | Got items pages =>
            match select keep items with
            | Some kept =>
                fetch_pages fuel net keep (S current_page) pages (acc ++ kept)
            | None => Some Escaped
            end
        | Failed => Some (Fetched [])
        | Looping => None
        end
      else Some (Fetched acc)
  end.

(** [get_all_groups_from_api360] (and [get_all_api360_departments], which has
    the same body): every item of a page is kept. *)
Definition get_all_groups_from_api360 {A : Type} (fuel : nat)
    (net : nat → nat → page_outcome A) : option (fetched A) :=
  fetch_pages fuel net (λ _, Some true) 1 1 [].

(** A user as the users endpoint returns it. *)
Record api_user := {
  isRobot : bool;
  user : y360_user
}.

(** [not user.get('isRobot') and int(user["id"]) >= 1130000000000000]; the
    conversion [int] is a parameter, [None] when it raises, and a missing id
    raises too. *)
Definition keep_user (int : string → option Z) (u : api_user) : option bool :=
  if isRobot u then Some false
  else
    match user_id (user u) with
    | None => None
    | Some s =>
        match int s with
        | None => None
        | Some n => Some (bool_decide (1130000000000000 ≤ n)%Z)
        end
    end.

(** [get_all_api360_users_from_api] *)
Definition get_all_api360_users_from_api (int : string → option Z) (fuel : nat)
    (net : nat → nat → page_outcome api_user) : option (fetched api_user) :=
  fetch_pages fuel net (keep_user int) 1 1 [].

End Paging.

(** The items and the page count a page is read with, when its read
    succeeds. *)
Definition page_items {A : Type} (net : nat → nat → Paging.page_outcome A)
    (page : nat) : list A :=
  match Paging.get_page Http.MAX_RETRIES net page 1 with
  | Paging.Got items _ => items
  | _ => []
  end.

Definition page_count {A : Type} (net : nat → nat → Paging.page_outcome A)
    (page : nat) : option nat :=
  match Paging.get_page Http.MAX_RETRIES net page 1 with
  | Paging.Got _ pages => Some pages
  | _ => None
  end.

(** The server answers the request for a page within [MAX_RETRIES]
    attempts: attempt [r] is answered 200 with [items] and [pages], the
    attempts before it with another status. *)
Definition answers {A : Type} (net : nat → nat → Paging.page_outcome A)
    (page : nat) (items : list A) (pages : nat) : Prop :=
  ∃ r : nat, (1 ≤ r)%nat ∧ (r ≤ Http.MAX_RETRIES)%nat ∧
    net page r = Paging.PageResponse 200 items pages ∧
    ∀ r' : nat, (1 ≤ r')%nat → (r' < r)%nat →
      ∃ code items' pages',
        net page r' = Paging.PageResponse code items' pages' ∧ code ≠ 200.

(** A server with two pages of two items each, whose second page is
    answered 503 twice before it is served. *)
Definition flaky_pages : nat → nat → Paging.page_outcome nat :=
  λ page retries,
    if bool_decide (page = 2 ∧ retries < 3)%nat
    then Paging.PageResponse 503 [] 0
    else Paging.PageResponse 200 [page; page] 2.

(** The users of a page that pass the filter of
    [get_all_api360_users_from_api]. *)
Definition kept_user (int : string → option Z) (u : Paging.api_user) : Prop :=
  Paging.isRobot u = false ∧
  ∃ (s : string) (n : Z),
    user_id (Paging.user u) = Some s ∧ int s = Some n ∧
    (1130000000000000 ≤ n)%Z.

(** A conversion of the decimal strings of the samples. *)
Definition sample_int (s : string) : option Z :=
  if bool_decide (s = "1130000000000001") then Some 1130000000000001%Z
  else if bool_decide (s = "1130000000000002") then Some 1130000000000002%Z
  else if bool_decide (s = "42") then Some 42%Z
  else None.

Definition api_alice : Paging.api_user :=
  {| Paging.isRobot := false;
     Paging.user := {| user_id := Some "1130000000000001";
                       user_nickname := Some "alice"; user_aliases := [] |} |}.
Definition api_robot : Paging.api_user :=
  {| Paging.isRobot := true;
     Paging.user := {| user_id := Some "1130000000000002";
                       user_nickname := Some "robot"; user_aliases := [] |} |}.
Definition api_external : Paging.api_user :=
  {| Paging.isRobot := false;
     Paging.user := {| user_id := Some "42";
                       user_nickname := Some "guest"; user_aliases := [] |} |}.
Definition api_malformed : Paging.api_user :=
  {| Paging.isRobot := false;
     Paging.user := {| user_id := None;
                       user_nickname := Some "ghost"; user_aliases := [] |} |}.

Definition users_page (items : list Paging.api_user)
  : nat → nat → Paging.page_outcome Paging.api_user :=
  λ _ _, Paging.PageResponse 200 items 1.

(** Page 1 is served, page 2 is refused on every attempt. *)
Definition second_page_down : nat → nat → Paging.page_outcome nat :=
  λ page _,
    if bool_decide (page = 1)%nat
    then Paging.PageResponse 200 [7; 8] 2
    else Paging.PageResponse 500 [] 0.

(** ** Statement helpers for the orchestrators *)

(** The payload of a creation. *)
Definition creation_payload (c : call) : option (gmap string string) :=
  match c with
  | CreateGroup data => Some data
  | _ => None
  end.

(** The payload [sync_ad_groups_to_y360] sends to create the target group of
    a source group. *)
Definition payload_of (a : ad_group) : gmap string string :=
  Groups.group_data (default "" (ad_displayName a)) (tag_of a)
    (default "" (ad_mail a)) (ad_description a).

(** The calls counted by the statistics of the group-level sync. *)
Definition counted (st : Groups.stats) : nat :=
  Groups.created_count st + Groups.updated_count st + Groups.deleted_count st
  + Groups.errors_count st.

(** A call of the membership sync that concerns a tagged target group
    matched to a source group: a read of its members, or the addition or
    removal of a member of type user. *)
Definition member_call (ad_groups : list ad_group)
    (y360_groups : list y360_group) (c : call) : Prop :=
  ∃ (g : y360_group) (guid : string) (a : ad_group),
    g ∈ y360_groups ∧ y360_externalId g = Some ("DDG;" +:+ guid) ∧
    a ∈ ad_groups ∧ ad_objectGUID a = Some guid ∧ guid ≠ "" ∧
    (c = GetGroupMembers (y360_id g) ∨
     (∃ uid, c = AddMember (y360_id g) "user" uid) ∨
     (∃ uid, c = DeleteMember (y360_id g) "user" uid)).

(** The target groups the membership sync processes. *)
Definition tagged (g : y360_group) : bool :=
  Py.startswith "DDG;" (default "" (y360_externalId g)).

Definition is_member_read (c : call) : bool :=
  match c with
  | GetGroupMembers _ => true
  | _ => false
  end.

(** The entry of [users_to_remove] a current member gives rise to when it is
    not wanted. *)
Definition removal_of (m : y360_user) : option Members.change :=
  if Py.truthy (user_nickname m)
  then Some (Members.Build_change (default "" (user_nickname m)) (user_id m))
  else None.

(** The handles of a target user: its lower-cased nickname and aliases. *)
Definition handles (u : y360_user) : list string :=
  Py.lower (default "" (user_nickname u)) :: (Py.lower <$> user_aliases u).

(** The handles a target user claims: its primary handle, when it has one,
    and its aliases, lower-cased. *)
Definition claimed (u : y360_user) : list string :=
  match user_nickname u with
  | Some nickname => [Py.lower nickname]
  | None => []
  end ++ (Py.lower <$> user_aliases u).

(** The invariant of the target users: a handle resolves to at most one of
    them.  Two target users that claim one handle are one user. *)
Definition unique_handles (y360_users : list y360_user) : Prop :=
  ∀ (u v : y360_user) (k : string),
    u ∈ y360_users → v ∈ y360_users → k ∈ claimed u → k ∈ claimed v → u = v.

(** The entry of a target user in a member list: the member list of a group
    gives the id and the primary handle of a user, the aliases are those of
    the list of the users. *)
Definition entry_of (u m : y360_user) : Prop :=
  user_id m = user_id u ∧ user_nickname m = user_nickname u.

(** The target user [u] is a current member. *)
Definition is_member (u : y360_user) (members : list y360_user) : Prop :=
  ∃ m, m ∈ members ∧ entry_of u m.


(** A directory in which the membership file of the group Sales lists names
    but no address. *)
Definition names_only_dir : Members.directory :=
  fun filename =>
    if bool_decide (filename = "Группа_рассылки_Sales.csv")
    then Some [["name"; "email"]; ["A. Smith"; "a.smith"]]
    else None.

(** ** Masking of logged payloads: [mask_sensitive_data] *)

Module Mask.

(** A JSON value as Python holds it; a dictionary keeps its entries in
    insertion order. *)
Inductive json :=
| JNull
| JBool (b : bool)
| JNum (n : Z)
| JStr (s : string)
| JList (items : list json)
| JDict (fields : list (string * json)).

Definition SENSITIVE_FIELDS : list string :=
  ["password"; "oauth_token"; "access_token"; "token"].

Definition MASKED : json := JStr "***MASKED***".

(** [key.lower() in sensitive_fields] *)
Definition sensitive (key : string) : bool :=
  bool_decide (Py.lower key ∈ SENSITIVE_FIELDS).

(** [isinstance(value, (dict, list))] *)
Definition is_container (value : json) : bool :=
  match value with
  | JDict _ | JList _ => true
  | _ => false
  end.

(** [mask_recursive], as a function of the value it is given: the value of
    a sensitive key is replaced, the value of another key is descended into
    when it is a dictionary or a list, and every item of a list is descended
    into. *)
Fixpoint mask_recursive (obj : json) : json :=
  match obj with
  | JDict fields =>
      JDict ((fix mask_fields (fields : list (string * json)) :=
                match fields with
                | [] => []
                | (key, value) :: rest =>
                    (key,
                     if sensitive key then MASKED
                     else
                       match value with
                       | JDict _ | JList _ => mask_recursive value
                       | _ => value
                       end) :: mask_fields rest
                end) fields)
  | JList items =>
      JList ((fix mask_items (items : list json) :=
                match items with
                | [] => []
                | item :: rest => mask_recursive item :: mask_items rest
                end) items)
  | _ => obj
  end.

(** [mask_sensitive_data]: the deep copy is the value itself. *)
Definition mask_sensitive_data (data : json) : json := mask_recursive data.

(** [stored obj key value]: somewhere in [obj], at any depth, a dictionary
    holds [value] under [key]. *)
Inductive stored : json → string → json → Prop :=
| stored_here fields key value :
    (key, value) ∈ fields → stored (JDict fields) key value
| stored_in_field fields key' child key value :
    (key', child) ∈ fields → stored child key value →
    stored (JDict fields) key value
| stored_in_item items child key value :
    child ∈ items → stored child key value →
    stored (JList items) key value.

(** What [mask_recursive] leaves in a dictionary entry. *)
Definition mask_field (field : string * json) : string * json :=
  (field.1, if sensitive field.1 then MASKED else mask_recursive field.2).

(** The keys of a value, at every depth and in order. *)
Fixpoint keys (obj : json) : list string :=
  match obj with
  | JDict fields =>
      (fix keys_fields (fields : list (string * json)) :=
         match fields with
         | [] => []
         | (key, value) :: rest => key :: keys value ++ keys_fields rest
         end) fields
  | JList items =>
      (fix keys_items (items : list json) :=
         match items with
         | [] => []
         | item :: rest => keys item ++ keys_items rest
         end) items
  | _ => []
  end.

(** A payload as [create_group_by_api] logs it, with a token added. *)
Definition sample_payload : json :=
  JDict [("name", JStr "Sales");
         ("Token", JStr "secret");
         ("members", JList [JDict [("type", JStr "user");
                                   ("password", JStr "hunter2")]]);
         ("ldap_password", JStr "kept")].

End Mask.

(** ** The six request functions of the groups *)

Module Api.

(** [body.get(key)] on a dictionary; of two entries with one key the later
    is the one the dictionary holds. *)
Definition get (fields : list (string * Mask.json)) (key : string)
  : option Mask.json :=
  snd <$> last (filter (λ field, field.1 = key) fields).

(** [body.get(...)] does not raise: the body is a dictionary. *)
Definition is_object (body : Mask.json) : bool :=
  match body with
  | Mask.JDict _ => true
  | _ => false
  end.

(** [len(value)] does not raise. *)
Definition sized (value : Mask.json) : bool :=
  match value with
  | Mask.JList _ | Mask.JDict _ | Mask.JStr _ => true
  | _ => false
  end.

(** [len(members.get(key, []))] does not raise, for the three keys
    [get_group_members_by_api] counts. *)
Definition members_readable (body : Mask.json) : bool :=
  match body with
  | Mask.JDict fields =>
      forallb (λ key, from_option sized true (get fields key))
        ["users"; "departments"; "groups"]
  | _ => false
  end.

(** [create_group_by_api] reads [created_group.get('id', 'N/A')]. *)
Definition create_group_by_api (fuel : nat)
    (net : nat → Http.outcome Mask.json) : option (Http.report Mask.json) :=
  Http.request_with_retries is_object fuel net.

(** [patch_group_by_api] does not look into the body. *)
Definition patch_group_by_api (fuel : nat)
    (net : nat → Http.outcome Mask.json) : option (Http.report Mask.json) :=
  Http.request_with_retries (λ _, true) fuel net.

(** [delete_group_by_api] reads [result.get('removed', False)]. *)
Definition delete_group_by_api (fuel : nat)
    (net : nat → Http.outcome Mask.json) : option (Http.report Mask.json) :=
  Http.request_with_retries is_object fuel net.

Definition get_group_members_by_api (fuel : nat)
    (net : nat → Http.outcome Mask.json) : option (Http.report Mask.json) :=
  Http.request_with_retries members_readable fuel net.

(** [add_member_to_group_by_api] reads [result.get('added', False)]. *)
Definition add_member_to_group_by_api (fuel : nat) (member_type : string)
    (net : nat → Http.outcome Mask.json) : option (Http.report Mask.json) :=
  Http.member_request is_object fuel member_type net.

(** [delete_member_from_group_by_api] reads [result.get('deleted', False)]. *)
Definition delete_member_from_group_by_api (fuel : nat) (member_type : string)
    (net : nat → Http.outcome Mask.json) : option (Http.report Mask.json) :=
  Http.member_request is_object fuel member_type net.

End Api.

(** ** Settings: [get_settings] *)

(** [s.split(sep)] for a one-character separator. *)
Fixpoint split_from (sep : ascii) (s current : string) : list string :=
  match s with
  | EmptyString => [current]
  | String c rest =>
      if bool_decide (c = sep) then current :: split_from sep rest ""
      else split_from sep rest (current +:+ String c "")
  end.

Definition split_on (sep : ascii) (s : string) : list string :=
  split_from sep s "".

Module Settings.

Record SettingParams := {
  oauth_token : option string;
  org_id : option string;
  all_users : list Paging.api_user;
  all_users_get_timestamp : Z;
  dry_run : bool;
  ldap_host : option string;
  ldap_port : Z;
  ldap_user : option string;
  ldap_password : option string;
  ldaps_enabled : bool;
  ldap_user_base_dn : option string;
  ldap_user_search_filter : option string;
  attrib_user_list : list string;
  ldap_group_base_dn : option string;
  ldap_group_search_filter : option string;
  attrib_group_list : list string;
  members_files_dir : string;
  enable_diagnostics : bool;
  y360_group_members_dir : string
}.

(** What a call of [get_settings] gives: the settings, [None], or an
    exception. *)
Inductive outcome :=
| Accepted (settings : SettingParams)
| Rejected
| Raised.

(** [os.environ.get(name, default).lower() == "true"] *)
Definition flag (env : gmap string string) (name : string) : bool :=
  bool_decide (Py.lower (default "false" (env !! name)) = "true").

(** [os.environ.get(name).split(',') if os.environ.get(name) else []] *)
Definition name_list (env : gmap string string) (name : string) : list string :=
  if Py.truthy (env !! name) then split_on "," (default "" (env !! name)) else [].

(** The record [get_settings] builds before it validates it; [port] is the
    value of [int(os.environ.get('LDAP_PORT'))] and [now] the time read. *)
Definition read (env : gmap string string) (port now : Z) : SettingParams :=
  {| oauth_token := env !! "OAUTH_TOKEN";
     org_id := env !! "ORG_ID";
     all_users := [];
     all_users_get_timestamp := now;
     dry_run := flag env "DRY_RUN";
     ldap_host := env !! "LDAP_HOST";
     ldap_port := port;
     ldap_user := env !! "LDAP_USER";
     ldap_password := env !! "LDAP_PASSWORD";
     ldaps_enabled := flag env "LDAPS_ENABLED";
     ldap_user_base_dn := env !! "LDAP_USER_BASE_DN";
     ldap_user_search_filter := env !! "LDAP_USER_SEARCH_FILTER";
     attrib_user_list := name_list env "ATTRIB_USER_LIST";
     ldap_group_base_dn := env !! "LDAP_GROUP_BASE_DN";
     ldap_group_search_filter := env !! "LDAP_GROUP_SEARCH_FILTER";
     attrib_group_list := name_list env "ATTRIB_GROUP_LIST";
     members_files_dir := default "." (env !! "GROUPS_MEMBERS_FILE_DIR");
     enable_diagnostics := flag env "ENABLE_DIAGNOSTICS";
     y360_group_members_dir :=
       default "./y360_diagnostics" (env !! "Y360_GROUP_MEMBERS_DIR") |}.

(** [get_settings].  [int] is the conversion of a string to a number, [None]
    when it raises, as it does on a missing value; [check_oauth_token] is the
    request that validates the token, [None] when the request raises. *)
Definition get_settings (int : string → option Z)
    (check_oauth_token : string → string → option bool) (now : Z)
    (env : gmap string string) : outcome :=
  match env !! "LDAP_PORT" ≫= int with
  | None => Raised
  | Some port =>
      let settings := read env port now in
      let oauth_token_bad := negb (Py.truthy (oauth_token settings)) in
      let exit_flag := negb (Py.truthy (org_id settings)) in
      if negb (oauth_token_bad || exit_flag) then
        match check_oauth_token (default "" (oauth_token settings))
                (default "" (org_id settings)) with
        | None => Raised
        | Some valid =>
            let oauth_token_bad := negb valid in
            let exit_flag := negb (Py.truthy (ldap_host settings)) in
            let exit_flag :=
              if bool_decide (ldap_port settings = 0%Z) then true else exit_flag in
            let exit_flag :=
              if negb (Py.truthy (ldap_user settings)) then true else exit_flag in
            let exit_flag :=
              if negb (Py.truthy (ldap_password settings)) then true
              else exit_flag in
            let exit_flag := if oauth_token_bad then true else exit_flag in
            if exit_flag then Rejected else Accepted settings
        end
      else
        let exit_flag := if oauth_token_bad then true else exit_flag in
        if exit_flag then Rejected else Accepted settings
  end.

(** A conversion defined on the port of the samples. *)
Definition sample_port (s : string) : option Z :=
  if bool_decide (s = "389") then Some 389%Z
  else if bool_decide (s = "0") then Some 0%Z
  else None.

Definition sample_env : gmap string string :=
  <["OAUTH_TOKEN" := "t0k"]> (<["ORG_ID" := "77"]> (<["LDAP_HOST" := "dc1"]>
  (<["LDAP_PORT" := "389"]> (<["LDAP_USER" := "sync"]>
  (<["LDAP_PASSWORD" := "pw"]> (<["DRY_RUN" := "True"]> ∅)))))).

End Settings.

(** ** The cache of the users: [get_all_api360_users] *)

Definition ALL_USERS_REFRESH_IN_MINUTES : Z := 15.

(** The settings with the cache fields set. *)
Definition with_all_users (settings : Settings.SettingParams)
    (users : list Paging.api_user) (timestamp : Z) : Settings.SettingParams :=
  {| Settings.oauth_token := Settings.oauth_token settings;
     Settings.org_id := Settings.org_id settings;
     Settings.all_users := users;
     Settings.all_users_get_timestamp := timestamp;
     Settings.dry_run := Settings.dry_run settings;
     Settings.ldap_host := Settings.ldap_host settings;
     Settings.ldap_port := Settings.ldap_port settings;
     Settings.ldap_user := Settings.ldap_user settings;
     Settings.ldap_password := Settings.ldap_password settings;
     Settings.ldaps_enabled := Settings.ldaps_enabled settings;
     Settings.ldap_user_base_dn := Settings.ldap_user_base_dn settings;
     Settings.ldap_user_search_filter := Settings.ldap_user_search_filter settings;
     Settings.attrib_user_list := Settings.attrib_user_list settings;
     Settings.ldap_group_base_dn := Settings.ldap_group_base_dn settings;
     Settings.ldap_group_search_filter :=
       Settings.ldap_group_search_filter settings;
     Settings.attrib_group_list := Settings.attrib_group_list settings;
     Settings.members_files_dir := Settings.members_files_dir settings;
     Settings.enable_diagnostics := Settings.enable_diagnostics settings;
     Settings.y360_group_members_dir := Settings.y360_group_members_dir settings |}.

(** [get_all_api360_users]: what it returns and the settings it leaves.
    [now] is the time read by the test, [later] the time read after the
    request, both in seconds. *)
Definition get_all_api360_users (int : string → option Z) (fuel : nat)
    (net : nat → nat → Paging.page_outcome Paging.api_user) (now later : Z)
    (settings : Settings.SettingParams) (force : bool)
  : option (Paging.fetched Paging.api_user * Settings.SettingParams) :=
  if (match Settings.all_users settings with [] => true | _ => false end
      || force
      || bool_decide (ALL_USERS_REFRESH_IN_MINUTES * 60
                      < now - Settings.all_users_get_timestamp settings)%Z)%bool
  then
    match Paging.get_all_api360_users_from_api int fuel net with
    | None => None
    | Some Paging.Escaped => Some (Paging.Escaped, settings)
    | Some (Paging.Fetched users) =>
        Some (Paging.Fetched users, with_all_users settings users later)
    end
  else Some (Paging.Fetched (Settings.all_users settings), settings).

(** ** The script: the [__main__] block *)

Module Main.

Definition EXIT_CODE : nat := 1.

(** The statistics dictionaries the orchestrators return. *)
Definition groups_stats_dict (st : Groups.stats) : gmap string nat :=
  <["ad_groups_count" := Groups.ad_groups_count st]>
  (<["y360_groups_count" := Groups.y360_groups_count st]>
  (<["created_count" := Groups.created_count st]>
  (<["updated_count" := Groups.updated_count st]>
  (<["deleted_count" := Groups.deleted_count st]>
  (<["errors_count" := Groups.errors_count st]>
  (<["skipped_count" := Groups.skipped_count st]> ∅)))))).

Definition members_stats_dict (st : Members.stats) : gmap string nat :=
  <["y360_groups_processed" := Members.y360_groups_processed st]>
  (<["ad_groups_found" := Members.ad_groups_found st]>
  (<["users_added_count" := Members.users_added_count st]>
  (<["users_removed_count" := Members.users_removed_count st]>
  (<["users_not_found_count" := Members.users_not_found_count st]>
  (<["errors_count" := Members.errors_count st]>
  (<["skipped_groups_count" := Members.skipped_groups_count st]> ∅)))))).

(** The numbers of the final summary, in the order they are logged:
    [stats.get(key, 0)] for each key the block reads. *)
Definition groups_summary (stats : gmap string nat) : list nat :=
  (λ key, default 0 (stats !! key))
    <$> ["created_count"; "updated_count"; "deleted_count"; "skipped_count";
         "errors_count"].

Definition members_summary (members_stats : gmap string nat) : list nat :=
  (λ key, default 0 (members_stats !! key))
    <$> ["processed_groups"; "skipped_groups"; "added_members";
         "removed_members"; "add_errors"; "remove_errors"].

(** How a run ends: [sys.exit] with a code, an exception that escapes after
    the calls made, or the end of the block after the calls made, with the
    numbers of the summary. *)
Inductive outcome :=
| Exited (code : nat)
| Raised (calls : list call)
| Finished (calls : list call) (groups_line members_line : list nat).

Definition calls_of (r : outcome) : list call :=
  match r with
  | Exited _ => []
  | Raised calls => calls
  | Finished calls _ _ => calls
  end.

(** The service as it answers after the calls [h] were made. *)
Definition after (h : list call) (api : Remote) : Remote :=
  {| create_group_by_api := λ h', create_group_by_api api (h ++ h');
     patch_group_by_api := λ h', patch_group_by_api api (h ++ h');
     delete_group_by_api := λ h', delete_group_by_api api (h ++ h');
     get_group_members_by_api := λ h', get_group_members_by_api api (h ++ h');
     add_member_to_group_by_api := λ h', add_member_to_group_by_api api (h ++ h');
     delete_member_from_group_by_api :=
       λ h', delete_member_from_group_by_api api (h ++ h') |}.

(** The block.  [denv_exists] tells whether the file .env_ldap exists, [env]
    is the environment once it is loaded, [ad_groups] is what
    [get_ldap_dynamic_groups] returns, [groups_net h] are the pages of the
    groups the service serves after the calls [h], and [members_files_dir]
    is the content of the directory of the membership files.  The two tests
    [y360_groups is None] are left out: the read returns a list. *)
Definition main (fuel : nat) (denv_exists : bool) (env : gmap string string)
    (int : string → option Z)
    (check_oauth_token : string → string → option bool) (now later : Z)
    (users_net : nat → nat → Paging.page_outcome Paging.api_user)
    (ad_groups : list ad_group)
    (groups_net : list call → nat → nat → Paging.page_outcome y360_group)
    (api : Remote) (members_files_dir : Members.directory) : option outcome :=
  if negb denv_exists then Some (Exited EXIT_CODE)
  else
    match Settings.get_settings int check_oauth_token now env with
    | Settings.Raised => Some (Raised [])
    | Settings.Rejected => Some (Exited EXIT_CODE)
    | Settings.Accepted settings =>
        match get_all_api360_users int fuel users_net now later settings false with
        | None => None
        | Some (Paging.Escaped, _) => Some (Raised [])
        | Some (Paging.Fetched [], _) => Some (Exited EXIT_CODE)
        | Some (Paging.Fetched y360_users, settings) =>
            match ad_groups with
            | [] => Some (Exited EXIT_CODE)
            | _ =>
                match Paging.get_all_groups_from_api360 fuel (groups_net []) with
                | None => None
                | Some Paging.Escaped => Some (Raised [])
                | Some (Paging.Fetched y360_groups) =>
                    let '(h1, (success, stats)) :=
                      Groups.sync_ad_groups_to_y360 (Settings.dry_run settings)
                        api ad_groups y360_groups in
                    match Paging.get_all_groups_from_api360 fuel (groups_net h1) with
                    | None => None
                    | Some Paging.Escaped => Some (Raised h1)
                    | Some (Paging.Fetched y360_groups_updated) =>
                        match
                          Members.sync_group_members (Settings.dry_run settings)
                            (after h1 api) members_files_dir ad_groups
                            y360_groups_updated (Paging.user <$> y360_users)
                        with
                        | (h2, Members.Raise _) => Some (Raised (h1 ++ h2))
                        | (h2, Members.Return (members_success, members_stats)) =>
                            Some (Finished (h1 ++ h2)
                                    (groups_summary (groups_stats_dict stats))
                                    (members_summary
                                       (members_stats_dict members_stats)))
                        end
                    end
                end
            end
        end
    end.

(** A service serving one page of users and no group, whatever was done. *)
Definition sample_users : nat → nat → Paging.page_outcome Paging.api_user :=
  users_page [api_alice].

Definition no_groups : list call → nat → nat → Paging.page_outcome y360_group :=
  λ _ _ _, Paging.PageResponse 200 [] 1.

(** A service whose read of the groups fails on every attempt. *)
Definition groups_down : list call → nat → nat → Paging.page_outcome y360_group :=
  λ _ _ _, Paging.PageResponse 500 [] 0.

Definition live_env : gmap string string := delete "DRY_RUN" Settings.sample_env.

(** A service with two users and the group Sales. *)
Definition sample_two_users : nat → nat → Paging.page_outcome Paging.api_user :=
  users_page
    [api_alice;
     {| Paging.isRobot := false;
        Paging.user := {| user_id := Some "1130000000000002";
                          user_nickname := Some "carol"; user_aliases := [] |} |}].

Definition sales_groups : list call → nat → nat → Paging.page_outcome y360_group :=
  λ _ _ _, Paging.PageResponse 200 [Sample.y360_sales] 1.

End Main.

(** A call that creates, patches or deletes no group, or creates one. *)
Definition keeps_groups (c : call) : Prop :=
  match c with
  | PatchGroup _ _ | DeleteGroup _ => False
  | _ => True
  end.

(** The conversion of the numbers of the samples. *)
Definition sample_number (s : string) : option Z :=
  match Settings.sample_port s with
  | Some n => Some n
  | None => sample_int s
  end.

(** * Properties *)

#[global] Arguments Groups.sync_ad_group : simpl never.
#[global] Arguments Groups.delete_group : simpl never.
#[global] Arguments Groups.changes_needed : simpl never.
#[global] Arguments Groups.group_data : simpl never.
#[global] Arguments Members.sync_y360_group : simpl never.
#[global] Arguments Members.add_user : simpl never.
#[global] Arguments Members.remove_user : simpl never.

(** ** Strings *)

Lemma truthy_Some (v : option string) :
  Py.truthy v = true ↔ ∃ s, v = Some s ∧ s ≠ "".
Proof.
  destruct v as [s|]; simpl.
  - rewrite bool_decide_eq_true. split; [eauto|]. by intros (? & [= <-] & ?).
  - split; [done|]. by intros (? & ? & ?).
Qed.

Lemma truthy_false (v : option string) :
  Py.truthy v = false ↔ v = None ∨ v = Some "".
Proof.
  destruct v as [s|]; simpl.
  - rewrite bool_decide_eq_false. split.
    + intros H. right. f_equal. by destruct (decide (s = "")).
    + intros [|[= ->]]; [done|]. by intros ?.
  - naive_solver.
Qed.

Lemma prefix_inv (p s : string) :
  String.prefix p s = true → ∃ r, s = p +:+ r.
Proof.
  revert s. induction p as [|a p IH]; intros s.
  - intros _. by exists s.
  - destruct s as [|b s]; cbn [String.prefix]; [done|].
    destruct (ascii_dec a b) as [->|]; [|done].
    intros [r ->]%IH. by exists r.
Qed.

Lemma prefix_app (p r : string) : String.prefix p (p +:+ r) = true.
Proof.
  induction p as [|a p IH].
  - by destruct r.
  - change (String.prefix (String a p) (String a (p +:+ r)) = true).
    cbn [String.prefix]. destruct (ascii_dec a a); [apply IH | done].
Qed.

Lemma startswith_DDG (s : string) :
  Py.startswith "DDG;" s = true →
  ∃ guid, s = "DDG;" +:+ guid ∧ Py.split_once ";" s = Some ("DDG", guid).
Proof. intros [r ->]%prefix_inv. by exists r. Qed.

Lemma startswith_DDG_app (guid : string) :
  Py.startswith "DDG;" ("DDG;" +:+ guid) = true.
Proof. apply prefix_app. Qed.

Lemma split_DDG_app (guid : string) :
  Py.split_once ";" ("DDG;" +:+ guid) = Some ("DDG", guid).
Proof. reflexivity. Qed.

Lemma DDG_app_inj (g1 g2 : string) : "DDG;" +:+ g1 = "DDG;" +:+ g2 → g1 = g2.
Proof. by intros [=]. Qed.

Lemma DDG_app_nonempty (guid : string) : "DDG;" +:+ guid ≠ "".
Proof. done. Qed.

Example lower_example : Py.lower "A.Smith" = "a.smith".
Proof. reflexivity. Qed.

Example split_once_example : Py.split_once ";" "DDG;a;b" = Some ("DDG", "a;b").
Proof. reflexivity. Qed.

Example split_once_missing : Py.split_once "@" "sales" = None.
Proof. reflexivity. Qed.

Example clean_email_example : Members.clean_email "  'bob@x' " = "bob@x".
Proof. reflexivity. Qed.

Example get_group_members_from_file_example :
  Members.get_group_members_from_file Sample.sales_dir Sample.sales
  = ["a.smith@x"; "carol@x"].
Proof. vm_compute. reflexivity. Qed.

Example group_data_example :
  let data := Groups.group_data "Sales" "DDG;G1" "sales@x" None in
  data !! "name" = Some "Sales" ∧ data !! "externalId" = Some "DDG;G1" ∧
  data !! "label" = Some "sales" ∧ data !! "description" = None.
Proof. vm_compute. done. Qed.

(** ** The patch of a matched pair *)

Lemma expected_label_truthy (mail : string) :
  Py.truthy (Groups.expected_label mail) = true ↔
  ∃ v rest, Py.split_once "@" mail = Some (v, rest) ∧ v ≠ "".
Proof.
  unfold Groups.expected_label, Py.contains, Py.before.
  destruct (Py.split_once "@" mail) as [[v rest]|]; simpl.
  - rewrite bool_decide_eq_true. split; [eauto|]. by intros (? & ? & [= <- <-] & ?).
  - split; [done|]. by intros (? & ? & ? & ?).
Qed.

Lemma expected_label_value (mail v rest : string) :
  Py.split_once "@" mail = Some (v, rest) →
  default "" (Groups.expected_label mail) = v.
Proof.
  intros H. unfold Groups.expected_label, Py.contains, Py.before. by rewrite H.
Qed.

Lemma expected_description_default (description : option string) :
  Groups.expected_description description = default "" description.
Proof. by destruct description as [[|]|]. Qed.

(** C9: for a source group carrying its required attributes and the target
    group the index gives for its tag, the patch [changes_needed] holds
    exactly the attributes that differ: ["name"] with displayName when the
    target name differs from it; ["label"] with the text of mail before the
    first '@' when mail contains '@', that text is not empty and the target
    label differs from it (so never when mail has no local part, whatever
    the target label is); ["description"] with the source description, a
    missing one being the empty string, when the target description differs
    from it; and no other key.  The iteration issues the patch call exactly
    when the patch is not empty: with an empty patch it leaves the calls and
    the statistics as they were. *)
Theorem patch_holds_exactly_the_differences
    (dry_run : bool) (api : Remote) (index : gmap string y360_group)
    (h : list call) (st : Groups.stats) (a : ad_group) (g : y360_group)
    (guid display_name mail : string) :
  ad_objectGUID a = Some guid → guid ≠ "" →
  ad_displayName a = Some display_name → display_name ≠ "" →
  ad_mail a = Some mail → mail ≠ "" →
  index !! ("DDG;" +:+ guid) = Some g →
  let changes := Groups.changes_needed display_name mail (ad_description a) g in
  (∀ v, changes !! "name" = Some v ↔
        v = display_name ∧ default "" (y360_name g) ≠ display_name) ∧
  (∀ v, changes !! "label" = Some v ↔
        ∃ rest, Py.split_once "@" mail = Some (v, rest) ∧ v ≠ "" ∧
                default "" (y360_label g) ≠ v) ∧
  (∀ v, changes !! "description" = Some v ↔
        v = default "" (ad_description a) ∧ default "" (y360_description g) ≠ v) ∧
  (∀ k, k ≠ "name" → k ≠ "label" → k ≠ "description" → changes !! k = None) ∧
  Groups.sync_ad_group dry_run api index (h, st) a =
    if bool_decide (changes = ∅) then (h, st)
    else if dry_run then (h, Groups.incr_updated st)
    else (h ++ [PatchGroup (y360_id g) changes],
          if patch_group_by_api api h (y360_id g) changes
          then Groups.incr_updated st else Groups.incr_errors st).
Proof.
  intros Hguid Hguid' Hname Hname' Hmail Hmail' Hidx changes.
  split_and!.
  - intros v. subst changes. unfold Groups.changes_needed.
    repeat case_bool_decide; repeat destruct (Py.truthy _);
      simplify_map_eq; naive_solver.
  - intros v. subst changes. unfold Groups.changes_needed.
    destruct (Py.truthy (Groups.expected_label mail)) eqn:Hl.
    + apply expected_label_truthy in Hl as (v0 & rest & Hs & Hv0).
      rewrite (expected_label_value _ _ _ Hs).
      repeat case_bool_decide; simplify_map_eq; naive_solver.
    + assert (¬ ∃ v rest, Py.split_once "@" mail = Some (v, rest) ∧ v ≠ "") as Hno.
      { rewrite <-expected_label_truthy, Hl. done. }
      repeat case_bool_decide; simplify_map_eq; naive_solver.
  - intros v. subst changes. unfold Groups.changes_needed.
    rewrite expected_description_default.
    repeat case_bool_decide; repeat destruct (Py.truthy _);
      simplify_map_eq; naive_solver.
  - intros k ? ? ?. subst changes. unfold Groups.changes_needed.
    repeat case_bool_decide; repeat destruct (Py.truthy _);
      by simplify_map_eq.
  - unfold Groups.sync_ad_group. rewrite Hguid, Hname, Hmail. simpl.
    rewrite !bool_decide_true by done. simpl. rewrite Hidx. fold changes.
    destruct (decide (changes = ∅)) as [He|Hne].
    + rewrite He. by rewrite bool_decide_false, bool_decide_true by naive_solver.
    + rewrite (bool_decide_true (changes ≠ ∅)), (bool_decide_false (changes = ∅)) by done.
      destruct dry_run; simpl; [done|]. by destruct (patch_group_by_api _ _ _ _).
Qed.

(** The group Sales of the sample matches the target group tagged with its
    objectGUID, which is in sync with it. *)
Lemma patch_holds_exactly_the_differences_witness :
  let index := Groups.y360_groups_by_external_id [Sample.y360_sales] in
  let changes :=
    Groups.changes_needed "Sales" "sales@x" None Sample.y360_sales in
  index !! ("DDG;" +:+ "G1") = Some Sample.y360_sales ∧
  (∀ v, changes !! "label" = Some v ↔
        ∃ rest, Py.split_once "@" "sales@x" = Some (v, rest) ∧ v ≠ "" ∧
                default "" (y360_label Sample.y360_sales) ≠ v) ∧
  Groups.sync_ad_group false Store.applied index ([], Groups.stats0) Sample.sales
    = ([], Groups.stats0).
Proof.
  intros index changes.
  assert (index !! ("DDG;" +:+ "G1") = Some Sample.y360_sales) as Hidx
    by (vm_compute; reflexivity).
  pose proof (patch_holds_exactly_the_differences false Store.applied index []
    Groups.stats0 Sample.sales Sample.y360_sales "G1" "Sales" "sales@x"
    eq_refl ltac:(done) eq_refl ltac:(done) eq_refl ltac:(done) Hidx)
    as (_ & Hlabel & _ & _ & Hstep).
  split; [exact Hidx|]. split; [exact Hlabel | exact Hstep].
Defined.

(** ** Empty inputs *)

Lemma sync_ad_group_empty_index (dry_run : bool) (api : Remote)
    (h : list call) (st : Groups.stats) (a : ad_group) :
  let r := Groups.sync_ad_group dry_run api ∅ (h, st) a in
  Groups.updated_count r.2 = Groups.updated_count st ∧
  Groups.deleted_count r.2 = Groups.deleted_count st ∧
  Groups.created_count r.2 + Groups.errors_count r.2 =
    Groups.created_count st + Groups.errors_count st
    + (if has_required a then 1 else 0) ∧
  (r.1 = h ∨ ∃ data, r.1 = h ++ [CreateGroup data]).
Proof.
  unfold Groups.sync_ad_group, has_required.
  destruct (Py.truthy (ad_objectGUID a)); simpl; [|split_and!; auto with lia].
  destruct (Py.truthy (ad_displayName a)); simpl; [|split_and!; auto with lia].
  destruct (Py.truthy (ad_mail a)); simpl; [|split_and!; auto with lia].
  rewrite lookup_empty.
  destruct dry_run; simpl; [split_and!; auto with lia|].
  destruct (create_group_by_api _ _ _); simpl; split_and!; eauto with lia.
Qed.

Lemma sync_ad_groups_empty_index (dry_run : bool) (api : Remote)
    (l : list ad_group) (h : list call) (st : Groups.stats) :
  let r := foldl (Groups.sync_ad_group dry_run api ∅) (h, st) l in
  Groups.updated_count r.2 = Groups.updated_count st ∧
  Groups.deleted_count r.2 = Groups.deleted_count st ∧
  Groups.created_count r.2 + Groups.errors_count r.2 =
    Groups.created_count st + Groups.errors_count st
    + length (filter (λ a, has_required a = true) l) ∧
  ∃ t, r.1 = h ++ t ∧ Forall (λ c, ∃ data, c = CreateGroup data) t.
Proof.
  revert h st. induction l as [|a l IH]; intros h st; cbv zeta; cbn [foldl].
  { simpl. split_and!; try lia. exists []. by rewrite app_nil_r. }
  pose proof (sync_ad_group_empty_index dry_run api h st a) as Hstep.
  destruct (Groups.sync_ad_group dry_run api ∅ (h, st) a) as [h1 st1].
  simpl in Hstep. destruct Hstep as (Hu & Hd & Hc & Ht).
  destruct (IH h1 st1) as (Hu' & Hd' & Hc' & (t & Ht' & HF)).
  split_and!; try congruence.
  - rewrite Hc', Hc. rewrite filter_cons.
    destruct (has_required a).
    + rewrite decide_True by done. simpl. lia.
    + rewrite decide_False by done. lia.
  - destruct Ht as [->|[data ->]]; [by eauto|].
    exists (CreateGroup data :: t). rewrite Ht', <-app_assoc. split; [done|].
    constructor; eauto.
Qed.

(** C8 (as the code has it): [sync_group_members] returns at once, with
    [True], zeroed statistics and no call made, when the source-group list,
    the target-group list or the target-user list is empty;
    [sync_ad_groups_to_y360] does so when the source-group list is empty.
    With an empty target-group list [sync_ad_groups_to_y360] goes on: it
    makes no update and no delete decision, and one create decision for each
    source group that carries objectGUID, displayName and mail. *)
Theorem empty_inputs (dry_run : bool) (api : Remote) (dir : Members.directory)
    (ad_groups : list ad_group) (y360_groups : list y360_group)
    (y360_users : list y360_user) :
  Members.sync_group_members dry_run api dir [] y360_groups y360_users
    = ([], Members.Return (true, Members.stats0)) ∧
  Members.sync_group_members dry_run api dir ad_groups [] y360_users
    = ([], Members.Return (true, Members.stats0)) ∧
  Members.sync_group_members dry_run api dir ad_groups y360_groups []
    = ([], Members.Return (true, Members.stats0)) ∧
  Groups.sync_ad_groups_to_y360 dry_run api [] y360_groups
    = ([], (true, Groups.stats0)) ∧
  let r := Groups.sync_ad_groups_to_y360 dry_run api ad_groups [] in
  Groups.updated_count r.2.2 = 0 ∧
  Groups.deleted_count r.2.2 = 0 ∧
  Groups.created_count r.2.2 + Groups.errors_count r.2.2
    = length (filter (λ a, has_required a = true) ad_groups) ∧
  Forall (λ c, ∃ data, c = CreateGroup data) r.1.
Proof.
  split_and!.
  - done.
  - by destruct ad_groups.
  - by destruct ad_groups, y360_groups.
  - done.
  - destruct ad_groups as [|a l]; [done|].
    unfold Groups.sync_ad_groups_to_y360.
    change (Groups.groups_to_delete (a :: l) []) with (@nil Groups.deletion).
    change (Groups.y360_groups_by_external_id []) with (∅ : gmap string y360_group).
    cbn [foldl].
    pose proof (sync_ad_groups_empty_index dry_run api (a :: l) []
      (Groups.set_counts (length (a :: l)) (length (@nil y360_group)) Groups.stats0))
      as Hloop.
    cbv zeta in Hloop. cbn [foldl] in Hloop.
    destruct (foldl _ _ l) as [h st]. simpl in *.
    destruct Hloop as (Hu & Hd & Hc & (t & -> & HF)). done.
Qed.

(** C8, the claim refuted: with the source group Sales and an empty
    target-group list, [sync_ad_groups_to_y360] decides a creation, counted in
    a dry run and sent to the service in a live run. *)
Lemma empty_target_list_still_creates :
  Groups.created_count
    (Groups.sync_ad_groups_to_y360 true Store.applied [Sample.sales] []).2.2 = 1 ∧
  (Groups.sync_ad_groups_to_y360 false Store.applied [Sample.sales] []).1 =
    [CreateGroup (Groups.group_data "Sales" "DDG;G1" "sales@x" None)].
Proof. split; vm_compute; reflexivity. Qed.

(** ** Scenarios *)

(** C5: on the scenario of the claim (members alice and bob, alice with the
    alias a.smith, source handles a.smith and carol) the code selects carol
    for addition, as the claim says, but selects both alice and bob for
    removal: the removal test looks at the primary handle only, so alice is
    not retained through her alias. *)
Theorem scenario_alias_member_is_removed :
  let index :=
    Members.y360_users_by_nickname [Sample.alice; Sample.bob; Sample.carol] in
  let ad_nicknames :=
    Members.ad_nicknames_set
      (Members.get_group_members_from_file Sample.sales_dir Sample.sales) in
  ∃ member_nicknames,
    Members.y360_member_nicknames index ∅ [Sample.alice; Sample.bob]
      = Members.Return member_nicknames ∧
    (Members.users_to_add index member_nicknames ad_nicknames).1
      = [Members.Build_change "carol" (Some "3")] ∧
    Members.users_to_remove [Sample.alice; Sample.bob] ad_nicknames
      = [Members.Build_change "alice" (Some "1");
         Members.Build_change "bob" (Some "2")] ∧
    (Members.sync_group_members false (Sample.api_with [Sample.alice; Sample.bob])
       Sample.sales_dir [Sample.sales] [Sample.y360_sales]
       [Sample.alice; Sample.bob; Sample.carol]).1
      = [GetGroupMembers (Some 10%Z);
         AddMember (Some 10%Z) "user" (Some "3");
         DeleteMember (Some 10%Z) "user" (Some "1");
         DeleteMember (Some 10%Z) "user" (Some "2")].
Proof.
  eexists. split; [vm_compute; reflexivity|].
  split_and!; vm_compute; reflexivity.
Qed.

(** C7: a current member (bob) whose nickname is not in the index built over
    the supplied target users makes [sync_group_members] raise
    AttributeError out of its loop, in a dry run and in a live run alike: no
    [(success, stats)] pair is returned. *)
Theorem member_outside_index_raises (dry_run : bool) :
  Members.sync_group_members dry_run (Sample.api_with [Sample.bob])
    Sample.sales_dir [Sample.sales] [Sample.y360_sales]
    [Sample.alice; Sample.carol]
  = ([GetGroupMembers (Some 10%Z)], Members.Raise Members.AttributeError).
Proof. destruct dry_run; vm_compute; reflexivity. Qed.

(** ** Loops that thread the calls made *)

Section loops.
Context {S X : Type}.
Implicit Types (f : list call * S → X → list call * S) (l : list X).

(** A loop whose iterations only append calls satisfying [P] only appends
    calls satisfying [P]. *)
Lemma foldl_calls f (P : call → Prop) l :
  (∀ h s x, x ∈ l → ∃ t, (f (h, s) x).1 = h ++ t ∧ Forall P t) →
  ∀ h s, ∃ t, (foldl f (h, s) l).1 = h ++ t ∧ Forall P t.
Proof.
  induction l as [|x l IH]; intros Hf h s; cbn [foldl].
  { exists []. by rewrite app_nil_r. }
  destruct (Hf h s x) as (t1 & Ht1 & HP1); [by left|].
  destruct (f (h, s) x) as [h1 s1]. simpl in Ht1. subst h1.
  destruct (IH (λ h s y Hy, Hf h s y (list_elem_of_further _ _ _ Hy)) (h ++ t1) s1)
    as (t2 & Ht2 & HP2).
  exists (t1 ++ t2). rewrite Ht2, <-app_assoc. split; [done|].
  by apply Forall_app.
Qed.

(** A loop whose iterations make no call makes no call. *)
Lemma foldl_no_call f l :
  (∀ h s x, (f (h, s) x).1 = h) → ∀ h s, (foldl f (h, s) l).1 = h.
Proof.
  intros Hf. induction l as [|x l IH]; intros h s; cbn [foldl]; [done|].
  specialize (Hf h s x). destruct (f (h, s) x) as [h1 s1]. simpl in Hf.
  subst h1. apply IH.
Qed.

(** Two loops whose iterations compute the same statistics, whatever calls
    were made before, compute the same statistics. *)
Lemma foldl_same_stats f f' l :
  (∀ h h' s x, (f (h, s) x).2 = (f' (h', s) x).2) →
  ∀ h h' s, (foldl f (h, s) l).2 = (foldl f' (h', s) l).2.
Proof.
  intros Hf. induction l as [|x l IH]; intros h h' s; cbn [foldl]; [done|].
  specialize (Hf h h' s x).
  destruct (f (h, s) x) as [h1 s1], (f' (h', s) x) as [h1' s1'].
  simpl in Hf. subst s1'. apply IH.
Qed.
End loops.

Lemma foldl_ext {A B : Type} (f g : A → B → A) (l : list B) (a : A) :
  (∀ a x, f a x = g a x) → foldl f a l = foldl g a l.
Proof.
  intros Hfg. revert a. induction l as [|x l IH]; intros a; cbn [foldl]; [done|].
  by rewrite Hfg, IH.
Qed.

(** A loop that appends an entry or nothing at each iteration is [omap]. *)
Lemma foldl_snoc_omap {A B : Type} (f : A → option B) (l : list A) (acc : list B) :
  foldl (λ acc x, match f x with Some y => acc ++ [y] | None => acc end) acc l
  = acc ++ omap f l.
Proof.
  revert acc. induction l as [|x l IH]; intros acc; simpl.
  { by rewrite app_nil_r. }
  rewrite IH. destruct (f x); simpl; [|done]. by rewrite <-app_assoc.
Qed.

(** ** The indexes *)

(** The target group the index gives for a tag is the last group of the list
    carrying that tag. *)
Lemma y360_groups_by_external_id_last (l : list y360_group) (k : string) :
  k ≠ "" →
  Groups.y360_groups_by_external_id l !! k
  = last (filter (λ g, y360_externalId g = Some k) l).
Proof.
  intros Hk. unfold Groups.y360_groups_by_external_id.
  induction l as [|g l IH] using rev_ind; [done|].
  rewrite foldl_app, filter_app, last_app. cbn [foldl].
  rewrite filter_cons, filter_nil.
  destruct (decide (y360_externalId g = Some k)) as [He|Hne].
  - rewrite He. simpl. rewrite bool_decide_true by done.
    by rewrite lookup_insert_eq.
  - simpl. rewrite <-IH. case_bool_decide as Hd; [|done].
    rewrite lookup_insert_ne; [done|].
    intros <-. destruct (y360_externalId g); naive_solver.
Qed.

Lemma y360_groups_by_external_id_Some (l : list y360_group) (k : string)
    (g : y360_group) :
  Groups.y360_groups_by_external_id l !! k = Some g →
  g ∈ l ∧ y360_externalId g = Some k.
Proof.
  destruct (decide (k = "")) as [->|Hk].
  - unfold Groups.y360_groups_by_external_id.
    induction l as [|x l IH] using rev_ind; [done|].
    rewrite foldl_app. cbn [foldl]. case_bool_decide as Hd.
    + rewrite lookup_insert_ne by done. intros H%IH. set_solver.
    + intros H%IH. set_solver.
  - rewrite y360_groups_by_external_id_last by done.
    intros H%last_Some_elem_of. by apply list_elem_of_filter in H as [? ?].
Qed.

Lemma elem_of_ad_object_guids (ad_groups : list ad_group) (guid : string) :
  guid ∈ Groups.ad_object_guids ad_groups ↔
  ∃ a, a ∈ ad_groups ∧ ad_objectGUID a = Some guid ∧ guid ≠ "".
Proof.
  unfold Groups.ad_object_guids.
  induction ad_groups as [|a l IH] using rev_ind.
  { simpl. split; [set_solver|]. intros (? & ?%elem_of_nil & _). done. }
  rewrite foldl_app. cbn [foldl].
  destruct (Py.truthy (ad_objectGUID a)) eqn:Ht.
  - apply truthy_Some in Ht as (s & Hs & Hne). rewrite Hs. simpl.
    rewrite elem_of_union, elem_of_singleton, IH. split.
    + intros [->|(b & ? & ? & ?)].
      * exists a. set_solver.
      * exists b. set_solver.
    + intros (b & [Hb|Hb%list_elem_of_singleton]%elem_of_app & Hg & ?).
      * right. eauto.
      * left. congruence.
  - rewrite IH. apply truthy_false in Ht. split.
    + intros (b & ? & ? & ?). exists b. set_solver.
    + intros (b & [Hb|Hb%list_elem_of_singleton]%elem_of_app & Hg & ?).
      * eauto.
      * destruct Ht; congruence.
Qed.

Lemma groups_to_delete_omap (ad_groups : list ad_group) (l : list y360_group) :
  Groups.groups_to_delete ad_groups l = omap (deletion_of ad_groups) l.
Proof.
  unfold Groups.groups_to_delete.
  rewrite (foldl_ext _ (λ acc y,
    match deletion_of ad_groups y with Some d => acc ++ [d] | None => acc end)).
  { by rewrite (foldl_snoc_omap (deletion_of ad_groups)). }
  intros acc y. unfold deletion_of.
  destruct (Py.startswith _ _); [|done].
  destruct (Py.split_once _ _) as [[? ?]|]; [|done]. by case_bool_decide.
Qed.

Lemma deletion_of_Some (ad_groups : list ad_group) (y : y360_group)
    (d : Groups.deletion) :
  deletion_of ad_groups y = Some d →
  Groups.del_id d = y360_id y ∧
  y360_externalId y = Some (Groups.del_externalId d) ∧
  Groups.del_externalId d = "DDG;" +:+ Groups.del_objectGUID d ∧
  Groups.del_objectGUID d ∉ Groups.ad_object_guids ad_groups.
Proof.
  unfold deletion_of.
  destruct (Py.startswith _ _) eqn:Hp; [|done].
  apply startswith_DDG in Hp as (guid & Hext & Hsplit). rewrite Hsplit.
  case_bool_decide as Hd; [|done]. intros [= <-]. simpl.
  split_and!; try done.
  destruct (y360_externalId y) as [e|]; [by simpl in Hext; subst|done].
Qed.

(** ** Tag safety *)

Lemma sync_ad_group_calls (dry_run : bool) (api : Remote)
    (index : gmap string y360_group) (h : list call) (st : Groups.stats)
    (a : ad_group) :
  ∃ t, (Groups.sync_ad_group dry_run api index (h, st) a).1 = h ++ t ∧
       Forall (tagged_patch_or_create index) t.
Proof.
  assert (∃ t, h = h ++ t ∧ Forall (tagged_patch_or_create index) t) as Hnone.
  { exists []. by rewrite app_nil_r. }
  unfold Groups.sync_ad_group.
  destruct (Py.truthy (ad_objectGUID a)); simpl; [|apply Hnone].
  destruct (Py.truthy (ad_displayName a)); simpl; [|apply Hnone].
  destruct (Py.truthy (ad_mail a)); simpl; [|apply Hnone].
  destruct (index !! _) as [g|] eqn:Hg.
  - case_bool_decide; [|apply Hnone]. destruct dry_run; simpl; [apply Hnone|].
    eexists [_]. split; [by destruct (patch_group_by_api _ _ _ _)|].
    constructor; [|done]. right. eauto.
  - destruct dry_run; simpl; [apply Hnone|].
    eexists [_]. split; [by destruct (create_group_by_api _ _ _)|].
    constructor; [|done]. left. eauto.
Qed.

Lemma delete_group_calls (dry_run : bool) (api : Remote)
    (h : list call) (st : Groups.stats) (d : Groups.deletion) :
  ∃ t, (Groups.delete_group dry_run api (h, st) d).1 = h ++ t ∧
       Forall (λ c, c = DeleteGroup (Groups.del_id d)) t.
Proof.
  unfold Groups.delete_group. destruct dry_run; simpl.
  { exists []. by rewrite app_nil_r. }
  destruct (delete_group_by_api _ _ _) as [[] []]; simpl; eexists [_]; eauto.
Qed.

(** The calls of a run: those of the first loop, then deletions of entries
    of [groups_to_delete]. *)
Lemma sync_ad_groups_to_y360_calls (dry_run : bool) (api : Remote)
    (ad_groups : list ad_group) (y360_groups : list y360_group) :
  ∃ t1 t2,
    (Groups.sync_ad_groups_to_y360 dry_run api ad_groups y360_groups).1 = t1 ++ t2 ∧
    Forall (tagged_patch_or_create (Groups.y360_groups_by_external_id y360_groups)) t1 ∧
    Forall (λ c, ∃ d, d ∈ Groups.groups_to_delete ad_groups y360_groups ∧
                      c = DeleteGroup (Groups.del_id d)) t2.
Proof.
  unfold Groups.sync_ad_groups_to_y360.
  destruct ad_groups as [|a l]; [by exists [], []|].
  set (ad := a :: l). set (index := Groups.y360_groups_by_external_id _).
  set (st0 := Groups.set_counts _ _ _).
  destruct (foldl_calls (Groups.sync_ad_group dry_run api index)
              (tagged_patch_or_create index) ad
              (λ h s x _, sync_ad_group_calls dry_run api index h s x) [] st0)
    as (t1 & Ht1 & HP1).
  destruct (foldl (Groups.sync_ad_group _ _ _) _ ad) as [h1 st1].
  simpl in Ht1. subst h1.
  destruct (foldl_calls (Groups.delete_group dry_run api)
              (λ c, ∃ d, d ∈ Groups.groups_to_delete ad y360_groups ∧
                         c = DeleteGroup (Groups.del_id d))
              (Groups.groups_to_delete ad y360_groups)) with (h := t1) (s := st1)
    as (t2 & Ht2 & HP2).
  { intros h s d Hd.
    destruct (delete_group_calls dry_run api h s d) as (t & Ht & HP).
    exists t. split; [done|]. eapply Forall_impl; [exact HP|]. naive_solver. }
  destruct (foldl (Groups.delete_group _ _) _ _) as [h2 st2].
  simpl in *. subst h2. by exists t1, t2.
Qed.

(** C1: whatever the source groups, the target groups, the mode and the
    answers of the service: every entry of [groups_to_delete] comes from a
    target group of the snapshot whose externalId is "DDG;" followed by a
    suffix that is the objectGUID of no source group (an empty objectGUID
    counts as none, as everywhere in the code); a target group whose
    externalId does not start with "DDG;" gives no entry of
    [groups_to_delete] and is the group the index gives for no tag, so it is
    never the target of a patch; and every call of the run is a creation, a
    patch sent to the id of a snapshot group whose externalId starts with
    "DDG;", or a deletion sent to the id of an entry of [groups_to_delete]. *)
Theorem tag_safety (dry_run : bool) (api : Remote)
    (ad_groups : list ad_group) (y360_groups : list y360_group) :
  (∀ d, d ∈ Groups.groups_to_delete ad_groups y360_groups →
     ∃ y, y ∈ y360_groups ∧
          Groups.del_id d = y360_id y ∧
          y360_externalId y = Some (Groups.del_externalId d) ∧
          Py.startswith "DDG;" (Groups.del_externalId d) = true ∧
          Groups.del_externalId d = "DDG;" +:+ Groups.del_objectGUID d ∧
          ∀ a, a ∈ ad_groups → Py.truthy (ad_objectGUID a) = true →
               ad_objectGUID a ≠ Some (Groups.del_objectGUID d)) ∧
  (∀ y, y ∈ y360_groups →
     Py.startswith "DDG;" (default "" (y360_externalId y)) = false →
     deletion_of ad_groups y = None ∧
     ∀ guid, Groups.y360_groups_by_external_id y360_groups !! ("DDG;" +:+ guid)
             ≠ Some y) ∧
  Forall (λ c, match c with
               | CreateGroup _ => True
               | PatchGroup gid _ =>
                   ∃ y, y ∈ y360_groups ∧ y360_id y = gid ∧
                        Py.startswith "DDG;" (default "" (y360_externalId y)) = true
               | DeleteGroup gid =>
                   ∃ d, d ∈ Groups.groups_to_delete ad_groups y360_groups ∧
                        Groups.del_id d = gid
               | _ => False
               end)
         (Groups.sync_ad_groups_to_y360 dry_run api ad_groups y360_groups).1.
Proof.
  split_and!.
  - intros d. rewrite groups_to_delete_omap, list_elem_of_omap.
    intros (y & Hy & Hd). apply deletion_of_Some in Hd as (Hid & Hext & Htag & Hno).
    exists y. split_and!; try done.
    + rewrite Htag. apply startswith_DDG_app.
    + intros a Ha Ht Hguid. apply Hno, elem_of_ad_object_guids.
      exists a. split_and!; try done.
      apply truthy_Some in Ht as (s & Hs & ?). congruence.
  - intros y Hy Hp. split.
    + unfold deletion_of. by rewrite Hp.
    + intros guid [_ Hext]%y360_groups_by_external_id_Some.
      rewrite Hext in Hp.
      change (Py.startswith "DDG;" ("DDG;" +:+ guid) = false) in Hp.
      by rewrite startswith_DDG_app in Hp.
  - destruct (sync_ad_groups_to_y360_calls dry_run api ad_groups y360_groups)
      as (t1 & t2 & -> & H1 & H2).
    apply Forall_app. split.
    + eapply Forall_impl; [exact H1|]. intros c [[data ->]|(guid & g & p & -> & Hg)]; [done|].
      apply y360_groups_by_external_id_Some in Hg as [Hin Hext].
      exists g. split_and!; try done. rewrite Hext. apply startswith_DDG_app.
    + eapply Forall_impl; [exact H2|]. intros c (d & Hd & ->). eauto.
Qed.

(** ** Dry run against live run *)

Section dry_run.
Context (api : Remote) (Happlied : always_applied api).

Lemma sync_ad_group_dry index h st a :
  (Groups.sync_ad_group true api index (h, st) a).1 = h.
Proof.
  unfold Groups.sync_ad_group.
  repeat (destruct (Py.truthy _); simpl; [|done]).
  destruct (index !! _); [|done]. by case_bool_decide.
Qed.

Lemma sync_ad_group_same_stats index h h' st a :
  (Groups.sync_ad_group true api index (h, st) a).2
  = (Groups.sync_ad_group false api index (h', st) a).2.
Proof.
  destruct Happlied as (Hcreate & Hpatch & _).
  unfold Groups.sync_ad_group.
  repeat (destruct (Py.truthy _); simpl; [|done]).
  destruct (index !! _).
  - case_bool_decide; [|done]. by rewrite Hpatch.
  - by rewrite Hcreate.
Qed.

Lemma delete_group_dry h st d :
  (Groups.delete_group true api (h, st) d).1 = h.
Proof. done. Qed.

Lemma delete_group_same_stats h h' st d :
  (Groups.delete_group true api (h, st) d).2
  = (Groups.delete_group false api (h', st) d).2.
Proof.
  destruct Happlied as (_ & _ & Hdelete & _).
  unfold Groups.delete_group. simpl. by rewrite Hdelete.
Qed.

Lemma sync_ad_groups_to_y360_dry ad_groups y360_groups :
  (Groups.sync_ad_groups_to_y360 true api ad_groups y360_groups).1 = [] ∧
  (Groups.sync_ad_groups_to_y360 true api ad_groups y360_groups).2
  = (Groups.sync_ad_groups_to_y360 false api ad_groups y360_groups).2.
Proof.
  unfold Groups.sync_ad_groups_to_y360.
  destruct ad_groups as [|a l]; [done|].
  set (ad := a :: l). set (index := Groups.y360_groups_by_external_id _).
  set (st0 := Groups.set_counts _ _ _).
  pose proof (foldl_no_call (Groups.sync_ad_group true api index) ad
                (sync_ad_group_dry index) [] st0) as Hh1.
  pose proof (foldl_same_stats (Groups.sync_ad_group true api index)
                (Groups.sync_ad_group false api index) ad
                (sync_ad_group_same_stats index) [] [] st0) as Hs1.
  destruct (foldl (Groups.sync_ad_group true _ _) _ ad) as [h1 s1].
  destruct (foldl (Groups.sync_ad_group false _ _) _ ad) as [h1' s1'].
  simpl in Hh1, Hs1. subst h1 s1'.
  pose proof (foldl_no_call (Groups.delete_group true api)
                (Groups.groups_to_delete ad y360_groups)
                delete_group_dry [] s1) as Hh2.
  pose proof (foldl_same_stats (Groups.delete_group true api)
                (Groups.delete_group false api)
                (Groups.groups_to_delete ad y360_groups)
                delete_group_same_stats [] h1' s1) as Hs2.
  destruct (foldl (Groups.delete_group true _) _ _) as [h2 s2].
  destruct (foldl (Groups.delete_group false _) _ _) as [h2' s2'].
  simpl in *. by subst.
Qed.

Lemma add_user_dry gid h st u : (Members.add_user true api gid (h, st) u).1 = h.
Proof. done. Qed.

Lemma add_user_same_stats gid h h' st u :
  (Members.add_user true api gid (h, st) u).2
  = (Members.add_user false api gid (h', st) u).2.
Proof.
  destruct Happlied as (_ & _ & _ & Hadd & _).
  unfold Members.add_user. simpl. by rewrite Hadd.
Qed.

Lemma remove_user_dry gid h st u :
  (Members.remove_user true api gid (h, st) u).1 = h.
Proof. done. Qed.

Lemma remove_user_same_stats gid h h' st u :
  (Members.remove_user true api gid (h, st) u).2
  = (Members.remove_user false api gid (h', st) u).2.
Proof.
  destruct Happlied as (_ & _ & _ & _ & Hremove).
  unfold Members.remove_user. simpl. by rewrite Hremove.
Qed.

Context (Hstatic : static_members api).

Lemma sync_y360_group_dry dir by_guid by_nickname h h' st g :
  (∃ t, (Members.sync_y360_group true api dir by_guid by_nickname h st g).1
        = h ++ t ∧ Forall (λ c, mutating c = false) t) ∧
  (Members.sync_y360_group true api dir by_guid by_nickname h st g).2
  = (Members.sync_y360_group false api dir by_guid by_nickname h' st g).2.
Proof.
  assert (∃ t, h = h ++ t ∧ Forall (λ c, mutating c = false) t) as Hnone.
  { exists []. by rewrite app_nil_r. }
  assert (∃ t, h ++ [GetGroupMembers (y360_id g)] = h ++ t ∧
               Forall (λ c, mutating c = false) t) as Hread.
  { eexists [_]. split; [done|]. by repeat constructor. }
  unfold Members.sync_y360_group.
  destruct (Py.startswith _ _); simpl; [|done].
  destruct (Py.split_once _ _) as [[? guid]|]; [|done].
  destruct (by_guid !! guid) as [ad_group|]; [|done].
  rewrite (Hstatic h' h).
  destruct (get_group_members_by_api api h (y360_id g)) as [[] members];
    simpl; [|done].
  destruct (Members.y360_member_nicknames _ _ _) as [nicknames|]; [|done].
  destruct (Members.get_group_members_from_file _ _) as [|e emails]; [done|].
  destruct (Members.users_to_add _ _ _) as [to_add not_found].
  set (gid := y360_id g). set (h1 := h ++ _). set (h1' := h' ++ _).
  set (st1 := Members.add_not_found _ _).
  set (to_remove := Members.users_to_remove _ _).
  pose proof (foldl_no_call (Members.add_user true api gid) to_add
                (add_user_dry gid) h1 st1) as Hh2.
  pose proof (foldl_same_stats (Members.add_user true api gid)
                (Members.add_user false api gid) to_add
                (add_user_same_stats gid) h1 h1' st1) as Hs2.
  destruct (foldl (Members.add_user true _ _) _ _) as [h2 s2].
  destruct (foldl (Members.add_user false _ _) _ _) as [h2' s2'].
  simpl in Hh2, Hs2. subst h2 s2'.
  pose proof (foldl_no_call (Members.remove_user true api gid) to_remove
                (remove_user_dry gid) h1 s2) as Hh3.
  pose proof (foldl_same_stats (Members.remove_user true api gid)
                (Members.remove_user false api gid) to_remove
                (remove_user_same_stats gid) h1 h2' s2) as Hs3.
  destruct (foldl (Members.remove_user true _ _) _ _) as [h3 s3].
  destruct (foldl (Members.remove_user false _ _) _ _) as [h3' s3'].
  simpl in *. by subst.
Qed.

Lemma sync_y360_groups_dry dir by_guid by_nickname l h h' st :
  (∃ t, (Members.sync_y360_groups true api dir by_guid by_nickname h st l).1
        = h ++ t ∧ Forall (λ c, mutating c = false) t) ∧
  (Members.sync_y360_groups true api dir by_guid by_nickname h st l).2
  = (Members.sync_y360_groups false api dir by_guid by_nickname h' st l).2.
Proof.
  revert h h' st. induction l as [|g l IH]; intros h h' st; simpl.
  { split; [|done]. exists []. by rewrite app_nil_r. }
  destruct (sync_y360_group_dry dir by_guid by_nickname h h' st g)
    as [(t1 & Ht1 & HF1) Hs1].
  destruct (Members.sync_y360_group true _ _ _ _ _ _ _) as [h1 r1].
  destruct (Members.sync_y360_group false _ _ _ _ _ _ _) as [h1' r1'].
  simpl in Ht1, Hs1. subst h1 r1'. destruct r1 as [st1|e].
  - destruct (IH (h ++ t1) h1' st1) as [(t2 & Ht2 & HF2) Hs2].
    split; [|done]. exists (t1 ++ t2). rewrite Ht2, <-app_assoc.
    split; [done|]. by apply Forall_app.
  - split; [|done]. by exists t1.
Qed.

Lemma sync_group_members_dry dir ad_groups y360_groups y360_users :
  filter (λ c, mutating c = true)
    (Members.sync_group_members true api dir ad_groups y360_groups y360_users).1
  = [] ∧
  (Members.sync_group_members true api dir ad_groups y360_groups y360_users).2
  = (Members.sync_group_members false api dir ad_groups y360_groups y360_users).2.
Proof.
  unfold Members.sync_group_members.
  destruct ad_groups as [|a ad]; [done|].
  destruct y360_groups as [|g l]; [done|].
  destruct y360_users as [|u us]; [done|].
  set (by_guid := Members.ad_groups_by_guid _).
  set (by_nickname := Members.y360_users_by_nickname _).
  destruct (sync_y360_groups_dry dir by_guid by_nickname (g :: l) [] []
              Members.stats0) as [(t & Ht & HF) Hs].
  destruct (Members.sync_y360_groups true _ _ _ _ _ _ _) as [h1 r1].
  destruct (Members.sync_y360_groups false _ _ _ _ _ _ _) as [h1' r1'].
  simpl in Ht, Hs. subst h1 r1'.
  assert (filter (λ c, mutating c = true) t = []) as Hnil.
  { clear -HF. induction HF as [|c t Hc _ IH]; [done|].
    rewrite filter_cons, decide_False; [done|]. by rewrite Hc. }
  by destruct r1.
Qed.
End dry_run.

(** C3: when every mutating call succeeds and reports its change applied,
    and the member list read for a group is the same whatever calls were made
    before (the snapshot is fixed), a dry run and a live run of
    [sync_ad_groups_to_y360] return the same pair [(success, stats)], and a
    dry run and a live run of [sync_group_members] have the same outcome,
    the same pair [(success, stats)] when they return; the dry run of
    [sync_ad_groups_to_y360] makes no call at all and the dry run of
    [sync_group_members] makes no create, patch, delete, add-member or
    remove-member call (it only reads member lists). *)
Theorem dry_run_equivalence (api : Remote) (dir : Members.directory)
    (ad_groups : list ad_group) (y360_groups : list y360_group)
    (y360_users : list y360_user) :
  always_applied api →
  static_members api →
  (Groups.sync_ad_groups_to_y360 true api ad_groups y360_groups).2
  = (Groups.sync_ad_groups_to_y360 false api ad_groups y360_groups).2 ∧
  (Groups.sync_ad_groups_to_y360 true api ad_groups y360_groups).1 = [] ∧
  (Members.sync_group_members true api dir ad_groups y360_groups y360_users).2
  = (Members.sync_group_members false api dir ad_groups y360_groups y360_users).2 ∧
  filter (λ c, mutating c = true)
    (Members.sync_group_members true api dir ad_groups y360_groups y360_users).1
  = [].
Proof.
  intros Happlied Hstatic.
  destruct (sync_ad_groups_to_y360_dry api Happlied ad_groups y360_groups) as [? ?].
  destruct (sync_group_members_dry api Happlied Hstatic dir ad_groups
              y360_groups y360_users) as [? ?].
  done.
Qed.

(** A dry run and a live run on sample data with an update, a deletion and
    membership changes to make. *)
Lemma dry_run_equivalence_witness :
  let api := Sample.api_with [Sample.alice; Sample.bob] in
  let y360_groups := [Sample.y360_sale; Sample.y360_old; Sample.y360_foreign] in
  let y360_users := [Sample.alice; Sample.bob; Sample.carol] in
  (always_applied api ∧ static_members api) ∧
  (Groups.sync_ad_groups_to_y360 true api [Sample.sales] y360_groups).2
  = (Groups.sync_ad_groups_to_y360 false api [Sample.sales] y360_groups).2 ∧
  (Groups.sync_ad_groups_to_y360 true api [Sample.sales] y360_groups).1 = [] ∧
  (Members.sync_group_members true api Sample.sales_dir [Sample.sales]
     y360_groups y360_users).2
  = (Members.sync_group_members false api Sample.sales_dir [Sample.sales]
       y360_groups y360_users).2 ∧
  filter (λ c, mutating c = true)
    (Members.sync_group_members true api Sample.sales_dir [Sample.sales]
       y360_groups y360_users).1
  = [].
Proof.
  intros api y360_groups y360_users.
  assert (always_applied api) as H1 by (repeat split).
  assert (static_members api) as H2 by (intros h h' gid; reflexivity).
  split; [done|].
  apply (dry_run_equivalence api Sample.sales_dir [Sample.sales] y360_groups
           y360_users H1 H2).
Defined.

(** ** The alias index and the membership lists *)

Lemma elem_of_foldl_lower (aliases : list string) (acc : gset string) (x : string) :
  x ∈ foldl (λ s alias, {[Py.lower alias]} ∪ s) acc aliases ↔
  x ∈ acc ∨ ∃ alias, alias ∈ aliases ∧ x = Py.lower alias.
Proof.
  revert acc. induction aliases as [|a l IH]; intros acc; cbn [foldl].
  { split; [auto|]. intros [?|(? & ?%elem_of_nil & _)]; done. }
  rewrite IH, elem_of_union, elem_of_singleton. split.
  - intros [[->|?]|(al & ? & ->)]; [right|left|right]; try done.
    + exists a. split; [by left|done].
    + exists al. split; [by right|done].
  - intros [?|(al & [->|?]%elem_of_cons & ->)]; eauto.
Qed.

(** What [y360_member_nicknames] returns holds the lower-cased nickname of
    every member and the lower-cased aliases of the index entry of every
    member. *)
Lemma y360_member_nicknames_Return (index : gmap string y360_user)
    (members : list y360_user) (acc s : gset string) :
  Members.y360_member_nicknames index acc members = Members.Return s →
  acc ⊆ s ∧
  ∀ m, m ∈ members →
    ∃ n u, user_nickname m = Some n ∧ index !! Py.lower n = Some u ∧
           (n ≠ "" → Py.lower n ∈ s) ∧
           ∀ alias, alias ∈ user_aliases u → Py.lower alias ∈ s.
Proof.
  revert acc. induction members as [|m l IH]; intros acc; simpl.
  { intros [= <-]. split; [done|]. by intros ? ?%elem_of_nil. }
  destruct (user_nickname m) as [n|] eqn:Hn; [|done].
  destruct (index !! Py.lower n) as [u|] eqn:Hu; [|done].
  intros [Hacc Hl]%IH.
  assert (∀ x, x ∈ (if bool_decide (n ≠ "") then {[Py.lower n]} ∪ acc else acc)
               ∨ (∃ alias, alias ∈ user_aliases u ∧ x = Py.lower alias) → x ∈ s) as Hs.
  { intros x Hx. apply Hacc, elem_of_foldl_lower. done. }
  split.
  - intros x Hx. apply Hs. left. case_bool_decide; set_solver.
  - intros m' [->|Hm']%elem_of_cons; [|by apply Hl].
    exists n, u. split_and!; try done.
    + intros Hne. apply Hs. left. rewrite bool_decide_true by done. set_solver.
    + intros alias Halias. apply Hs. right. eauto.
Qed.

(** An entry of [users_to_add] is a source handle absent from the member
    nicknames, with the id of the user the index gives for it. *)
Lemma elem_of_users_to_add (index : gmap string y360_user)
    (member_nicknames ad_nicknames : gset string) (c : Members.change) :
  c ∈ (Members.users_to_add index member_nicknames ad_nicknames).1 →
  Members.nickname c ∈ ad_nicknames ∧
  (Members.nickname c ∉ member_nicknames) ∧
  ∃ u, index !! Members.nickname c = Some u ∧ Members.change_user_id c = user_id u.
Proof.
  unfold Members.users_to_add.
  assert (∀ l (acc : list Members.change * nat),
    (∀ x, x ∈ l → x ∈ ad_nicknames) →
    c ∈ (foldl (λ '(to_add, not_found) ad_nickname,
           if bool_decide (ad_nickname ∉ member_nicknames) then
             match index !! ad_nickname with
             | Some y360_user =>
                 (to_add ++ [Members.Build_change ad_nickname (user_id y360_user)],
                  not_found)
             | None => (to_add, S not_found)
             end
           else (to_add, not_found)) acc l).1 →
    c ∈ acc.1 ∨
    (Members.nickname c ∈ ad_nicknames ∧ (Members.nickname c ∉ member_nicknames) ∧
     ∃ u, index !! Members.nickname c = Some u ∧
          Members.change_user_id c = user_id u)) as Hgen.
  { induction l as [|x l IH]; intros [to_add nf] Hl; cbn [foldl]; [auto|].
    assert (∀ y, y ∈ l → y ∈ ad_nicknames) as Hl' by (intros; apply Hl; by right).
    case_bool_decide as Hx; [|by apply IH].
    destruct (index !! x) as [u|] eqn:Hu;
      [|intros [Hc|?]%IH; [by left|by right|done]].
    intros [Hc|?]%IH; [|by right|done]. simpl in Hc.
    apply elem_of_app in Hc as [?|Hc%list_elem_of_singleton]; [by left|].
    subst c. right. simpl. split_and!; [apply Hl; by left|done|eauto]. }
  intros Hc. apply Hgen in Hc as [Hc|?]; [by apply elem_of_nil in Hc|done|].
  intros x. by rewrite elem_of_elements.
Qed.

(** An entry of [users_to_remove] is a current member with a nickname whose
    lower-cased form is no source handle. *)
Lemma elem_of_users_to_remove (members : list y360_user)
    (ad_nicknames : gset string) (c : Members.change) :
  c ∈ Members.users_to_remove members ad_nicknames →
  ∃ m, m ∈ members ∧ user_nickname m = Some (Members.nickname c) ∧
       Members.nickname c ≠ "" ∧ Members.change_user_id c = user_id m ∧
       Py.lower (Members.nickname c) ∉ ad_nicknames.
Proof.
  unfold Members.users_to_remove.
  rewrite (foldl_ext _ (λ acc m,
    match (if Py.truthy (user_nickname m) then
             if bool_decide (Py.lower (default "" (user_nickname m)) ∉ ad_nicknames)
             then Some (Members.Build_change (default "" (user_nickname m)) (user_id m))
             else None
           else None) with
    | Some x => acc ++ [x]
    | None => acc
    end)).
  2:{ intros acc m. destruct (Py.truthy _); [|done]. by case_bool_decide. }
  rewrite (foldl_snoc_omap
    (λ m, if Py.truthy (user_nickname m) then
            if bool_decide (Py.lower (default "" (user_nickname m)) ∉ ad_nicknames)
            then Some (Members.Build_change (default "" (user_nickname m)) (user_id m))
            else None
          else None)).
  rewrite app_nil_l, list_elem_of_omap. intros (m & Hm & Hc).
  destruct (Py.truthy (user_nickname m)) eqn:Ht; [|done].
  apply truthy_Some in Ht as (n & Hn & Hne). rewrite Hn in Hc. simpl in Hc.
  case_bool_decide; [|done]. injection Hc as <-. exists m. by rewrite Hn.
Qed.



Lemma NoDup_fmap_eq {A B : Type} (f : A → B) (l : list A) (x y : A) :
  NoDup (f <$> l) → x ∈ l → y ∈ l → f x = f y → x = y.
Proof.
  induction l as [|a l IH]; [by intros _ ?%elem_of_nil|].
  rewrite fmap_cons, NoDup_cons. intros [Ha Hl].
  intros [->|Hx]%elem_of_cons [->|Hy]%elem_of_cons Hxy; try done.
  - destruct Ha. rewrite Hxy. by apply list_elem_of_fmap_2.
  - destruct Ha. rewrite <-Hxy. by apply list_elem_of_fmap_2.
  - by apply IH.
Qed.

(** When the reconciliation of a group reaches the comparison (the member
    nicknames were computed), for every current member whose nickname the
    alias index resolves to the target user [u], every alias of [u] and every
    source handle [h] equal to that alias up to case, no entry of
    [users_to_add] carries [h]. *)
Lemma alias_of_resolved_member_not_added (index : gmap string y360_user)
    (members : list y360_user) (member_nicknames ad_nicknames : gset string)
    (m u : y360_user) (n alias h : string) :
  Members.y360_member_nicknames index ∅ members
    = Members.Return member_nicknames →
  m ∈ members →
  user_nickname m = Some n →
  index !! Py.lower n = Some u →
  alias ∈ user_aliases u →
  Py.lower h = Py.lower alias →
  ∀ c, c ∈ (Members.users_to_add index member_nicknames ad_nicknames).1 →
       Members.nickname c ≠ Py.lower h.
Proof.
  intros Hs Hm Hn Hu Halias Hh c Hc Heq.
  apply elem_of_users_to_add in Hc as (_ & Hnot & _).
  apply y360_member_nicknames_Return in Hs as [_ Hs].
  destruct (Hs m Hm) as (n' & u' & Hn' & Hu' & _ & Haliases).
  assert (n' = n) as -> by congruence. assert (u' = u) as -> by congruence.
  apply Hnot. rewrite Heq, Hh. by apply Haliases.
Qed.

(** The handles selected for addition and the lower-cased nicknames selected
    for removal never meet, whatever the alias index. *)
Lemma add_remove_handles_disjoint (index : gmap string y360_user)
    (members : list y360_user) (member_nicknames ad_nicknames : gset string)
    (a r : Members.change) :
  a ∈ (Members.users_to_add index member_nicknames ad_nicknames).1 →
  r ∈ Members.users_to_remove members ad_nicknames →
  Members.nickname a ≠ Py.lower (Members.nickname r).
Proof.
  intros (Ha & _)%elem_of_users_to_add (m & _ & _ & _ & _ & Hr)%elem_of_users_to_remove.
  congruence.
Qed.


(** ** A missing or empty membership file *)

(** C10 (as the code has it): for a target group tagged with the objectGUID
    of a source group whose membership file is missing or yields no email,
    the iteration makes one call only, the read of the member list: no
    add-member and no remove-member call is made, so the membership is left
    as it is.  When the read succeeds and the member nicknames are computed,
    the group is counted in [skipped_groups_count] (after
    [y360_groups_processed] and [ad_groups_found]) and in no other counter;
    when the read fails the group is counted in [errors_count] instead. *)
Theorem empty_members_file_skips (dry_run : bool) (api : Remote)
    (dir : Members.directory) (by_guid : gmap string ad_group)
    (by_nickname : gmap string y360_user) (h : list call) (st : Members.stats)
    (g : y360_group) (guid : string) (a : ad_group) :
  y360_externalId g = Some ("DDG;" +:+ guid) →
  by_guid !! guid = Some a →
  dir (Members.filename (default "" (ad_displayName a))) = None ∨
  Members.get_group_members_from_file dir a = [] →
  let step :=
    Members.sync_y360_group dry_run api dir by_guid by_nickname h st g in
  let st1 := Members.incr_found (Members.incr_processed st) in
  step.1 = h ++ [GetGroupMembers (y360_id g)] ∧
  (∀ members member_nicknames,
     get_group_members_by_api api h (y360_id g) = (true, members) →
     Members.y360_member_nicknames by_nickname ∅ members
       = Members.Return member_nicknames →
     step.2 = Members.Return (Members.incr_skipped st1)) ∧
  (∀ members,
     get_group_members_by_api api h (y360_id g) = (false, members) →
     step.2 = Members.Return (Members.incr_errors st1)).
Proof.
  intros Hext Hguid Hfile step st1.
  assert (Members.get_group_members_from_file dir a = []) as Hempty.
  { destruct Hfile as [Hmissing|?]; [|done].
    unfold Members.get_group_members_from_file.
    destruct (Py.truthy (ad_displayName a)); simpl; [|done]. by rewrite Hmissing. }
  subst step. unfold Members.sync_y360_group. rewrite Hext.
  change (default "" (Some ("DDG;" +:+ guid))) with ("DDG;" +:+ guid).
  rewrite startswith_DDG_app, split_DDG_app. cbn [negb]. rewrite Hguid.
  destruct (get_group_members_by_api api h (y360_id g)) as [success members].
  destruct success; cbn [negb].
  - destruct (Members.y360_member_nicknames by_nickname ∅ members)
      as [s|e] eqn:Hs.
    + rewrite Hempty. simpl. split_and!; [done| |by intros ? [=]].
      by intros ? ? _ _.
    + simpl. split_and!; [done| |by intros ? [=]].
      intros members' s' [= <-] Hs'. congruence.
  - simpl. split_and!; [done|by intros ? ? [=]|done].
Qed.

(** The group Sales in a directory without its membership file. *)
Lemma empty_members_file_skips_witness :
  let api := Sample.api_with [Sample.alice; Sample.bob] in
  let by_guid := Members.ad_groups_by_guid [Sample.sales] in
  let by_nickname :=
    Members.y360_users_by_nickname [Sample.alice; Sample.bob; Sample.carol] in
  let step :=
    Members.sync_y360_group false api Sample.empty_dir by_guid by_nickname []
      Members.stats0 Sample.y360_sales in
  (by_guid !! "G1" = Some Sample.sales ∧
   Sample.empty_dir (Members.filename "Sales") = None) ∧
  step.1 = [GetGroupMembers (Some 10%Z)] ∧
  step.2 = Members.Return
             (Members.incr_skipped
                (Members.incr_found (Members.incr_processed Members.stats0))).
Proof.
  intros api by_guid by_nickname step.
  assert (by_guid !! "G1" = Some Sample.sales) as Hguid
    by (vm_compute; reflexivity).
  destruct (empty_members_file_skips false api Sample.empty_dir by_guid
              by_nickname [] Members.stats0 Sample.y360_sales "G1" Sample.sales
              eq_refl Hguid (or_introl eq_refl)) as (Hcalls & Hskip & _).
  split; [done|]. split; [exact Hcalls|].
  apply (Hskip [Sample.alice; Sample.bob] {["a.smith"; "alice"; "bob"]}).
  - reflexivity.
  - vm_compute. reflexivity.
Defined.

(** C10, the claim refuted: the membership file of the group Sales is
    missing, but the read of the member list fails first; the group is
    counted in [errors_count], and [skipped_groups_count] stays at 0. *)
Lemma failed_read_is_not_counted_as_skipped :
  Members.get_group_members_from_file Sample.empty_dir Sample.sales = [] ∧
  Members.sync_group_members false Sample.api_down Sample.empty_dir
    [Sample.sales] [Sample.y360_sales] [Sample.alice]
  = ([GetGroupMembers (Some 10%Z)],
     Members.Return (false, Members.Build_stats 1 1 0 0 0 1 0)).
Proof. split; vm_compute; reflexivity. Qed.

(** ** Running the group sync twice *)

Lemma has_required_true a :
  has_required a = true ↔
  Py.truthy (ad_objectGUID a) = true ∧ Py.truthy (ad_displayName a) = true ∧
  Py.truthy (ad_mail a) = true.
Proof. unfold has_required. rewrite !andb_true_iff. naive_solver. Qed.

Lemma sync_ad_group_live api index h st a :
  (Groups.sync_ad_group false api index (h, st) a).1
  = h ++ first_loop_calls index a.
Proof.
  unfold Groups.sync_ad_group, first_loop_calls, has_required, tag_of.
  destruct (Py.truthy (ad_objectGUID a)); simpl; [|by rewrite app_nil_r].
  destruct (Py.truthy (ad_displayName a)); simpl; [|by rewrite app_nil_r].
  destruct (Py.truthy (ad_mail a)); simpl; [|by rewrite app_nil_r].
  destruct (index !! _).
  - case_bool_decide; [|by rewrite app_nil_r].
    by destruct (patch_group_by_api _ _ _ _).
  - by destruct (create_group_by_api _ _ _).
Qed.

Lemma foldl_live_calls {S X : Type} (f : list call * S → X → list call * S)
    (calls : X → list call) (l : list X) :
  (∀ h s x, (f (h, s) x).1 = h ++ calls x) →
  ∀ h s, (foldl f (h, s) l).1 = h ++ (l ≫= calls).
Proof.
  intros Hf. induction l as [|x l IH]; intros h s; cbn [foldl].
  { by rewrite app_nil_r. }
  specialize (Hf h s x). destruct (f (h, s) x) as [h1 s1]. simpl in Hf. subst h1.
  rewrite IH, bind_cons. by rewrite <-app_assoc.
Qed.

Lemma delete_group_live api h st d :
  (Groups.delete_group false api (h, st) d).1 = h ++ [DeleteGroup (Groups.del_id d)].
Proof.
  unfold Groups.delete_group. simpl.
  by destruct (delete_group_by_api _ _ _) as [[] []].
Qed.

(** The calls of a live run, whatever the service answers. *)
Lemma sync_ad_groups_to_y360_live api ad_groups y360_groups :
  ad_groups ≠ [] →
  (Groups.sync_ad_groups_to_y360 false api ad_groups y360_groups).1
  = (ad_groups ≫= first_loop_calls (Groups.y360_groups_by_external_id y360_groups))
    ++ ((λ d, DeleteGroup (Groups.del_id d))
          <$> Groups.groups_to_delete ad_groups y360_groups).
Proof.
  intros Hne. unfold Groups.sync_ad_groups_to_y360.
  destruct ad_groups as [|a l]; [done|].
  set (ad := a :: l). set (index := Groups.y360_groups_by_external_id _).
  set (st0 := Groups.set_counts _ _ _).
  pose proof (foldl_live_calls (Groups.sync_ad_group false api index)
                (first_loop_calls index) ad
                (λ h s x, sync_ad_group_live api index h s x) [] st0) as H1.
  destruct (foldl (Groups.sync_ad_group _ _ _) _ ad) as [h1 st1].
  simpl in H1. subst h1.
  pose proof (foldl_live_calls (Groups.delete_group false api)
                (λ d, [DeleteGroup (Groups.del_id d)])
                (Groups.groups_to_delete ad y360_groups)
                (λ h s x, delete_group_live api h s x)
                (ad ≫= first_loop_calls index) st1) as H2.
  destruct (foldl (Groups.delete_group _ _) _ _) as [h2 st2].
  simpl in *. subst h2. f_equal.
Qed.

(** ** The store *)

Lemma replay_app (h1 h2 : list call) (s : list y360_group) :
  Store.replay (h1 ++ h2) s = Store.replay h2 (Store.replay h1 s).
Proof. apply foldl_app. Qed.

Lemma last_filter_keep {A : Type} (P Q : A → Prop)
    `{!∀ x, Decision (P x), !∀ x, Decision (Q x)} (l : list A) (x : A) :
  last (filter P l) = Some x → Q x → last (filter P (filter Q l)) = Some x.
Proof.
  intros Hlast HQ.
  assert (P x) as HP.
  { apply last_Some_elem_of in Hlast. by apply list_elem_of_filter in Hlast as [? _]. }
  apply last_filter_Some in Hlast as (l1 & l2 & -> & Hl2).
  rewrite !filter_app, (filter_cons_True Q x) by done.
  rewrite (filter_cons_True P x) by done.
  assert (filter P (filter Q l2) = []) as ->.
  { clear -Hl2. induction Hl2 as [|y l2 Hy _ IH]; [done|].
    rewrite (filter_cons Q). destruct (decide (Q y)); [|done].
    by rewrite filter_cons_False. }
  by rewrite last_app.
Qed.

Lemma filter_fmap_stable {A : Type} (P : A → Prop) `{!∀ x, Decision (P x)}
    (f : A → A) (l : list A) :
  (∀ x, P (f x) ↔ P x) → filter P (f <$> l) = f <$> filter P l.
Proof.
  intros Hf. induction l as [|x l IH]; [done|].
  rewrite fmap_cons, !filter_cons, IH.
  destruct (decide (P x)) as [HP|HP].
  - rewrite decide_True by (by apply Hf). done.
  - rewrite decide_False by (by rewrite Hf). done.
Qed.

Lemma with_tag_patch (k : string) (gid : option Z) (patch : gmap string string)
    (s : list y360_group) :
  with_tag k (Store.apply_call s (PatchGroup gid patch))
  = (λ g, if bool_decide (y360_id g = gid) then Store.patched patch g else g)
      <$> with_tag k s.
Proof.
  unfold with_tag.
  change (Store.apply_call s (PatchGroup gid patch)) with
    ((λ g, if bool_decide (y360_id g = gid) then Store.patched patch g else g)
       <$> s).
  apply filter_fmap_stable. intros g. by case_bool_decide.
Qed.

Lemma with_tag_create (k : string) (data : gmap string string)
    (s : list y360_group) :
  with_tag k (Store.apply_call s (CreateGroup data))
  = with_tag k s ++
    (if decide (data !! "externalId" = Some k) then [Store.created s data] else []).
Proof.
  unfold with_tag.
  change (Store.apply_call s (CreateGroup data)) with (s ++ [Store.created s data]).
  by rewrite filter_app.
Qed.

(** A harmless call leaves the last group carrying the tag as it is. *)
Lemma apply_call_last_tag (k : string) (x : y360_group) (c : call)
    (s : list y360_group) :
  last (with_tag k s) = Some x → harmless k x c →
  last (with_tag k (Store.apply_call s c)) = Some x.
Proof.
  intros Hlast Hc. destruct c as [data|gid p|gid|gid|? ? ?|? ? ?]; simpl in Hc;
    try done.
  - rewrite with_tag_create, decide_False by done. by rewrite app_nil_r.
  - rewrite with_tag_patch, fmap_last, Hlast. simpl.
    by rewrite bool_decide_false.
  - unfold with_tag.
    change (Store.apply_call s (DeleteGroup gid)) with
      (filter (λ g, y360_id g ≠ gid) s).
    apply last_filter_keep; [done|]. congruence.
Qed.

Lemma replay_last_tag (k : string) (x : y360_group) (t : list call)
    (s : list y360_group) :
  last (with_tag k s) = Some x → Forall (harmless k x) t →
  last (with_tag k (Store.replay t s)) = Some x.
Proof.
  intros Hlast Ht. revert s Hlast.
  induction Ht as [|c t Hc _ IH]; intros s Hlast; [done|].
  apply IH. by apply apply_call_last_tag.
Qed.

(** Calls that create no group with the tag leave the store without a group
    carrying it. *)
Lemma replay_no_tag (k : string) (t : list call) (s : list y360_group) :
  with_tag k s = [] →
  Forall (λ c, ∀ data, c = CreateGroup data → data !! "externalId" ≠ Some k) t →
  with_tag k (Store.replay t s) = [].
Proof.
  intros Hnil Ht. revert s Hnil.
  induction Ht as [|c t Hc _ IH]; intros s Hnil; [done|].
  apply IH. destruct c as [data|gid p|gid|gid|? ? ?|? ? ?]; try done.
  - rewrite with_tag_create, decide_False by eauto. by rewrite Hnil.
  - by rewrite with_tag_patch, Hnil.
  - unfold with_tag in *.
    change (Store.apply_call s (DeleteGroup gid)) with
      (filter (λ g, y360_id g ≠ gid) s).
    destruct (filter _ (filter _ s)) as [|y l] eqn:E; [done|].
    assert (y ∈ y :: l) as Hy by left. rewrite <-E in Hy.
    apply list_elem_of_filter in Hy as [? [_ Hy]%list_elem_of_filter].
    assert (y ∈ filter (λ g, y360_externalId g = Some k) s) as Hy'
      by (by apply list_elem_of_filter).
    rewrite Hnil in Hy'. by apply elem_of_nil in Hy'.
Qed.

Lemma fresh_id_fresh (s : list y360_group) (g : y360_group) :
  g ∈ s → y360_id g ≠ Some (Store.fresh_id s).
Proof.
  intros Hg Hid. unfold Store.fresh_id in Hid.
  assert (default 0%Z (y360_id g)
          ≤ foldr (λ g m, Z.max (default 0%Z (y360_id g)) m) 0%Z s)%Z as Hle.
  { clear Hid. induction s as [|x s IH]; [by apply elem_of_nil in Hg|].
    apply elem_of_cons in Hg as [->|Hg]; simpl; [lia|].
    specialize (IH Hg). lia. }
  rewrite Hid in Hle. simpl in Hle. lia.
Qed.

(** Without deletion the ids present stay present. *)
Lemma replay_keeps_ids (t : list call) (s : list y360_group) (i : option Z) :
  Forall (λ c, ∀ gid, c ≠ DeleteGroup gid) t →
  i ∈ y360_id <$> s → i ∈ y360_id <$> Store.replay t s.
Proof.
  intros Ht. revert s. induction Ht as [|c t Hc _ IH]; intros s Hi; [done|].
  apply IH. destruct c as [data|gid p|gid|gid|? ? ?|? ? ?]; try done.
  - change (Store.apply_call s (CreateGroup data)) with (s ++ [Store.created s data]).
    rewrite fmap_app. apply elem_of_app. by left.
  - change (Store.apply_call s (PatchGroup gid p)) with
      ((λ g, if bool_decide (y360_id g = gid) then Store.patched p g else g) <$> s).
    rewrite <-list_fmap_compose.
    erewrite list_fmap_ext; [exact Hi|]. intros ? g _. simpl. by case_bool_decide.
  - by destruct (Hc gid).
Qed.

(** ** Groups in sync *)

Lemma changes_needed_name (dn mail : string) (desc : option string) (g : y360_group) :
  Groups.changes_needed dn mail desc g !! "name"
  = if bool_decide (default "" (y360_name g) ≠ dn) then Some dn else None.
Proof.
  unfold Groups.changes_needed.
  repeat case_bool_decide; repeat destruct (Py.truthy _); by simplify_map_eq.
Qed.

Lemma changes_needed_label (dn mail : string) (desc : option string) (g : y360_group) :
  Groups.changes_needed dn mail desc g !! "label"
  = if Py.truthy (Groups.expected_label mail) then
      if bool_decide (default "" (y360_label g) ≠ default "" (Groups.expected_label mail))
      then Some (default "" (Groups.expected_label mail)) else None
    else None.
Proof.
  unfold Groups.changes_needed.
  repeat case_bool_decide; repeat destruct (Py.truthy _); by simplify_map_eq.
Qed.

Lemma changes_needed_description (dn mail : string) (desc : option string)
    (g : y360_group) :
  Groups.changes_needed dn mail desc g !! "description"
  = if bool_decide (default "" (y360_description g) ≠ Groups.expected_description desc)
    then Some (Groups.expected_description desc) else None.
Proof.
  unfold Groups.changes_needed.
  repeat case_bool_decide; repeat destruct (Py.truthy _); by simplify_map_eq.
Qed.

(** Applying the patch computed for a group leaves nothing to change. *)
Lemma in_sync_patched (a : ad_group) (g : y360_group) :
  in_sync a
    (Store.patched
       (Groups.changes_needed (default "" (ad_displayName a))
          (default "" (ad_mail a)) (ad_description a) g) g).
Proof.
  unfold in_sync.
  set (dn := default "" (ad_displayName a)). set (mail := default "" (ad_mail a)).
  set (desc := ad_description a).
  unfold Store.patched.
  rewrite changes_needed_name, changes_needed_label, changes_needed_description.
  unfold Groups.changes_needed at 1. simpl.
  destruct (Py.truthy (Groups.expected_label mail));
    repeat case_bool_decide; simpl in *; try done; naive_solver.
Qed.

Lemma group_data_lookup (dn ext mail : string) (desc : option string) :
  let data := Groups.group_data dn ext mail desc in
  data !! "externalId" = Some ext ∧
  data !! "name" = Some dn ∧
  data !! "label" = Groups.expected_label mail ∧
  data !! "description" = (if Py.truthy desc then Some (default "" desc) else None).
Proof.
  unfold Groups.group_data, Groups.expected_label.
  destruct (Py.contains "@" mail), (Py.truthy desc); by simplify_map_eq.
Qed.

(** A group created from the payload of a source group needs no change. *)
Lemma in_sync_created (a : ad_group) (s : list y360_group) :
  in_sync a
    (Store.created s
       (Groups.group_data (default "" (ad_displayName a)) (tag_of a)
          (default "" (ad_mail a)) (ad_description a))).
Proof.
  unfold in_sync, Store.created.
  destruct (group_data_lookup (default "" (ad_displayName a)) (tag_of a)
              (default "" (ad_mail a)) (ad_description a)) as (-> & -> & -> & ->).
  unfold Groups.changes_needed, Groups.expected_description. simpl.
  destruct (Py.truthy (Groups.expected_label _)), (Py.truthy (ad_description a));
    repeat case_bool_decide; simpl in *; try done; naive_solver.
Qed.

(** ** The first loop, one source group at a time *)

Lemma elem_of_source_guids (l : list ad_group) (a : ad_group) :
  a ∈ l → Py.truthy (ad_objectGUID a) = true →
  default "" (ad_objectGUID a) ∈ source_guids l.
Proof.
  intros Ha Ht. unfold source_guids. apply list_elem_of_omap.
  exists a. split; [done|]. rewrite Ht.
  apply truthy_Some in Ht as (s & -> & _). done.
Qed.

Lemma tag_of_inj (a a' : ad_group) :
  tag_of a' = tag_of a →
  default "" (ad_objectGUID a') = default "" (ad_objectGUID a).
Proof. apply DDG_app_inj. Qed.

(** With distinct objectGUIDs, the other source groups have other tags. *)
Lemma other_tags (l1 l2 : list ad_group) (a : ad_group) :
  NoDup (source_guids (l1 ++ a :: l2)) → has_required a = true →
  ∀ a', a' ∈ l1 ++ l2 → has_required a' = true → tag_of a' ≠ tag_of a.
Proof.
  intros Hnd Ha a' Ha' Hreq Htag.
  apply has_required_true in Ha as (Hg & _), Hreq as (Hg' & _).
  apply tag_of_inj in Htag.
  unfold source_guids in Hnd. rewrite omap_app in Hnd. cbn [omap list_omap] in Hnd.
  rewrite Hg in Hnd. fold (omap (λ a, if Py.truthy (ad_objectGUID a)
    then ad_objectGUID a else None) l2) in Hnd.
  destruct (ad_objectGUID a) as [guid|] eqn:Hguid; [|done]. simpl in *.
  apply NoDup_app in Hnd as (_ & Hdisj & [Hnotin _]%NoDup_cons).
  apply elem_of_app in Ha' as [Ha'|Ha'].
  - apply (Hdisj guid); [|by left].
    rewrite <-Htag. by apply elem_of_source_guids.
  - apply Hnotin. rewrite <-Htag. by apply (elem_of_source_guids l2).
Qed.

Lemma elem_of_first_loop_calls (index : gmap string y360_group) (a : ad_group)
    (c : call) :
  c ∈ first_loop_calls index a →
  has_required a = true ∧
  ((∃ g, index !! tag_of a = Some g ∧
         c = PatchGroup (y360_id g)
               (Groups.changes_needed (default "" (ad_displayName a))
                  (default "" (ad_mail a)) (ad_description a) g)) ∨
   (index !! tag_of a = None ∧
    c = CreateGroup
          (Groups.group_data (default "" (ad_displayName a)) (tag_of a)
             (default "" (ad_mail a)) (ad_description a)))).
Proof.
  unfold first_loop_calls. destruct (has_required a); [|by intros ?%elem_of_nil].
  destruct (index !! tag_of a) as [g|].
  - case_bool_decide; [|by intros ?%elem_of_nil].
    intros ->%list_elem_of_singleton. eauto.
  - intros ->%list_elem_of_singleton. eauto.
Qed.

Lemma first_loop_no_delete (index : gmap string y360_group) (l : list ad_group) :
  Forall (λ c, ∀ gid, c ≠ DeleteGroup gid) (l ≫= first_loop_calls index).
Proof.
  apply Forall_forall. intros c (a & Hc & _)%list_elem_of_bind gid.
  apply elem_of_first_loop_calls in Hc as (_ & [(g & _ & ->)|(_ & ->)]); done.
Qed.

Lemma first_loop_not_creating (index : gmap string y360_group)
    (l : list ad_group) (k : string) :
  (∀ a', a' ∈ l → has_required a' = true → tag_of a' ≠ k) →
  Forall (λ c, ∀ data, c = CreateGroup data → data !! "externalId" ≠ Some k)
         (l ≫= first_loop_calls index).
Proof.
  intros Hl. apply Forall_forall. intros c (a & Hc & Ha)%list_elem_of_bind data ->.
  apply elem_of_first_loop_calls in Hc as (Hreq & [(g & _ & [=])|(_ & [= ->])]).
  destruct (group_data_lookup (default "" (ad_displayName a)) (tag_of a)
              (default "" (ad_mail a)) (ad_description a)) as (-> & _).
  intros [= Hk]. by apply (Hl a).
Qed.

(** The group [x], which has the id of the snapshot group tagged [k] or an id
    outside the snapshot, is left alone by the calls made for source groups
    with other tags. *)
Lemma first_loop_harmless (y360_groups : list y360_group) (l : list ad_group)
    (k : string) (x : y360_group) :
  NoDup (y360_id <$> y360_groups) →
  (∀ a', a' ∈ l → has_required a' = true → tag_of a' ≠ k) →
  (∃ t, t ∈ y360_groups ∧ y360_id x = y360_id t ∧ y360_externalId t = Some k) ∨
  y360_id x ∉ y360_id <$> y360_groups →
  Forall (harmless k x)
         (l ≫= first_loop_calls (Groups.y360_groups_by_external_id y360_groups)).
Proof.
  intros Hnd Hl Hx. apply Forall_forall.
  intros c (a & Hc & Ha)%list_elem_of_bind.
  apply elem_of_first_loop_calls in Hc as (Hreq & [(g & Hg & ->)|(_ & ->)]); simpl.
  - apply y360_groups_by_external_id_Some in Hg as [Hin Hext].
    intros Hid. destruct Hx as [(t & Ht & Hxt & Hk)|Hx].
    + assert (g = t) as ->.
      { apply (NoDup_fmap_eq y360_id y360_groups); try done. congruence. }
      apply (Hl a Ha Hreq). congruence.
    + apply Hx. rewrite <-Hid. by apply list_elem_of_fmap_2.
  - destruct (group_data_lookup (default "" (ad_displayName a)) (tag_of a)
                (default "" (ad_mail a)) (ad_description a)) as (-> & _).
    intros [= Hk]. by apply (Hl a).
Qed.

Lemma tag_of_nonempty (a : ad_group) : tag_of a ≠ "".
Proof. apply DDG_app_nonempty. Qed.

(** After the calls of the first loop, the last group tagged for a source
    group with its required attributes is in sync with it. *)
Lemma first_loop_result (ad_groups : list ad_group) (y360_groups : list y360_group)
    (a : ad_group) :
  NoDup (source_guids ad_groups) →
  NoDup (y360_id <$> y360_groups) →
  a ∈ ad_groups → has_required a = true →
  let index := Groups.y360_groups_by_external_id y360_groups in
  ∃ x,
    last (with_tag (tag_of a)
            (Store.replay (ad_groups ≫= first_loop_calls index) y360_groups))
      = Some x ∧
    in_sync a x ∧
    ((∃ t, t ∈ y360_groups ∧ y360_id x = y360_id t ∧
           y360_externalId t = Some (tag_of a)) ∨
     y360_id x ∉ y360_id <$> y360_groups).
Proof.
  intros Hguids Hids Ha Hreq index.
  apply list_elem_of_split in Ha as (l1 & l2 & ->).
  pose proof (other_tags l1 l2 a Hguids Hreq) as Hother.
  assert (∀ a', a' ∈ l1 → has_required a' = true → tag_of a' ≠ tag_of a) as H1.
  { intros a' ?. apply Hother, elem_of_app. by left. }
  assert (∀ a', a' ∈ l2 → has_required a' = true → tag_of a' ≠ tag_of a) as H2.
  { intros a' ?. apply Hother, elem_of_app. by right. }
  rewrite bind_app, bind_cons, !replay_app.
  set (s1 := Store.replay (l1 ≫= first_loop_calls index) y360_groups).
  pose proof (y360_groups_by_external_id_last y360_groups (tag_of a)
                (tag_of_nonempty a)) as Hlast. fold index in Hlast.
  unfold first_loop_calls at 2. rewrite Hreq.
  destruct (index !! tag_of a) as [t|] eqn:Ht.
  - (* the tag is in the snapshot *)
    symmetry in Hlast. fold (with_tag (tag_of a) y360_groups) in Hlast.
    destruct (y360_groups_by_external_id_Some _ _ _ Ht) as [Hin Hext].
    assert ((∃ t', t' ∈ y360_groups ∧ y360_id t = y360_id t' ∧
                   y360_externalId t' = Some (tag_of a)) ∨
            y360_id t ∉ y360_id <$> y360_groups) as Horig by (left; eauto).
    assert (last (with_tag (tag_of a) s1) = Some t) as Hs1.
    { apply replay_last_tag; [done|]. by apply first_loop_harmless. }
    case_bool_decide as Hch.
    + exists (Store.patched
                (Groups.changes_needed (default "" (ad_displayName a))
                   (default "" (ad_mail a)) (ad_description a) t) t).
      split_and!.
      * apply replay_last_tag; [|apply first_loop_harmless; try done; left; eauto].
        cbn [Store.replay foldl].
        rewrite with_tag_patch, fmap_last, Hs1. simpl.
        by rewrite bool_decide_true.
      * apply in_sync_patched.
      * left. eauto.
    + exists t. split_and!; [|exact Hch|done].
      apply replay_last_tag; [done|]. by apply first_loop_harmless.
  - (* the tag is not in the snapshot: the group is created *)
    symmetry in Hlast. apply last_None in Hlast.
    fold (with_tag (tag_of a) y360_groups) in Hlast.
    assert (with_tag (tag_of a) s1 = []) as Hs1.
    { apply replay_no_tag; [done|]. by apply first_loop_not_creating. }
    set (data := Groups.group_data _ _ _ _).
    assert (y360_id (Store.created s1 data) ∉ y360_id <$> y360_groups) as Hfresh.
    { intros Hin. apply (replay_keeps_ids (l1 ≫= first_loop_calls index)) in Hin;
        [|apply first_loop_no_delete].
      fold s1 in Hin. apply list_elem_of_fmap in Hin as (g & Hid & Hg).
      by apply (fresh_id_fresh s1 g). }
    exists (Store.created s1 data). split_and!.
    + apply replay_last_tag; [|apply first_loop_harmless; try done; by right].
      cbn [Store.replay foldl]. rewrite with_tag_create, Hs1.
      destruct (group_data_lookup (default "" (ad_displayName a)) (tag_of a)
                  (default "" (ad_mail a)) (ad_description a)) as (He & _).
      fold data in He. by rewrite decide_True.
    + apply in_sync_created.
    + by right.
Qed.

(** ** The deletions *)

Lemma elem_of_groups_to_delete (ad_groups : list ad_group)
    (y360_groups : list y360_group) (d : Groups.deletion) :
  d ∈ Groups.groups_to_delete ad_groups y360_groups ↔
  ∃ o, o ∈ y360_groups ∧ deletion_of ad_groups o = Some d.
Proof. by rewrite groups_to_delete_omap, list_elem_of_omap. Qed.

Lemma deletions_harmless (ad_groups : list ad_group)
    (y360_groups : list y360_group) (a : ad_group) (x : y360_group) :
  NoDup (y360_id <$> y360_groups) →
  a ∈ ad_groups → has_required a = true →
  (∃ t, t ∈ y360_groups ∧ y360_id x = y360_id t ∧
        y360_externalId t = Some (tag_of a)) ∨
  y360_id x ∉ y360_id <$> y360_groups →
  Forall (harmless (tag_of a) x)
         ((λ d, DeleteGroup (Groups.del_id d))
            <$> Groups.groups_to_delete ad_groups y360_groups).
Proof.
  intros Hids Ha Hreq Hx. apply Forall_fmap, Forall_forall.
  intros d (o & Ho & Hd)%elem_of_groups_to_delete. simpl.
  apply deletion_of_Some in Hd as (Hid & Hext & Htag & Hno).
  rewrite Hid. intros Heq. destruct Hx as [(t & Ht & Hxt & Hk)|Hx].
  - assert (o = t) as ->.
    { apply (NoDup_fmap_eq y360_id y360_groups); try done. congruence. }
    apply Hno. apply elem_of_ad_object_guids. exists a.
    apply has_required_true in Hreq as (Hg & _).
    apply truthy_Some in Hg as (guid & Hguid & Hne).
    assert (tag_of a = "DDG;" +:+ Groups.del_objectGUID d) as Htags by congruence.
    unfold tag_of in Htags. rewrite Hguid in Htags. apply DDG_app_inj in Htags.
    simpl in Htags. subst guid. done.
  - apply Hx. rewrite <-Heq. by apply list_elem_of_fmap_2.
Qed.

Lemma replay_accounted (ad_groups : list ad_group) (y360_groups : list y360_group)
    (t : list call) (s : list y360_group) :
  Forall (accounted ad_groups y360_groups) s →
  Forall (λ c, ∀ data, c = CreateGroup data →
               ∃ guid, guid ∈ Groups.ad_object_guids ad_groups ∧
                       data !! "externalId" = Some ("DDG;" +:+ guid)) t →
  Forall (accounted ad_groups y360_groups) (Store.replay t s).
Proof.
  intros Hs Ht. revert s Hs. induction Ht as [|c t Hc _ IH]; intros s Hs; [done|].
  apply IH. destruct c as [data|gid p|gid|gid|? ? ?|? ? ?]; try done.
  - change (Store.apply_call s (CreateGroup data)) with (s ++ [Store.created s data]).
    apply Forall_app. split; [done|]. constructor; [|done].
    right. destruct (Hc data eq_refl) as (guid & ? & ?). by exists guid.
  - change (Store.apply_call s (PatchGroup gid p)) with
      ((λ g, if bool_decide (y360_id g = gid) then Store.patched p g else g) <$> s).
    apply Forall_fmap. eapply Forall_impl; [exact Hs|].
    intros g Hg. simpl. by case_bool_decide.
  - change (Store.apply_call s (DeleteGroup gid)) with
      (filter (λ g, y360_id g ≠ gid) s).
    apply Forall_forall. intros g [_ Hg]%list_elem_of_filter.
    by apply (proj1 (Forall_forall _ _) Hs).
Qed.

Lemma first_loop_creates_source_tags (index : gmap string y360_group)
    (ad_groups : list ad_group) :
  Forall (λ c, ∀ data, c = CreateGroup data →
               ∃ guid, guid ∈ Groups.ad_object_guids ad_groups ∧
                       data !! "externalId" = Some ("DDG;" +:+ guid))
         (ad_groups ≫= first_loop_calls index).
Proof.
  apply Forall_forall. intros c (a & Hc & Ha)%list_elem_of_bind data ->.
  apply elem_of_first_loop_calls in Hc as (Hreq & [(g & _ & [=])|(_ & [= ->])]).
  destruct (group_data_lookup (default "" (ad_displayName a)) (tag_of a)
              (default "" (ad_mail a)) (ad_description a)) as (-> & _).
  apply has_required_true in Hreq as (Hg & _).
  apply truthy_Some in Hg as (guid & Hguid & Hne).
  exists guid. split.
  - apply elem_of_ad_object_guids. eauto.
  - unfold tag_of. by rewrite Hguid.
Qed.

(** After deletions only, a group of the store was there before and has none
    of the deleted ids. *)
Lemma replay_deletions (ids : list (option Z)) (s : list y360_group)
    (g : y360_group) :
  g ∈ Store.replay (DeleteGroup <$> ids) s →
  g ∈ s ∧ ∀ i, i ∈ ids → y360_id g ≠ i.
Proof.
  revert s. induction ids as [|i ids IH]; intros s.
  { simpl. split; [done|]. by intros ? ?%elem_of_nil. }
  rewrite fmap_cons. cbn [Store.replay foldl].
  change (Store.apply_call s (DeleteGroup i)) with (filter (λ g, y360_id g ≠ i) s).
  intros [[Hi Hg]%list_elem_of_filter Hids]%IH.
  split; [done|]. intros j [->|Hj]%elem_of_cons; auto.
Qed.

Lemma deletion_of_None_ext (ad_groups : list ad_group) (g o : y360_group) :
  y360_externalId g = y360_externalId o →
  deletion_of ad_groups o = None → deletion_of ad_groups g = None.
Proof.
  unfold deletion_of. intros ->.
  destruct (Py.startswith _ _); [|done].
  destruct (Py.split_once _ _) as [[? ?]|]; [|done]. by case_bool_decide.
Qed.

Lemma omap_None {A B : Type} (f : A → option B) (l : list A) :
  (∀ x, x ∈ l → f x = None) → omap f l = [].
Proof.
  induction l as [|x l IH]; intros Hl; [done|].
  cbn [omap list_omap]. rewrite (Hl x) by (by left).
  apply IH. intros y Hy. apply Hl. by right.
Qed.

(** No group is left to delete once the calls of a live run are applied. *)
Lemma nothing_left_to_delete (ad_groups : list ad_group)
    (y360_groups : list y360_group) :
  let index := Groups.y360_groups_by_external_id y360_groups in
  Groups.groups_to_delete ad_groups
    (Store.replay
       ((ad_groups ≫= first_loop_calls index)
        ++ ((λ d, DeleteGroup (Groups.del_id d))
              <$> Groups.groups_to_delete ad_groups y360_groups))
       y360_groups)
  = [].
Proof.
  intros index. rewrite groups_to_delete_omap. apply omap_None. intros g Hg.
  rewrite replay_app in Hg.
  rewrite (list_fmap_compose Groups.del_id DeleteGroup) in Hg.
  apply replay_deletions in Hg as [Hg Hids].
  assert (Forall (accounted ad_groups y360_groups)
            (Store.replay (ad_groups ≫= first_loop_calls index) y360_groups)) as Hacc.
  { apply replay_accounted; [|apply first_loop_creates_source_tags].
    apply Forall_forall. intros o Ho. left. eauto. }
  rewrite Forall_forall in Hacc.
  destruct (Hacc g Hg) as [(o & Ho & Hid & Hext)|(guid & Hguid & Hext)].
  - apply (deletion_of_None_ext _ _ o Hext).
    destruct (deletion_of ad_groups o) as [d|] eqn:Hd; [|done].
    destruct (Hids (Groups.del_id d)).
    + apply list_elem_of_fmap_2, elem_of_groups_to_delete. eauto.
    + apply deletion_of_Some in Hd as (-> & _). done.
  - unfold deletion_of. rewrite Hext.
    change (default "" (Some ("DDG;" +:+ guid))) with ("DDG;" +:+ guid).
    rewrite startswith_DDG_app, split_DDG_app. by rewrite bool_decide_false by auto.
Qed.

(** ** The second run *)

Lemma sync_ad_group_in_sync (dry_run : bool) (api : Remote)
    (index : gmap string y360_group) (h : list call) (st : Groups.stats)
    (a : ad_group) :
  (has_required a = true → ∃ x, index !! tag_of a = Some x ∧ in_sync a x) →
  let r := Groups.sync_ad_group dry_run api index (h, st) a in
  r.1 = h ∧
  Groups.created_count r.2 = Groups.created_count st ∧
  Groups.updated_count r.2 = Groups.updated_count st ∧
  Groups.deleted_count r.2 = Groups.deleted_count st.
Proof.
  intros Ha. unfold Groups.sync_ad_group. unfold has_required in Ha.
  destruct (Py.truthy (ad_objectGUID a)); simpl; [|done].
  destruct (Py.truthy (ad_displayName a)); simpl; [|done].
  destruct (Py.truthy (ad_mail a)); simpl; [|done].
  destruct (Ha eq_refl) as (x & Hx & Hsync). unfold tag_of in Hx. rewrite Hx.
  unfold in_sync in Hsync. rewrite Hsync. by rewrite bool_decide_false by auto.
Qed.

Lemma sync_ad_groups_in_sync (dry_run : bool) (api : Remote)
    (index : gmap string y360_group) (l : list ad_group) (h : list call)
    (st : Groups.stats) :
  (∀ a, a ∈ l → has_required a = true →
        ∃ x, index !! tag_of a = Some x ∧ in_sync a x) →
  let r := foldl (Groups.sync_ad_group dry_run api index) (h, st) l in
  r.1 = h ∧
  Groups.created_count r.2 = Groups.created_count st ∧
  Groups.updated_count r.2 = Groups.updated_count st ∧
  Groups.deleted_count r.2 = Groups.deleted_count st.
Proof.
  revert h st. induction l as [|a l IH]; intros h st Hl; cbv zeta; cbn [foldl].
  { done. }
  pose proof (sync_ad_group_in_sync dry_run api index h st a
                (Hl a ltac:(by left))) as Hstep.
  destruct (Groups.sync_ad_group dry_run api index (h, st) a) as [h1 st1].
  simpl in Hstep. destruct Hstep as (-> & Hc & Hu & Hd).
  destruct (IH h st1) as (Hh' & Hc' & Hu' & Hd').
  { intros a' Ha'. apply Hl. by right. }
  split_and!; congruence.
Qed.

(** C4: idempotence of the group-level sync.  The source groups carry
    pairwise distinct objectGUIDs (the stable identifier of a source group)
    and the target groups pairwise distinct ids (the identifier the service
    assigns).  When the target snapshot of the second run is what the service
    holds once the calls of a live first run are applied, the second run
    against the same source groups, in either mode and whatever the service
    answers, counts no creation, no update and no deletion, and makes no
    call. *)
Theorem second_run_changes_nothing (dry_run : bool) (api : Remote)
    (ad_groups : list ad_group) (y360_groups : list y360_group) :
  NoDup (source_guids ad_groups) →
  NoDup (y360_id <$> y360_groups) →
  let first :=
    Groups.sync_ad_groups_to_y360 false Store.applied ad_groups y360_groups in
  let y360_groups' := Store.replay first.1 y360_groups in
  let second :=
    Groups.sync_ad_groups_to_y360 dry_run api ad_groups y360_groups' in
  Groups.created_count second.2.2 = 0 ∧
  Groups.updated_count second.2.2 = 0 ∧
  Groups.deleted_count second.2.2 = 0 ∧
  second.1 = [].
Proof.
  intros Hguids Hids first y360_groups' second.
  destruct (decide (ad_groups = [])) as [->|Hne]; [done|].
  set (index := Groups.y360_groups_by_external_id y360_groups).
  set (deletes := (λ d, DeleteGroup (Groups.del_id d))
                    <$> Groups.groups_to_delete ad_groups y360_groups).
  assert (first.1 = (ad_groups ≫= first_loop_calls index) ++ deletes) as Hfirst
    by (by apply sync_ad_groups_to_y360_live).
  assert (Groups.groups_to_delete ad_groups y360_groups' = []) as Hnone.
  { unfold y360_groups'. rewrite Hfirst. apply nothing_left_to_delete. }
  assert (∀ a, a ∈ ad_groups → has_required a = true →
            ∃ x, Groups.y360_groups_by_external_id y360_groups' !! tag_of a = Some x
                 ∧ in_sync a x) as Hsync.
  { intros a Ha Hreq.
    destruct (first_loop_result ad_groups y360_groups a Hguids Hids Ha Hreq)
      as (x & Hlast & Hx & Horigin).
    exists x. split; [|done].
    rewrite y360_groups_by_external_id_last by apply tag_of_nonempty.
    unfold y360_groups'. rewrite Hfirst, replay_app.
    apply replay_last_tag; [done|]. by apply deletions_harmless. }
  subst second. unfold Groups.sync_ad_groups_to_y360.
  destruct ad_groups as [|a0 l]; [done|]. rewrite Hnone. cbn [foldl].
  set (st0 := Groups.set_counts _ _ _).
  pose proof (sync_ad_groups_in_sync dry_run api
                (Groups.y360_groups_by_external_id y360_groups') (a0 :: l) []
                st0 Hsync) as Hloop.
  cbv zeta in Hloop. cbn [foldl] in Hloop.
  destruct (foldl _ _ l) as [h st]. simpl in *.
  destruct Hloop as (-> & -> & -> & ->). done.
Qed.

Lemma second_run_changes_nothing_witness :
  let ad_groups := [Sample.sales; Sample.hr] in
  let y360_groups := [Sample.y360_sale; Sample.y360_old; Sample.y360_foreign] in
  let first :=
    Groups.sync_ad_groups_to_y360 false Store.applied ad_groups y360_groups in
  let y360_groups' := Store.replay first.1 y360_groups in
  let second :=
    Groups.sync_ad_groups_to_y360 false Store.applied ad_groups y360_groups' in
  (NoDup (source_guids ad_groups) ∧ NoDup (y360_id <$> y360_groups)) ∧
  length first.1 = 3 ∧
  Groups.created_count second.2.2 = 0 ∧
  Groups.updated_count second.2.2 = 0 ∧
  Groups.deleted_count second.2.2 = 0 ∧
  second.1 = [].
Proof.
  intros ad_groups y360_groups first y360_groups' second.
  assert (NoDup (source_guids ad_groups)) as H1
    by (apply (bool_decide_unpack _); vm_compute; reflexivity).
  assert (NoDup (y360_id <$> y360_groups)) as H2
    by (apply (bool_decide_unpack _); vm_compute; reflexivity).
  split; [done|]. split; [vm_compute; reflexivity|].
  apply (second_run_changes_nothing false Store.applied ad_groups y360_groups
           H1 H2).
Defined.

(** * The requests, the settings and the script: properties *)

(** ** The request loop *)

(** X1: with fuel for [MAX_RETRIES] rounds the request loop of the
    [*_by_api] functions always returns, after one to three requests and at
    most six seconds of sleep.  It reports success exactly when the last
    request made is answered 200 with a body that [response.json()] returns
    and that the function can read, every request before it having been
    answered with another status; the result is then that body, and the
    empty dictionary in every other case. *)
Theorem request_with_retries_returns {A : Type} (readable : A → bool)
    (extra : nat) (net : nat → Http.outcome A) :
  ∃ r, Http.request_with_retries readable (Http.MAX_RETRIES + extra) net
       = Some r ∧
       (1 ≤ Http.requests r)%nat ∧
       (Http.requests r ≤ Http.MAX_RETRIES)%nat ∧
       (Http.slept r ≤ 6)%nat ∧
       (Http.success r = true ↔
        ∃ body, net (Http.requests r - 1) = Http.Response 200 (Some body) ∧
                readable body = true ∧ Http.result r = Some body) ∧
       (Http.success r = false → Http.result r = None) ∧
       (∀ j, j < Http.requests r - 1 →
             ∃ code json, net j = Http.Response code json ∧ code ≠ 200).
Proof.
  unfold Http.request_with_retries, Http.MAX_RETRIES. simpl.
  assert (∀ j, j < 0 → ∃ code (json : option A),
            net j = Http.Response code json ∧ code ≠ 200) as H0 by (intros; lia).
  destruct (net 0) as [c0 j0|] eqn:E0; simpl.
  2:{ eexists. split; [done|]. simpl. split_and!; try done; try lia.
      split; [done|]. intros (b & Hb & _). congruence. }
  case_bool_decide as Hc0; simpl.
  2:{ destruct j0 as [b0|]; [destruct (readable b0) eqn:Hr0|];
        eexists; (split; [done|]); simpl; split_and!; try done; try lia.
      - split; [|done]. intros _. exists b0. split_and!; [congruence|done..].
      - split; [done|]. intros (b & Hb & Hr & _). congruence.
      - split; [done|]. intros (b & Hb & _). congruence. }
  assert (∀ j, j < 1 → ∃ code (json : option A),
            net j = Http.Response code json ∧ code ≠ 200) as H1.
  { intros j Hj. assert (j = 0) as -> by lia. eauto. }
  destruct (net 1) as [c1 j1|] eqn:E1; simpl.
  2:{ eexists. split; [done|]. simpl. split_and!; try done; try lia.
      split; [done|]. intros (b & Hb & _). congruence. }
  case_bool_decide as Hc1; simpl.
  2:{ destruct j1 as [b1|]; [destruct (readable b1) eqn:Hr1|];
        eexists; (split; [done|]); simpl; split_and!; try done; try lia.
      - split; [|done]. intros _. exists b1. split_and!; [congruence|done..].
      - split; [done|]. intros (b & Hb & Hr & _). congruence.
      - split; [done|]. intros (b & Hb & _). congruence. }
  assert (∀ j, j < 2 → ∃ code (json : option A),
            net j = Http.Response code json ∧ code ≠ 200) as H2.
  { intros j Hj. destruct (decide (j = 0)) as [->|]; [eauto|].
    assert (j = 1) as -> by lia. eauto. }
  destruct (net 2) as [c2 j2|] eqn:E2; simpl.
  2:{ eexists. split; [done|]. simpl. split_and!; try done; try lia.
      split; [done|]. intros (b & Hb & _). congruence. }
  case_bool_decide as Hc2; simpl.
  - eexists. split; [done|]. simpl. split_and!; try done; try lia.
    split; [done|]. intros (b & Hb & _). congruence.
  - destruct j2 as [b2|]; [destruct (readable b2) eqn:Hr2|];
      eexists; (split; [done|]); simpl; split_and!; try done; try lia.
    + split; [|done]. intros _. exists b2. split_and!; [congruence|done..].
    + split; [done|]. intros (b & Hb & Hr & _). congruence.
    + split; [done|]. intros (b & Hb & _). congruence.
Qed.

(** X2: an exception raised by a request is not retried: the call fails at
    once, whatever later requests would have given. *)
Theorem request_with_retries_exception {A : Type} (readable : A → bool)
    (fuel k : nat) (net : nat → Http.outcome A) :
  k < Http.MAX_RETRIES →
  k < fuel →
  (∀ j, j < k → ∃ code json, net j = Http.Response code json ∧ code ≠ 200) →
  net k = Http.Throws →
  ∃ s, Http.request_with_retries readable fuel net
       = Some (Http.Build_report false None (S k) s).
Proof.
  unfold Http.request_with_retries, Http.MAX_RETRIES.
  intros Hk Hfuel Hbefore Hthrow.
  assert (∀ n fuel' retries slept : nat,
            (n ≤ k)%nat → retries = S n → (k - n < fuel')%nat →
            ∃ s, Http.request_loop readable fuel' net n retries slept
                 = Some (Http.Build_report false None (S k) s)) as Hgen.
  { intros n fuel'. revert n. induction fuel' as [|fuel' IH];
      intros n retries slept Hn -> Hf; [lia|].
    simpl. destruct (decide (n = k)) as [->|Hne].
    - rewrite Hthrow. eauto.
    - destruct (Hbefore n) as (code & json & -> & Hcode); [lia|].
      rewrite bool_decide_true by done.
      rewrite bool_decide_true by (unfold Http.MAX_RETRIES; lia).
      apply IH; [lia|done|lia]. }
  apply Hgen; [lia|done|lia].
Qed.

Lemma request_with_retries_exception_witness :
  let net : nat → Http.outcome nat :=
    λ k, match k with
         | 0 => Http.Response 500 None
         | 1 => Http.Throws
         | _ => Http.Response 200 (Some 7)
         end in
  (1 < Http.MAX_RETRIES ∧ net 1 = Http.Throws) ∧
  ∃ s, Http.request_with_retries (λ _, true) 3 net
       = Some (Http.Build_report false None 2 s).
Proof.
  intros net. split; [split; [unfold Http.MAX_RETRIES; lia|done]|].
  apply (request_with_retries_exception (λ _, true) 3 1 net).
  - unfold Http.MAX_RETRIES. lia.
  - lia.
  - intros j Hj. assert (j = 0) as -> by lia. exists 500, None. done.
  - reflexivity.
Defined.

(** X3: [patch_user_by_api] and [patch_department_by_api] catch the
    exception inside the loop and go round again without counting the
    attempt: when every request from some point on raises, the loop never
    returns, however much fuel it is given. *)
Theorem patch_loop_never_returns {A : Type} (net : nat → Http.outcome A)
    (fuel k retries slept : nat) :
  (∀ j : nat, (k ≤ j)%nat → net j = Http.Throws) →
  Http.patch_loop fuel net k retries slept = None.
Proof.
  revert k retries slept. induction fuel as [|fuel IH]; intros k retries slept Hnet.
  { done. }
  simpl. rewrite (Hnet k) by lia. apply IH. intros j Hj. apply Hnet. lia.
Qed.

Lemma patch_loop_never_returns_witness :
  (∀ j : nat, (0 ≤ j)%nat → (λ _ : nat, @Http.Throws unit) j = Http.Throws) ∧
  Http.patch_user_by_api 1000 (λ _, @Http.Throws unit) = None.
Proof.
  split; [done|].
  apply (patch_loop_never_returns (λ _, @Http.Throws unit) 1000 0 1 0). done.
Defined.

(** A 200 answer whose body is not a dictionary is a failure for
    [create_group_by_api] and a success for [patch_group_by_api]; a member
    list whose users entry has no length is a failure for
    [get_group_members_by_api]. *)
Example create_group_non_object_body :
  Api.create_group_by_api 3 (λ _, Http.Response 200 (Some (Mask.JList [])))
  = Some (Http.Build_report false None 1 0).
Proof. reflexivity. Qed.

Example patch_group_non_object_body :
  Api.patch_group_by_api 3 (λ _, Http.Response 200 (Some (Mask.JList [])))
  = Some (Http.Build_report true (Some (Mask.JList [])) 1 0).
Proof. reflexivity. Qed.

Example get_group_members_unsized_users :
  Api.get_group_members_by_api 3
    (λ _, Http.Response 200 (Some (Mask.JDict [("users", Mask.JNum 3)])))
  = Some (Http.Build_report false None 1 0).
Proof. reflexivity. Qed.

(** ** The paginated reads *)

Lemma get_page_answers {A : Type} (net : nat → nat → Paging.page_outcome A)
    (page : nat) (items : list A) (pages : nat) :
  answers net page items pages →
  Paging.get_page Http.MAX_RETRIES net page 1 = Paging.Got items pages.
Proof.
  intros (r & H1 & H3 & Hr & Hbefore).
  assert (Hlt : ∀ n : nat, (n < 3)%nat → bool_decide (n < Http.MAX_RETRIES)%nat = true).
  { intros n Hn. apply bool_decide_eq_true_2. unfold Http.MAX_RETRIES. lia. }
  unfold Http.MAX_RETRIES in H3.
  change Http.MAX_RETRIES with 3 at 1.
  assert (r = 1 ∨ r = 2 ∨ r = 3) as [-> | [-> | ->]] by lia.
  - cbn [Paging.get_page]. rewrite Hr. by rewrite bool_decide_false by (intros H; by apply H).
  - destruct (Hbefore 1) as (c & i & n & H & Hc); [lia..|].
    cbn [Paging.get_page]. rewrite H. rewrite (bool_decide_true (c ≠ 200)) by done.
    rewrite Hlt by lia. rewrite Hr.
    by rewrite bool_decide_false by (intros H'; by apply H').
  - destruct (Hbefore 1) as (c & i & n & H & Hc); [lia..|].
    destruct (Hbefore 2) as (c' & i' & n' & H' & Hc'); [lia..|].
    cbn [Paging.get_page]. rewrite H. rewrite (bool_decide_true (c ≠ 200)) by done.
    rewrite Hlt by lia. rewrite H'. rewrite (bool_decide_true (c' ≠ 200)) by done.
    rewrite Hlt by lia. rewrite Hr.
    by rewrite bool_decide_false by (intros H''; by apply H'').
Qed.

Lemma select_all {A : Type} (items : list A) :
  Paging.select (λ _, Some true) items = Some items.
Proof. induction items as [|x l IH]; simpl; [done|]. by rewrite IH. Qed.

Lemma fetch_pages_honest {A : Type} (net : nat → nat → Paging.page_outcome A)
    (content : nat → list A) (P : nat) (fuel m cur : nat) (acc : list A) :
  (∀ p : nat, (cur ≤ p)%nat → (p < cur + m)%nat → answers net p (content p) P) →
  (m = 0 → P < cur)%nat →
  (0 < m → cur + m = S P)%nat →
  (m < fuel)%nat →
  ∀ last : nat, (0 < m → cur ≤ last)%nat → (m = 0 → last = P) →
  Paging.fetch_pages fuel net (λ _, Some true) cur last acc
  = Some (Paging.Fetched (acc ++ concat (content <$> seq cur m))).
Proof.
  revert m cur acc. induction fuel as [|fuel IH];
    intros m cur acc Hnet H0 Hm Hfuel last Hlast Hlast0; [lia|].
  cbn [Paging.fetch_pages]. destruct m as [|m].
  - rewrite bool_decide_false by (specialize (H0 eq_refl); rewrite Hlast0; lia).
    simpl. by rewrite app_nil_r.
  - rewrite bool_decide_true by (apply Hlast; lia).
    rewrite (get_page_answers net cur (content cur) P) by (apply Hnet; lia).
    rewrite select_all.
    rewrite (IH m (S cur) (acc ++ content cur)); try lia.
    + cbn [seq fmap list_fmap concat]. by rewrite <-app_assoc.
    + intros p ? ?. apply Hnet; lia.
Qed.

(** X4: when the server answers the request for every page within three
    attempts, with the items of the page and a constant page count [P], the
    paginated read returns, in page order, the items of pages 1 to [P] (of
    page 1 alone when [P] is 0: the first page is always requested). *)
Theorem get_all_groups_reads_every_page {A : Type}
    (net : nat → nat → Paging.page_outcome A) (content : nat → list A)
    (P extra : nat) :
  (∀ p : nat, (1 ≤ p)%nat → (p ≤ Nat.max 1 P)%nat →
              answers net p (content p) P) →
  Paging.get_all_groups_from_api360 (Nat.max 1 P + 1 + extra) net
  = Some (Paging.Fetched (concat (content <$> seq 1 (Nat.max 1 P)))).
Proof.
  intros Hnet. unfold Paging.get_all_groups_from_api360.
  destruct (decide (P = 0)) as [->|HP].
  - (* one page is read although none is announced *)
    cbn [Nat.max]. replace (1 + 1 + extra) with (S (S extra)) by lia.
    cbn [Paging.fetch_pages]. rewrite bool_decide_true by lia.
    rewrite (get_page_answers net 1 (content 1) 0) by (apply Hnet; simpl; lia).
    rewrite select_all. rewrite bool_decide_false by lia.
    simpl. by rewrite app_nil_r.
  - rewrite (fetch_pages_honest net content P _ (Nat.max 1 P) 1 []); try lia.
    + done.
    + intros p ? ?. apply Hnet; lia.
Qed.

Lemma get_all_groups_reads_every_page_witness :
  (∀ p : nat, (1 ≤ p)%nat → (p ≤ Nat.max 1 2)%nat →
              answers flaky_pages p [p; p] 2) ∧
  Paging.get_all_groups_from_api360 (Nat.max 1 2 + 1 + 0) flaky_pages
  = Some (Paging.Fetched (concat ((λ p : nat, [p; p]) <$> seq 1 (Nat.max 1 2)))).
Proof.
  assert (∀ p : nat, (1 ≤ p)%nat → (p ≤ Nat.max 1 2)%nat →
                     answers flaky_pages p [p; p] 2) as H.
  { intros p H1 H2. simpl in H2. destruct (decide (p = 1)) as [->|].
    - exists 1. unfold Http.MAX_RETRIES. repeat split; try lia.
    - assert (p = 2) as -> by lia.
      exists 3. unfold Http.MAX_RETRIES. repeat split; try lia.
      intros r' ? ?. exists 503, [], 0. split; [|done].
      unfold flaky_pages. rewrite bool_decide_true; [done|lia]. }
  split; [exact H|].
  apply (get_all_groups_reads_every_page flaky_pages (λ p, [p; p]) 2 0 H).
Defined.

Lemma fetch_pages_failed {A : Type} (net : nat → nat → Paging.page_outcome A)
    (keep : A → option bool) (p : nat) (fuel cur last : nat) (acc : list A) :
  (∀ i : nat, (cur ≤ i)%nat → (i < p)%nat →
     ∃ items pages kept,
       Paging.get_page Http.MAX_RETRIES net i 1 = Paging.Got items pages ∧
       Paging.select keep items = Some kept ∧ (S i ≤ pages)%nat) →
  Paging.get_page Http.MAX_RETRIES net p 1 = Paging.Failed →
  (cur ≤ p)%nat → (cur ≤ last)%nat → (p - cur < fuel)%nat →
  Paging.fetch_pages fuel net keep cur last acc = Some (Paging.Fetched []).
Proof.
  revert cur last acc. induction fuel as [|fuel IH];
    intros cur last acc Hbefore Hfail Hcur Hlast Hfuel; [lia|].
  cbn [Paging.fetch_pages]. rewrite bool_decide_true by lia.
  destruct (decide (cur = p)) as [->|Hne].
  - by rewrite Hfail.
  - destruct (Hbefore cur) as (items & pages & kept & -> & -> & Hpages);
      [lia..|].
    apply IH; try lia; [|done]. intros i ? ?. apply Hbefore; lia.
Qed.

(** X5: a paginated read is all or nothing.  When the read of page [p]
    fails (an exception of the request, or a third answer other than 200)
    after pages 1 to [p - 1] were read and each announced a further page,
    the function returns the empty list: what the earlier pages gave is
    dropped, and the caller cannot tell the failure from an empty
    directory. *)
Theorem failed_page_returns_empty {A : Type}
    (net : nat → nat → Paging.page_outcome A) (keep : A → option bool)
    (p fuel : nat) :
  (1 ≤ p)%nat → (p ≤ fuel)%nat →
  (∀ i : nat, (1 ≤ i)%nat → (i < p)%nat →
     ∃ items pages kept,
       Paging.get_page Http.MAX_RETRIES net i 1 = Paging.Got items pages ∧
       Paging.select keep items = Some kept ∧ (S i ≤ pages)%nat) →
  Paging.get_page Http.MAX_RETRIES net p 1 = Paging.Failed →
  Paging.fetch_pages fuel net keep 1 1 [] = Some (Paging.Fetched []).
Proof.
  intros Hp Hfuel Hbefore Hfail.
  apply (fetch_pages_failed net keep p); try done; lia.
Qed.

Lemma failed_page_returns_empty_witness :
  ((1 ≤ 2)%nat ∧ (2 ≤ 2)%nat ∧
   (∀ i : nat, (1 ≤ i)%nat → (i < 2)%nat →
      ∃ items pages kept,
        Paging.get_page Http.MAX_RETRIES second_page_down i 1
        = Paging.Got items pages ∧
        Paging.select (λ _, Some true) items = Some kept ∧ (S i ≤ pages)%nat) ∧
   Paging.get_page Http.MAX_RETRIES second_page_down 2 1 = Paging.Failed) ∧
  Paging.fetch_pages 2 second_page_down (λ _ : nat, Some true) 1 1 []
  = Some (Paging.Fetched []).
Proof.
  assert (∀ i : nat, (1 ≤ i)%nat → (i < 2)%nat →
      ∃ items pages kept,
        Paging.get_page Http.MAX_RETRIES second_page_down i 1
        = Paging.Got items pages ∧
        Paging.select (λ _, Some true) items = Some kept ∧ (S i ≤ pages)%nat)
    as Hbefore.
  { intros i ? ?. assert (i = 1) as -> by lia.
    exists [7; 8], 2, [7; 8]. repeat split; lia. }
  assert (Paging.get_page Http.MAX_RETRIES second_page_down 2 1 = Paging.Failed)
    as Hfail by reflexivity.
  split; [repeat split; first [lia | exact Hbefore | exact Hfail]|].
  apply (failed_page_returns_empty second_page_down (λ _, Some true) 2 2);
    first [lia | exact Hbefore | exact Hfail].
Defined.

Lemma fetch_pages_complete {A : Type} (net : nat → nat → Paging.page_outcome A)
    (fuel cur last : nat) (acc l : list A) :
  Paging.fetch_pages fuel net (λ _, Some true) cur last acc
  = Some (Paging.Fetched l) →
  l = [] ∨
  ∃ m : nat,
    l = acc ++ concat (page_items net <$> seq cur m) ∧
    (∀ i : nat, (cur ≤ i)%nat → (i < cur + m)%nat →
                is_Some (page_count net i)) ∧
    (m = 0 → last < cur)%nat ∧
    ((0 < m)%nat →
     ∃ pages : nat, page_count net (cur + m - 1) = Some pages ∧
                    (pages < cur + m)%nat).
Proof.
  revert cur last acc. induction fuel as [|fuel IH]; intros cur last acc;
    [done|].
  cbn [Paging.fetch_pages]. case_bool_decide as Hle.
  - destruct (Paging.get_page Http.MAX_RETRIES net cur 1)
      as [items pages| |] eqn:Hpage; [|naive_solver..].
    rewrite select_all. intros Hrest.
    destruct (IH _ _ _ Hrest) as [->|(m & -> & Hread & Hstop0 & Hstop)];
      [by left|right].
    assert (page_items net cur = items) as Hitems
      by (unfold page_items; by rewrite Hpage).
    assert (page_count net cur = Some pages) as Hcount
      by (unfold page_count; by rewrite Hpage).
    exists (S m). split_and!.
    + cbn [seq fmap list_fmap concat]. by rewrite Hitems, <-app_assoc.
    + intros i ? ?. destruct (decide (i = cur)) as [->|].
      * by rewrite Hcount.
      * apply Hread; lia.
    + lia.
    + intros _. destruct m as [|m].
      * exists pages. replace (cur + 1 - 1) with cur by lia.
        split; [done|]. specialize (Hstop0 eq_refl). lia.
      * destruct Hstop as (pages' & Hc & Hlt); [lia|].
        exists pages'. replace (cur + S (S m) - 1) with (S cur + S m - 1) by lia.
        split; [done|lia].
  - intros [= <-]. right. exists 0. split_and!.
    + simpl. by rewrite app_nil_r.
    + intros; lia.
    + lia.
    + lia.
Qed.

(** X6: a non-empty result of the paginated read is complete.  It is the
    concatenation, in page order, of the items of pages 1 to [n], each of
    them read successfully, and page [n] announced no page beyond itself: a
    partial list is never returned. *)
Theorem get_all_groups_result_complete {A : Type}
    (net : nat → nat → Paging.page_outcome A) (fuel : nat) (l : list A) :
  Paging.get_all_groups_from_api360 fuel net = Some (Paging.Fetched l) →
  l ≠ [] →
  ∃ n : nat,
    (1 ≤ n)%nat ∧
    l = concat (page_items net <$> seq 1 n) ∧
    (∀ i : nat, (1 ≤ i)%nat → (i ≤ n)%nat → is_Some (page_count net i)) ∧
    ∃ pages : nat, page_count net n = Some pages ∧ (pages ≤ n)%nat.
Proof.
  intros Hget Hne. unfold Paging.get_all_groups_from_api360 in Hget.
  destruct (fetch_pages_complete _ _ _ _ _ _ Hget)
    as [->|(m & -> & Hread & Hstop0 & Hstop)]; [done|].
  destruct m as [|m]; [specialize (Hstop0 eq_refl); lia|].
  exists (S m). split_and!; [lia|done| |].
  - intros i ? ?. apply Hread; lia.
  - destruct Hstop as (pages & Hc & Hlt); [lia|].
    exists pages. replace (1 + S m - 1) with (S m) in Hc by lia.
    split; [done|lia].
Qed.

Lemma get_all_groups_result_complete_witness :
  (Paging.get_all_groups_from_api360 3 flaky_pages
   = Some (Paging.Fetched [1; 1; 2; 2]) ∧ [1; 1; 2; 2] ≠ []) ∧
  ∃ n : nat,
    (1 ≤ n)%nat ∧
    [1; 1; 2; 2] = concat (page_items flaky_pages <$> seq 1 n) ∧
    (∀ i : nat, (1 ≤ i)%nat → (i ≤ n)%nat →
                is_Some (page_count flaky_pages i)) ∧
    ∃ pages : nat, page_count flaky_pages n = Some pages ∧ (pages ≤ n)%nat.
Proof.
  assert (Paging.get_all_groups_from_api360 3 flaky_pages
          = Some (Paging.Fetched [1; 1; 2; 2])) as Hget by reflexivity.
  assert ([1; 1; 2; 2] ≠ @nil nat) as Hne by discriminate.
  split; [by split|].
  apply (get_all_groups_result_complete flaky_pages 3 [1; 1; 2; 2] Hget Hne).
Defined.

Lemma select_kept {A : Type} (keep : A → option bool) (items kept : list A) :
  Paging.select keep items = Some kept →
  ∀ x : A, x ∈ kept → x ∈ items ∧ keep x = Some true.
Proof.
  revert kept. induction items as [|y items IH]; intros kept; simpl.
  - intros [= <-] x Hx. by apply elem_of_nil in Hx.
  - destruct (keep y) as [b|] eqn:Hy; [|done].
    destruct (Paging.select keep items) as [kept'|]; [|done].
    intros [= <-] x Hx. destruct b.
    + apply elem_of_cons in Hx as [->|Hx].
      * split; [left|done].
      * destruct (IH _ eq_refl x Hx). split; [by right|done].
    + destruct (IH _ eq_refl x Hx). split; [by right|done].
Qed.

Lemma fetch_pages_kept {A : Type} (net : nat → nat → Paging.page_outcome A)
    (keep : A → option bool) (fuel cur last : nat) (acc l : list A) :
  Paging.fetch_pages fuel net keep cur last acc = Some (Paging.Fetched l) →
  ∀ x : A, x ∈ l →
    x ∈ acc ∨
    (keep x = Some true ∧ ∃ page : nat, (cur ≤ page)%nat ∧ x ∈ page_items net page).
Proof.
  revert cur last acc. induction fuel as [|fuel IH]; intros cur last acc;
    [done|].
  cbn [Paging.fetch_pages]. case_bool_decide as Hle.
  - destruct (Paging.get_page Http.MAX_RETRIES net cur 1)
      as [items pages| |] eqn:Hpage; [| |done].
    + destruct (Paging.select keep items) as [kept|] eqn:Hsel; [|done].
      intros Hrest x Hx.
      destruct (IH _ _ _ Hrest x Hx) as [Hacc|(Hk & page & Hp & Hin)].
      * apply elem_of_app in Hacc as [Hacc|Hkept]; [by left|right].
        destruct (select_kept _ _ _ Hsel x Hkept) as [Hin Hk].
        split; [done|]. exists cur. split; [lia|].
        unfold page_items. by rewrite Hpage.
      * right. split; [done|]. exists page. split; [lia|done].
    + intros [= <-] x Hx. by apply elem_of_nil in Hx.
  - intros [= <-] x Hx. by left.
Qed.

(** X7: every user that [get_all_api360_users_from_api] returns passed its
    filter and was served by some page: it is not a robot, and its id
    converts to a number that is at least 1130000000000000. *)
Theorem get_all_api360_users_filtered (int : string → option Z) (fuel : nat)
    (net : nat → nat → Paging.page_outcome Paging.api_user)
    (l : list Paging.api_user) :
  Paging.get_all_api360_users_from_api int fuel net = Some (Paging.Fetched l) →
  ∀ u : Paging.api_user, u ∈ l →
    kept_user int u ∧
    ∃ page : nat, (1 ≤ page)%nat ∧ u ∈ page_items net page.
Proof.
  intros Hget u Hu. unfold Paging.get_all_api360_users_from_api in Hget.
  destruct (fetch_pages_kept _ _ _ _ _ _ _ Hget u Hu)
    as [Hnil|(Hk & page & Hp & Hin)]; [by apply elem_of_nil in Hnil|].
  split; [|by exists page].
  unfold Paging.keep_user in Hk. unfold kept_user.
  destruct (Paging.isRobot u); [done|].
  destruct (user_id (Paging.user u)) as [s|]; [|done].
  destruct (int s) as [n|] eqn:Hint; [|done].
  injection Hk as Hk. apply bool_decide_eq_true_1 in Hk.
  split; [done|]. by exists s, n.
Qed.

Lemma get_all_api360_users_filtered_witness :
  (Paging.get_all_api360_users_from_api sample_int 2
     (users_page [api_robot; api_alice; api_external])
   = Some (Paging.Fetched [api_alice])) ∧
  ∀ u : Paging.api_user, u ∈ [api_alice] →
    kept_user sample_int u ∧
    ∃ page : nat,
      (1 ≤ page)%nat ∧
      u ∈ page_items (users_page [api_robot; api_alice; api_external]) page.
Proof.
  assert (Paging.get_all_api360_users_from_api sample_int 2
            (users_page [api_robot; api_alice; api_external])
          = Some (Paging.Fetched [api_alice])) as Hget by reflexivity.
  split; [exact Hget|].
  apply (get_all_api360_users_filtered sample_int 2 _ [api_alice] Hget).
Defined.

Lemma select_raises {A : Type} (keep : A → option bool) (items : list A)
    (x : A) :
  x ∈ items → keep x = None → Paging.select keep items = None.
Proof.
  intros Hin Hx. induction items as [|y items IH].
  - by apply elem_of_nil in Hin.
  - simpl. apply elem_of_cons in Hin as [<-|Hin].
    + by rewrite Hx.
    + rewrite (IH Hin). by destruct (keep y).
Qed.

(** X8: one user record that is not a robot and has no id, or an id that
    does not convert to a number, makes the whole read of the users raise:
    the exception is not among those the function catches, so no list, not
    even an empty one, is returned. *)
Theorem get_all_api360_users_malformed (int : string → option Z) (extra : nat)
    (net : nat → nat → Paging.page_outcome Paging.api_user)
    (items : list Paging.api_user) (pages : nat) (u : Paging.api_user) :
  answers net 1 items pages →
  u ∈ items →
  Paging.isRobot u = false →
  (user_id (Paging.user u)) ≫= int = None →
  Paging.get_all_api360_users_from_api int (S extra) net = Some Paging.Escaped.
Proof.
  intros Hnet Hin Hrobot Hid.
  unfold Paging.get_all_api360_users_from_api. cbn [Paging.fetch_pages].
  rewrite bool_decide_true by lia.
  rewrite (get_page_answers net 1 items pages Hnet).
  rewrite (select_raises _ items u Hin); [done|].
  unfold Paging.keep_user. rewrite Hrobot.
  destruct (user_id (Paging.user u)) as [s|]; [|done].
  simpl in Hid. by rewrite Hid.
Qed.

Lemma get_all_api360_users_malformed_witness :
  (answers (users_page [api_alice; api_malformed]) 1
     [api_alice; api_malformed] 1 ∧
   api_malformed ∈ [api_alice; api_malformed] ∧
   Paging.isRobot api_malformed = false ∧
   (user_id (Paging.user api_malformed)) ≫= sample_int = None) ∧
  Paging.get_all_api360_users_from_api sample_int 1
    (users_page [api_alice; api_malformed]) = Some Paging.Escaped.
Proof.
  assert (answers (users_page [api_alice; api_malformed]) 1
            [api_alice; api_malformed] 1) as Hnet.
  { exists 1. unfold Http.MAX_RETRIES. repeat split; try lia. }
  assert (api_malformed ∈ [api_alice; api_malformed]) as Hin
    by (right; left).
  split; [by repeat split|].
  apply (get_all_api360_users_malformed sample_int 0 _ _ 1 api_malformed
           Hnet Hin eq_refl eq_refl).
Defined.

(** ** The group-level orchestrator *)

Lemma sync_ad_group_counted (api : Remote) (index : gmap string y360_group)
    (h : list call) (st : Groups.stats) (a : ad_group) :
  let r := Groups.sync_ad_group false api index (h, st) a in
  length r.1 + counted st = length h + counted r.2 ∧
  Groups.ad_groups_count r.2 = Groups.ad_groups_count st ∧
  Groups.skipped_count r.2
  = Groups.skipped_count st + (if has_required a then 0 else 1).
Proof.
  cbv zeta. unfold Groups.sync_ad_group, has_required, counted.
  destruct (Py.truthy (ad_objectGUID a)); simpl; [|lia].
  destruct (Py.truthy (ad_displayName a)); simpl; [|lia].
  destruct (Py.truthy (ad_mail a)); simpl; [|lia].
  destruct (index !! _) as [g|].
  - case_bool_decide; simpl; [|lia].
    destruct (patch_group_by_api _ _ _ _); simpl; rewrite length_app; simpl; lia.
  - destruct (create_group_by_api _ _ _); simpl; rewrite length_app; simpl; lia.
Qed.

Lemma sync_ad_groups_counted (api : Remote) (index : gmap string y360_group)
    (l : list ad_group) (h : list call) (st : Groups.stats) :
  let r := foldl (Groups.sync_ad_group false api index) (h, st) l in
  length r.1 + counted st = length h + counted r.2 ∧
  Groups.ad_groups_count r.2 = Groups.ad_groups_count st ∧
  Groups.skipped_count r.2
  = Groups.skipped_count st + length (filter (λ a, has_required a = false) l).
Proof.
  cbv zeta. revert h st. induction l as [|a l IH]; intros h st.
  - simpl. lia.
  - cbn [foldl].
    destruct (Groups.sync_ad_group false api index (h, st) a) as [h1 st1] eqn:E.
    pose proof (sync_ad_group_counted api index h st a) as H.
    cbv zeta in H. rewrite E in H. simpl in H.
    destruct H as (H1 & H2 & H3). destruct (IH h1 st1) as (I1 & I2 & I3).
    split_and!; [lia|congruence|].
    rewrite I3, H3. destruct (has_required a) eqn:Hr.
    + rewrite filter_cons_False by (rewrite Hr; done). lia.
    + rewrite filter_cons_True by done. simpl. lia.
Qed.

Lemma delete_groups_counted (api : Remote) (l : list Groups.deletion)
    (h : list call) (st : Groups.stats) :
  let r := foldl (Groups.delete_group false api) (h, st) l in
  length r.1 + counted st = length h + counted r.2 ∧
  Groups.ad_groups_count r.2 = Groups.ad_groups_count st ∧
  Groups.skipped_count r.2 = Groups.skipped_count st.
Proof.
  cbv zeta. revert h st. induction l as [|d l IH]; intros h st.
  - simpl. lia.
  - cbn [foldl].
    destruct (Groups.delete_group false api (h, st) d) as [h1 st1] eqn:E.
    destruct (IH h1 st1) as (I1 & I2 & I3).
    unfold Groups.delete_group in E. simpl in E.
    destruct (delete_group_by_api api h (Groups.del_id d)) as [s r].
    destruct (s && r)%bool; injection E as <- <-;
      rewrite length_app in I1; unfold counted in *; simpl in *;
      split_and!; lia.
Qed.

(** X9: the statistics of a live run of [sync_ad_groups_to_y360] account for
    every call and every source group: the number of calls made is the sum
    of the created, updated, deleted and error counters (each call is counted
    once, as a success or as an error), the skipped counter is the number of
    source groups lacking objectGUID, displayName or mail, and the run
    reports success exactly when the error counter is 0. *)
Theorem live_run_accounting (api : Remote) (ad_groups : list ad_group)
    (y360_groups : list y360_group) :
  let r := Groups.sync_ad_groups_to_y360 false api ad_groups y360_groups in
  length r.1 = counted r.2.2 ∧
  Groups.ad_groups_count r.2.2 = length ad_groups ∧
  Groups.skipped_count r.2.2
  = length (filter (λ a, has_required a = false) ad_groups) ∧
  (r.2.1 = true ↔ Groups.errors_count r.2.2 = 0).
Proof.
  cbv zeta. unfold Groups.sync_ad_groups_to_y360.
  destruct ad_groups as [|a0 l]; [done|].
  set (ad := a0 :: l).
  set (index := Groups.y360_groups_by_external_id y360_groups).
  set (st := Groups.set_counts _ _ _).
  pose proof (sync_ad_groups_counted api index ad [] st) as H1. cbv zeta in H1.
  destruct (foldl (Groups.sync_ad_group false api index) ([], st) ad)
    as [h1 st1].
  pose proof (delete_groups_counted api
                (Groups.groups_to_delete ad y360_groups) h1 st1) as H2.
  cbv zeta in H2.
  destruct (foldl (Groups.delete_group false api) (h1, st1) _) as [h2 st2].
  simpl in *. destruct H1 as (A1 & A2 & A3), H2 as (B1 & B2 & B3).
  assert (counted st = 0) as Hst by done.
  split_and!; [lia|congruence|lia|].
  by rewrite bool_decide_eq_true.
Qed.

(** X10: the calls of a live run of [sync_ad_groups_to_y360] are fixed by
    its two input lists: whatever the service answers, the same calls are
    made in the same order.  A failed call is counted and the run goes on;
    it neither stops the run nor changes a later call. *)
Theorem live_calls_ignore_answers (api api' : Remote)
    (ad_groups : list ad_group) (y360_groups : list y360_group) :
  (Groups.sync_ad_groups_to_y360 false api ad_groups y360_groups).1
  = (Groups.sync_ad_groups_to_y360 false api' ad_groups y360_groups).1.
Proof.
  destruct ad_groups as [|a l]; [done|].
  by rewrite !sync_ad_groups_to_y360_live.
Qed.

(** X11: a live run asks for the deletion of every orphan.  A target group
    whose externalId is the tag of an objectGUID that no source group
    carries gets a deletion call for its id, provided the source list is not
    empty, whatever the earlier calls of the run returned. *)
Theorem orphan_is_deleted (api : Remote) (ad_groups : list ad_group)
    (y360_groups : list y360_group) (g : y360_group) (guid : string) :
  ad_groups ≠ [] →
  g ∈ y360_groups →
  y360_externalId g = Some ("DDG;" +:+ guid) →
  (∀ a : ad_group, a ∈ ad_groups → ad_objectGUID a ≠ Some guid) →
  DeleteGroup (y360_id g)
  ∈ (Groups.sync_ad_groups_to_y360 false api ad_groups y360_groups).1.
Proof.
  intros Hne Hg Hext Hsrc. rewrite sync_ad_groups_to_y360_live by done.
  apply elem_of_app. right. apply list_elem_of_fmap.
  exists (Groups.Build_deletion (y360_id g) (y360_name g)
            ("DDG;" +:+ guid) guid).
  split; [done|]. apply elem_of_groups_to_delete. exists g. split; [done|].
  unfold deletion_of. rewrite Hext.
  change (default "" (Some ("DDG;" +:+ guid))) with ("DDG;" +:+ guid).
  rewrite startswith_DDG_app, split_DDG_app.
  rewrite bool_decide_true; [done|].
  rewrite elem_of_ad_object_guids. intros (a & Ha & Hguid & _).
  by apply (Hsrc a).
Qed.

Lemma orphan_is_deleted_witness :
  ([Sample.sales] ≠ [] ∧
   Sample.y360_old ∈ [Sample.y360_sale; Sample.y360_old; Sample.y360_foreign] ∧
   y360_externalId Sample.y360_old = Some ("DDG;" +:+ "G9") ∧
   (∀ a : ad_group, a ∈ [Sample.sales] → ad_objectGUID a ≠ Some "G9")) ∧
  DeleteGroup (y360_id Sample.y360_old)
  ∈ (Groups.sync_ad_groups_to_y360 false Sample.api_down [Sample.sales]
       [Sample.y360_sale; Sample.y360_old; Sample.y360_foreign]).1.
Proof.
  assert (∀ a : ad_group, a ∈ [Sample.sales] → ad_objectGUID a ≠ Some "G9")
    as Hsrc.
  { intros a Ha. apply list_elem_of_singleton in Ha as ->. discriminate. }
  assert (Sample.y360_old
          ∈ [Sample.y360_sale; Sample.y360_old; Sample.y360_foreign]) as Hin
    by (right; left).
  split; [by repeat split|].
  apply (orphan_is_deleted Sample.api_down [Sample.sales] _ Sample.y360_old "G9");
    [discriminate|exact Hin|reflexivity|exact Hsrc].
Defined.

Lemma first_loop_creations (index : gmap string y360_group) (l : list ad_group) :
  omap creation_payload (l ≫= first_loop_calls index)
  = payload_of <$>
      filter (λ a, has_required a = true ∧ index !! tag_of a = None) l.
Proof.
  induction l as [|a l IH]; [done|].
  cbn [mbind list_bind]. change (mbind ?f l) with (l ≫= f).
  rewrite omap_app, IH. unfold first_loop_calls at 1.
  destruct (has_required a) eqn:Hr.
  - destruct (index !! tag_of a) as [g|] eqn:Hg.
    + rewrite filter_cons_False by (intros [_ ?]; congruence).
      by case_bool_decide.
    + by rewrite filter_cons_True by done.
  - by rewrite filter_cons_False by (intros [? _]; congruence).
Qed.

(** X12: the groups a live run creates.  The creation calls of
    [sync_ad_groups_to_y360] are, in the order of the source list, one call
    per source group that has objectGUID, displayName and mail and whose tag
    no target group of the snapshot carries.  The snapshot is not updated
    during the run, so two source groups with the same objectGUID missing
    from the target are both created. *)
Theorem live_run_creations (api : Remote) (ad_groups : list ad_group)
    (y360_groups : list y360_group) :
  omap creation_payload
    (Groups.sync_ad_groups_to_y360 false api ad_groups y360_groups).1
  = payload_of <$>
      filter (λ a, has_required a = true ∧
                   Groups.y360_groups_by_external_id y360_groups !! tag_of a
                   = None) ad_groups.
Proof.
  destruct ad_groups as [|a l]; [done|].
  rewrite sync_ad_groups_to_y360_live by done.
  rewrite omap_app, first_loop_creations.
  assert (omap creation_payload
            ((λ d, DeleteGroup (Groups.del_id d))
               <$> Groups.groups_to_delete (a :: l) y360_groups) = []) as ->.
  { induction (Groups.groups_to_delete (a :: l) y360_groups); [done|].
    by rewrite fmap_cons. }
  by rewrite app_nil_r.
Qed.

(** ** The membership orchestrator *)

Lemma ad_groups_by_guid_Some (ad_groups : list ad_group) (guid : string)
    (a : ad_group) :
  Members.ad_groups_by_guid ad_groups !! guid = Some a →
  a ∈ ad_groups ∧ ad_objectGUID a = Some guid ∧ guid ≠ "".
Proof.
  unfold Members.ad_groups_by_guid.
  assert (∀ (l : list ad_group) (m : gmap string ad_group),
    foldl (λ m ad_group,
             if Py.truthy (ad_objectGUID ad_group)
             then <[default "" (ad_objectGUID ad_group) := ad_group]> m else m)
          m l !! guid = Some a →
    m !! guid = Some a ∨
    (a ∈ l ∧ ad_objectGUID a = Some guid ∧ guid ≠ "")) as H.
  { induction l as [|b l IH]; intros m; [by left|].
    cbn [foldl]. intros Hl. destruct (IH _ Hl) as [Hm|(? & ? & ?)].
    - destruct (Py.truthy (ad_objectGUID b)) eqn:Hb.
      + apply truthy_Some in Hb as (s & Hs & Hne). rewrite Hs in Hm.
        cbn [default] in Hm.
        destruct (decide (s = guid)) as [->|].
        * rewrite lookup_insert_eq in Hm. injection Hm as <-.
          right. split_and!; [left|done..].
        * rewrite lookup_insert_ne in Hm by done. by left.
      + by left.
    - right. split_and!; [by right|done..]. }
  intros Hl. destruct (H _ _ Hl) as [Hm|?]; [|done].
  by rewrite lookup_empty in Hm.
Qed.

Lemma add_user_calls (dry_run : bool) (api : Remote) (gid : option Z)
    (h : list call) (st : Members.stats) (u : Members.change) :
  ∃ t, (Members.add_user dry_run api gid (h, st) u).1 = h ++ t ∧
       Forall (λ c, ∃ uid, c = AddMember gid "user" uid) t.
Proof.
  unfold Members.add_user. destruct dry_run; simpl.
  - exists []. by rewrite app_nil_r.
  - destruct (add_member_to_group_by_api _ _ _ _ _) as [s r].
    exists [AddMember gid "user" (Members.change_user_id u)].
    split; [by destruct s, r|]. repeat constructor. by eexists.
Qed.

Lemma remove_user_calls (dry_run : bool) (api : Remote) (gid : option Z)
    (h : list call) (st : Members.stats) (u : Members.change) :
  ∃ t, (Members.remove_user dry_run api gid (h, st) u).1 = h ++ t ∧
       Forall (λ c, ∃ uid, c = DeleteMember gid "user" uid) t.
Proof.
  unfold Members.remove_user. destruct dry_run; simpl.
  - exists []. by rewrite app_nil_r.
  - destruct (delete_member_from_group_by_api _ _ _ _ _) as [s r].
    exists [DeleteMember gid "user" (Members.change_user_id u)].
    split; [by destruct s, r|]. repeat constructor. by eexists.
Qed.

Lemma sync_y360_group_calls (dry_run : bool) (api : Remote)
    (dir : Members.directory) (ad_groups : list ad_group)
    (by_nickname : gmap string y360_user) (h : list call)
    (st : Members.stats) (g : y360_group) :
  ∃ t,
    (Members.sync_y360_group dry_run api dir
       (Members.ad_groups_by_guid ad_groups) by_nickname h st g).1 = h ++ t ∧
    Forall (member_call ad_groups [g]) t.
Proof.
  unfold Members.sync_y360_group.
  destruct (Py.startswith "DDG;" (default "" (y360_externalId g))) eqn:Htag;
    simpl; [|exists []; by rewrite app_nil_r].
  destruct (startswith_DDG _ Htag) as (guid & Hext & ->).
  destruct (Members.ad_groups_by_guid ad_groups !! guid) as [a|] eqn:Ha;
    [|exists []; by rewrite app_nil_r].
  destruct (ad_groups_by_guid_Some _ _ _ Ha) as (Hin & Hguid & Hne).
  assert (y360_externalId g = Some ("DDG;" +:+ guid)) as Hg.
  { destruct (y360_externalId g) as [e|]; simpl in Hext; [by subst|].
    exfalso. by apply (DDG_app_nonempty guid). }
  assert (∀ c,
    (c = GetGroupMembers (y360_id g) ∨
     (∃ uid, c = AddMember (y360_id g) "user" uid) ∨
     (∃ uid, c = DeleteMember (y360_id g) "user" uid)) →
    member_call ad_groups [g] c) as Hcall.
  { intros c Hc. exists g, guid, a. split_and!; [left|done..]. }
  destruct (get_group_members_by_api api h (y360_id g)) as [ok members].
  destruct ok; simpl;
    [|exists [GetGroupMembers (y360_id g)]; split; [done|];
      repeat constructor; apply Hcall; by left].
  destruct (Members.y360_member_nicknames by_nickname ∅ members) as [mn|e];
    [|exists [GetGroupMembers (y360_id g)]; split; [done|];
      repeat constructor; apply Hcall; by left].
  destruct (Members.get_group_members_from_file dir a) as [|e0 emails];
    [exists [GetGroupMembers (y360_id g)]; split; [done|];
     repeat constructor; apply Hcall; by left|].
  destruct (Members.users_to_add by_nickname mn _) as [to_add nf].
  set (h1 := h ++ [GetGroupMembers (y360_id g)]).
  set (st1 := Members.add_not_found nf _).
  destruct (foldl_calls (Members.add_user dry_run api (y360_id g))
              (λ c, ∃ uid, c = AddMember (y360_id g) "user" uid) to_add
              (λ h s x _, add_user_calls dry_run api (y360_id g) h s x) h1 st1)
    as (t1 & E1 & F1).
  destruct (foldl (Members.add_user dry_run api (y360_id g)) (h1, st1) to_add)
    as [h2 st2]. simpl in E1. subst h2.
  set (to_remove := Members.users_to_remove members _).
  destruct (foldl_calls (Members.remove_user dry_run api (y360_id g))
              (λ c, ∃ uid, c = DeleteMember (y360_id g) "user" uid) to_remove
              (λ h s x _, remove_user_calls dry_run api (y360_id g) h s x)
              (h1 ++ t1) st2) as (t2 & E2 & F2).
  destruct (foldl (Members.remove_user dry_run api (y360_id g)) _ to_remove)
    as [h3 st3]. simpl in E2. subst h3. simpl.
  exists (GetGroupMembers (y360_id g) :: t1 ++ t2). split.
  - unfold h1. by rewrite <-!app_assoc.
  - constructor; [apply Hcall; by left|].
    apply Forall_app. split.
    + eapply Forall_impl; [exact F1|]. intros c Hc. apply Hcall. right. by left.
    + eapply Forall_impl; [exact F2|]. intros c Hc. apply Hcall. right. by right.
Qed.

Lemma member_call_mono (ad_groups : list ad_group) (l l' : list y360_group)
    (c : call) :
  l ⊆ l' → member_call ad_groups l c → member_call ad_groups l' c.
Proof.
  intros Hsub (g & guid & a & Hg & ?). exists g, guid, a.
  split; [by apply Hsub|done].
Qed.

Lemma sync_y360_groups_calls (dry_run : bool) (api : Remote)
    (dir : Members.directory) (ad_groups : list ad_group)
    (by_nickname : gmap string y360_user) (l : list y360_group)
    (h : list call) (st : Members.stats) :
  ∃ t,
    (Members.sync_y360_groups dry_run api dir
       (Members.ad_groups_by_guid ad_groups) by_nickname h st l).1 = h ++ t ∧
    Forall (member_call ad_groups l) t.
Proof.
  revert h st. induction l as [|g l IH]; intros h st.
  - exists []. by rewrite app_nil_r.
  - cbn [Members.sync_y360_groups].
    destruct (sync_y360_group_calls dry_run api dir ad_groups by_nickname h st g)
      as (t1 & E1 & F1).
    destruct (Members.sync_y360_group dry_run api dir _ by_nickname h st g)
      as [h1 [st1|e]]; simpl in E1; subst h1.
    + destruct (IH (h ++ t1) st1) as (t2 & E2 & F2).
      exists (t1 ++ t2). rewrite E2, <-app_assoc. split; [done|].
      apply Forall_app. split.
      * eapply Forall_impl; [exact F1|]. intros c. apply member_call_mono.
        set_solver.
      * eapply Forall_impl; [exact F2|]. intros c. apply member_call_mono.
        set_solver.
    + exists t1. split; [done|].
      eapply Forall_impl; [exact F1|]. intros c. apply member_call_mono.
      set_solver.
Qed.

(** X13: the membership sync touches only the members of managed groups.
    Every call [sync_group_members] makes, in a dry or a live run and also
    when it ends with an exception, is a read of the members of a target
    group, or the addition or removal of a member of type user in it, and
    that group carries the tag of the objectGUID of a source group.  No group
    is created, patched or deleted, and no untagged group is read. *)
Theorem membership_calls_are_tagged (dry_run : bool) (api : Remote)
    (dir : Members.directory) (ad_groups : list ad_group)
    (y360_groups : list y360_group) (y360_users : list y360_user) :
  Forall (member_call ad_groups y360_groups)
    (Members.sync_group_members dry_run api dir ad_groups y360_groups
       y360_users).1.
Proof.
  unfold Members.sync_group_members.
  destruct ad_groups as [|a ad]; [done|].
  destruct y360_groups as [|g l]; [done|].
  destruct y360_users as [|u us]; [done|].
  destruct (sync_y360_groups_calls dry_run api dir (a :: ad)
              (Members.y360_users_by_nickname (u :: us)) (g :: l) []
              Members.stats0) as (t & E & F).
  destruct (Members.sync_y360_groups _ _ _ _ _ _ _ _) as [h [st|e]];
    simpl in E; subst h; done.
Qed.

Lemma users_to_add_fold (index : gmap string y360_user) (mn : gset string)
    (l : list string) (acc : list Members.change) (nf : nat) :
  foldl (λ '(to_add, not_found) ad_nickname,
           if bool_decide (ad_nickname ∉ mn) then
             match index !! ad_nickname with
             | Some y360_user =>
                 (to_add ++ [Members.Build_change ad_nickname (user_id y360_user)],
                  not_found)
             | None => (to_add, S not_found)
             end
           else (to_add, not_found)) (acc, nf) l
  = (acc ++ omap (λ n, if bool_decide (n ∉ mn)
                       then (λ u, Members.Build_change n (user_id u)) <$> index !! n
                       else None) l,
     nf + length (filter (λ n, (n ∉ mn) ∧ index !! n = None) l)).
Proof.
  revert acc nf. induction l as [|n l IH]; intros acc nf.
  - simpl. by rewrite app_nil_r, Nat.add_0_r.
  - cbn [foldl omap list_omap]. case_bool_decide as Hn.
    + destruct (index !! n) as [u|] eqn:Hu.
      * rewrite IH. rewrite filter_cons_False by (intros [_ ?]; congruence).
        simpl. by rewrite <-app_assoc.
      * rewrite IH. rewrite filter_cons_True by done. simpl.
        f_equal. lia.
    + rewrite IH. by rewrite filter_cons_False by (intros [? _]; done).
Qed.

(** X14: the additions are complete and counted.  Every handle of the
    members file that is not a handle of a current member is queued for
    addition, with the id of the user the alias index gives for it, when the
    index knows it; the handles the index does not know are exactly those
    the not-found counter counts; and no handle is queued twice. *)
Theorem users_to_add_complete (index : gmap string y360_user)
    (member_nicknames ad_nicknames : gset string) :
  let r := Members.users_to_add index member_nicknames ad_nicknames in
  (∀ n u, n ∈ ad_nicknames → n ∉ member_nicknames → index !! n = Some u →
          Members.Build_change n (user_id u) ∈ r.1) ∧
  r.2 = length (filter (λ n, (n ∉ member_nicknames) ∧ index !! n = None)
                 (elements ad_nicknames)) ∧
  NoDup (Members.nickname <$> r.1).
Proof.
  cbv zeta. unfold Members.users_to_add. rewrite users_to_add_fold.
  cbn [fst snd]. rewrite app_nil_l. split_and!.
  - intros n u Hn Hmn Hu. apply list_elem_of_omap. exists n.
    split; [by apply elem_of_elements|].
    rewrite bool_decide_true by done. by rewrite Hu.
  - done.
  - pose proof (NoDup_elements ad_nicknames) as Hnd.
    induction (elements ad_nicknames) as [|n l IH]; [constructor|].
    apply NoDup_cons in Hnd as [Hn Hnd]. cbn [omap list_omap].
    destruct (bool_decide (n ∉ member_nicknames)); [|by apply IH].
    destruct (index !! n) as [u|]; [|by apply IH].
    cbn [fmap option_fmap option_map]. rewrite fmap_cons.
    apply NoDup_cons. split; [|by apply IH].
    cbn [Members.nickname]. intros Hin.
    apply list_elem_of_fmap in Hin as (c & Hc & Hin).
    apply list_elem_of_omap in Hin as (n' & Hn' & Hc').
    destruct (bool_decide (n' ∉ member_nicknames)); [|done].
    destruct (index !! n') as [u'|]; [|done].
    injection Hc' as <-. simpl in Hc. by subst n'.
Qed.

Lemma ad_nicknames_set_no_at (emails : list string) :
  (∀ e, e ∈ emails → Py.contains "@" e = false) →
  Members.ad_nicknames_set emails = ∅.
Proof.
  unfold Members.ad_nicknames_set. generalize (∅ : gset string).
  induction emails as [|e l IH]; intros s Hall; [done|].
  cbn [foldl]. rewrite (Hall e) by left. apply IH.
  intros e' He'. apply Hall. by right.
Qed.

Lemma users_to_remove_nothing_wanted (members : list y360_user) :
  Members.users_to_remove members ∅ = omap removal_of members.
Proof.
  unfold Members.users_to_remove.
  rewrite (foldl_ext _
             (λ acc x, match removal_of x with
                       | Some y => acc ++ [y]
                       | None => acc
                       end)).
  - by rewrite foldl_snoc_omap.
  - intros acc m. unfold removal_of.
    destruct (Py.truthy (user_nickname m)); [|done].
    by rewrite bool_decide_true by set_solver.
Qed.

Lemma remove_user_live (api : Remote) (gid : option Z) (h : list call)
    (st : Members.stats) (u : Members.change) :
  (Members.remove_user false api gid (h, st) u).1
  = h ++ [DeleteMember gid "user" (Members.change_user_id u)].
Proof.
  unfold Members.remove_user. simpl.
  destruct (delete_member_from_group_by_api _ _ _ _ _) as [s r].
  by destruct s, r.
Qed.

(** X15: a members file without a single address empties the group.  When
    the file of a matched group gives at least one entry but no entry
    contains the character at, the set of wanted handles is empty: a live
    run adds nobody and asks for the removal of every current member that
    has a nickname, after the one read of the members. *)
Theorem file_without_addresses_empties_group (api : Remote)
    (dir : Members.directory) (by_guid : gmap string ad_group)
    (by_nickname : gmap string y360_user) (h : list call) (st : Members.stats)
    (g : y360_group) (guid : string) (a : ad_group)
    (members : list y360_user) (member_nicknames : gset string) :
  y360_externalId g = Some ("DDG;" +:+ guid) →
  by_guid !! guid = Some a →
  get_group_members_by_api api h (y360_id g) = (true, members) →
  Members.y360_member_nicknames by_nickname ∅ members
    = Members.Return member_nicknames →
  Members.get_group_members_from_file dir a ≠ [] →
  (∀ e, e ∈ Members.get_group_members_from_file dir a →
        Py.contains "@" e = false) →
  (Members.sync_y360_group false api dir by_guid by_nickname h st g).1
  = h ++ GetGroupMembers (y360_id g)
         :: ((λ c, DeleteMember (y360_id g) "user" (Members.change_user_id c))
               <$> omap removal_of members).
Proof.
  intros Hext Ha Hread Hmn Hne Hall. unfold Members.sync_y360_group.
  rewrite Hext. change (default "" (Some ("DDG;" +:+ guid))) with ("DDG;" +:+ guid).
  rewrite startswith_DDG_app, split_DDG_app. cbn [negb].
  rewrite Ha, Hread. cbn [negb]. rewrite Hmn.
  rewrite (ad_nicknames_set_no_at _ Hall).
  destruct (Members.get_group_members_from_file dir a) as [|e l]; [done|].
  unfold Members.users_to_add at 1. rewrite elements_empty. cbn [foldl].
  rewrite users_to_remove_nothing_wanted.
  pose proof (foldl_live_calls (Members.remove_user false api (y360_id g))
                (λ c, [DeleteMember (y360_id g) "user" (Members.change_user_id c)])
                (omap removal_of members)
                (remove_user_live api (y360_id g))
                (h ++ [GetGroupMembers (y360_id g)])
                (Members.add_not_found 0
                   (Members.incr_found (Members.incr_processed st)))) as E.
  destruct (foldl (Members.remove_user false api (y360_id g)) _ _) as [h' st'].
  simpl in E. subst h'. cbn [fst]. rewrite <-app_assoc. cbn [app].
  assert (∀ cs : list Members.change,
            cs ≫= (λ c, [DeleteMember (y360_id g) "user" (Members.change_user_id c)])
            = (λ c, DeleteMember (y360_id g) "user" (Members.change_user_id c))
                <$> cs) as ->; [|done].
  induction cs as [|c cs IH]; [done|].
  cbn [mbind list_bind]. change (mbind ?f cs) with (cs ≫= f).
  by rewrite fmap_cons, <-IH.
Qed.

Lemma file_without_addresses_empties_group_witness :
  let api := Sample.api_with [Sample.alice; Sample.bob] in
  let by_guid := Members.ad_groups_by_guid [Sample.sales] in
  let by_nickname :=
    Members.y360_users_by_nickname [Sample.alice; Sample.bob; Sample.carol] in
  (y360_externalId Sample.y360_sales = Some ("DDG;" +:+ "G1") ∧
   by_guid !! "G1" = Some Sample.sales ∧
   Members.y360_member_nicknames by_nickname ∅ [Sample.alice; Sample.bob]
     = Members.Return {["a.smith"; "alice"; "bob"]} ∧
   Members.get_group_members_from_file names_only_dir Sample.sales ≠ [] ∧
   (∀ e, e ∈ Members.get_group_members_from_file names_only_dir Sample.sales →
         Py.contains "@" e = false)) ∧
  (Members.sync_y360_group false api names_only_dir by_guid by_nickname []
     Members.stats0 Sample.y360_sales).1
  = [] ++ GetGroupMembers (y360_id Sample.y360_sales)
          :: ((λ c, DeleteMember (y360_id Sample.y360_sales) "user"
                      (Members.change_user_id c))
                <$> omap removal_of [Sample.alice; Sample.bob]).
Proof.
  intros api by_guid by_nickname.
  assert (by_guid !! "G1" = Some Sample.sales) as H1
    by (vm_compute; reflexivity).
  assert (Members.y360_member_nicknames by_nickname ∅ [Sample.alice; Sample.bob]
          = Members.Return {["a.smith"; "alice"; "bob"]}) as H2
    by (vm_compute; reflexivity).
  assert (Members.get_group_members_from_file names_only_dir Sample.sales
          = ["a.smith"]) as Hfile by (vm_compute; reflexivity).
  assert (Members.get_group_members_from_file names_only_dir Sample.sales ≠ [])
    as H3 by (rewrite Hfile; discriminate).
  assert (∀ e, e ∈ Members.get_group_members_from_file names_only_dir Sample.sales →
               Py.contains "@" e = false) as H4.
  { rewrite Hfile. intros e He. apply list_elem_of_singleton in He as ->.
    vm_compute. reflexivity. }
  split; [by repeat split|].
  apply (file_without_addresses_empties_group api names_only_dir by_guid
           by_nickname [] Members.stats0 Sample.y360_sales "G1" Sample.sales
           [Sample.alice; Sample.bob] {["a.smith"; "alice"; "bob"]}
           eq_refl H1 eq_refl H2 H3 H4).
Defined.

(** ** The alias index *)

Lemma foldl_insert_alias_lookup (user : y360_user) (aliases : list string)
    (m : gmap string y360_user) (k : string) :
  foldl (λ m alias, <[Py.lower alias := user]> m) m aliases !! k
  = if bool_decide (k ∈ Py.lower <$> aliases) then Some user else m !! k.
Proof.
  revert m. induction aliases as [|x l IH]; intros m; [done|].
  cbn [foldl]. rewrite IH, fmap_cons.
  destruct (decide (k ∈ Py.lower <$> l)) as [Hin|Hnin].
  - rewrite !bool_decide_true; [done| |done]. by right.
  - rewrite (bool_decide_false (k ∈ Py.lower <$> l)) by done.
    destruct (decide (k = Py.lower x)) as [->|Hne].
    + rewrite lookup_insert_eq. by rewrite bool_decide_true by left.
    + rewrite lookup_insert_ne by done.
      rewrite bool_decide_false; [done|].
      intros [?|?]%elem_of_cons; done.
Qed.

Lemma index_user_lookup (m : gmap string y360_user) (u : y360_user)
    (k : string) :
  Members.index_user m u !! k
  = if (Py.truthy (user_nickname u) && bool_decide (k ∈ handles u))%bool
    then Some u else m !! k.
Proof.
  unfold Members.index_user, handles.
  destruct (Py.truthy (user_nickname u)); [|done]. cbn [andb].
  rewrite foldl_insert_alias_lookup.
  destruct (decide (k ∈ Py.lower <$> user_aliases u)) as [Hin|Hnin].
  - rewrite !bool_decide_true; [done| |done]. by right.
  - rewrite (bool_decide_false (k ∈ Py.lower <$> user_aliases u)) by done.
    destruct (decide (k = Py.lower (default "" (user_nickname u)))) as [->|Hne].
    + rewrite lookup_insert_eq. by rewrite bool_decide_true by left.
    + rewrite lookup_insert_ne by done.
      rewrite bool_decide_false; [done|].
      intros [?|?]%elem_of_cons; done.
Qed.

Lemma index_users_unclaimed (l : list y360_user) (m : gmap string y360_user)
    (k : string) :
  (∀ v, v ∈ l → Py.truthy (user_nickname v) = true → k ∉ handles v) →
  foldl Members.index_user m l !! k = m !! k.
Proof.
  revert m. induction l as [|v l IH]; intros m Hl; [done|].
  cbn [foldl]. rewrite IH by (intros v' ?; apply Hl; by right).
  rewrite index_user_lookup.
  destruct (Py.truthy (user_nickname v)) eqn:Hv; [|done].
  rewrite bool_decide_false; [done|]. apply Hl; [left|done].
Qed.

(** X16: how the alias index resolves a handle.  A handle (a lower-cased
    nickname or alias) is resolved to the last user of the list that has a
    non-empty nickname and carries the handle; users without a nickname are
    never entered, even under their aliases. *)
Theorem alias_index_last_wins (l1 l2 : list y360_user) (u : y360_user)
    (k : string) :
  Py.truthy (user_nickname u) = true →
  k ∈ handles u →
  (∀ v, v ∈ l2 → Py.truthy (user_nickname v) = true → k ∉ handles v) →
  Members.y360_users_by_nickname (l1 ++ u :: l2) !! k = Some u.
Proof.
  intros Hu Hk Hl2. unfold Members.y360_users_by_nickname.
  rewrite foldl_app. cbn [foldl]. rewrite index_users_unclaimed by done.
  rewrite index_user_lookup, Hu. by rewrite bool_decide_true.
Qed.

Lemma alias_index_last_wins_witness :
  (Py.truthy (user_nickname Sample.bob_robert) = true ∧
   "robert" ∈ handles Sample.bob_robert ∧
   (∀ v, v ∈ [Sample.rob_bob] → Py.truthy (user_nickname v) = true →
         "robert" ∉ handles v)) ∧
  Members.y360_users_by_nickname ([] ++ Sample.bob_robert :: [Sample.rob_bob])
    !! "robert" = Some Sample.bob_robert.
Proof.
  assert ("robert" ∈ handles Sample.bob_robert) as H1 by (right; left).
  assert (∀ v, v ∈ [Sample.rob_bob] → Py.truthy (user_nickname v) = true →
               "robert" ∉ handles v) as H2.
  { intros v Hv _. apply list_elem_of_singleton in Hv as ->.
    apply (bool_decide_unpack _). vm_compute. reflexivity. }
  split; [by repeat split|].
  apply (alias_index_last_wins [] [Sample.rob_bob] Sample.bob_robert "robert"
           eq_refl H1 H2).
Defined.

(** X17: only users with a non-empty nickname are found through the alias
    index, and a user is found only under one of its own handles: a lookup
    never invents a user and never returns one for a foreign handle. *)
Theorem alias_index_sound (y360_users : list y360_user) (k : string)
    (u : y360_user) :
  Members.y360_users_by_nickname y360_users !! k = Some u →
  u ∈ y360_users ∧ Py.truthy (user_nickname u) = true ∧ k ∈ handles u.
Proof.
  unfold Members.y360_users_by_nickname.
  assert (∀ (l : list y360_user) (m : gmap string y360_user),
    foldl Members.index_user m l !! k = Some u →
    m !! k = Some u ∨
    (u ∈ l ∧ Py.truthy (user_nickname u) = true ∧ k ∈ handles u)) as H.
  { induction l as [|v l IH]; intros m; [by left|].
    cbn [foldl]. intros Hl. destruct (IH _ Hl) as [Hm|(? & ? & ?)].
    - rewrite index_user_lookup in Hm.
      destruct (Py.truthy (user_nickname v)) eqn:Hv; [|by left].
      cbn [andb] in Hm. case_bool_decide as Hk; [|by left].
      injection Hm as <-. right. split_and!; [left|done..].
    - right. split_and!; [by right|done..]. }
  intros Hl. destruct (H _ _ Hl) as [Hm|?]; [|done].
  by rewrite lookup_empty in Hm.
Qed.

Lemma alias_index_sound_witness :
  Members.y360_users_by_nickname [Sample.bob_robert; Sample.rob_bob] !! "bob"
    = Some Sample.rob_bob ∧
  (Sample.rob_bob ∈ [Sample.bob_robert; Sample.rob_bob] ∧
   Py.truthy (user_nickname Sample.rob_bob) = true ∧
   "bob" ∈ handles Sample.rob_bob).
Proof.
  assert (Members.y360_users_by_nickname [Sample.bob_robert; Sample.rob_bob]
            !! "bob" = Some Sample.rob_bob) as H by (vm_compute; reflexivity).
  split; [exact H|].
  apply (alias_index_sound [Sample.bob_robert; Sample.rob_bob] "bob"
           Sample.rob_bob H).
Defined.

(** ** The statistics of the membership sync *)

Lemma add_users_counters (dry_run : bool) (api : Remote) (gid : option Z)
    (l : list Members.change) (h : list call) (st : Members.stats) :
  let r := foldl (Members.add_user dry_run api gid) (h, st) l in
  Members.y360_groups_processed r.2 = Members.y360_groups_processed st ∧
  Members.ad_groups_found r.2 = Members.ad_groups_found st ∧
  ∃ t, r.1 = h ++ t ∧ Forall (λ c, is_member_read c = false) t.
Proof.
  cbv zeta. revert h st. induction l as [|u l IH]; intros h st.
  - split_and!; [done..|]. exists []. by rewrite app_nil_r.
  - cbn [foldl].
    destruct (Members.add_user dry_run api gid (h, st) u) as [h1 st1] eqn:E.
    destruct (IH h1 st1) as (I1 & I2 & t & I3 & I4).
    unfold Members.add_user in E. destruct dry_run; simpl in E.
    + injection E as <- <-. split_and!; [done..|]. by exists t.
    + destruct (add_member_to_group_by_api _ _ _ _ _) as [s b].
      destruct s, b; injection E as <- <-; (split_and!; [done..|]);
        eexists (_ :: t); (split; [by rewrite I3, <-app_assoc|]);
        by constructor.
Qed.

Lemma remove_users_counters (dry_run : bool) (api : Remote) (gid : option Z)
    (l : list Members.change) (h : list call) (st : Members.stats) :
  let r := foldl (Members.remove_user dry_run api gid) (h, st) l in
  Members.y360_groups_processed r.2 = Members.y360_groups_processed st ∧
  Members.ad_groups_found r.2 = Members.ad_groups_found st ∧
  ∃ t, r.1 = h ++ t ∧ Forall (λ c, is_member_read c = false) t.
Proof.
  cbv zeta. revert h st. induction l as [|u l IH]; intros h st.
  - split_and!; [done..|]. exists []. by rewrite app_nil_r.
  - cbn [foldl].
    destruct (Members.remove_user dry_run api gid (h, st) u) as [h1 st1] eqn:E.
    destruct (IH h1 st1) as (I1 & I2 & t & I3 & I4).
    unfold Members.remove_user in E. destruct dry_run; simpl in E.
    + injection E as <- <-. split_and!; [done..|]. by exists t.
    + destruct (delete_member_from_group_by_api _ _ _ _ _) as [s b].
      destruct s, b; injection E as <- <-; (split_and!; [done..|]);
        eexists (_ :: t); (split; [by rewrite I3, <-app_assoc|]);
        by constructor.
Qed.

Lemma filter_reads_none (t : list call) :
  Forall (λ c, is_member_read c = false) t →
  filter (λ c, is_member_read c = true) t = [].
Proof.
  induction 1 as [|c t Hc _ IH]; [done|].
  rewrite filter_cons_False by congruence. done.
Qed.

Lemma sync_y360_group_counters (dry_run : bool) (api : Remote)
    (dir : Members.directory) (by_guid : gmap string ad_group)
    (by_nickname : gmap string y360_user) (h : list call)
    (st st' : Members.stats) (g : y360_group) (h' : list call) :
  Members.sync_y360_group dry_run api dir by_guid by_nickname h st g
  = (h', Members.Return st') →
  Members.y360_groups_processed st'
  = Members.y360_groups_processed st + (if tagged g then 1 else 0) ∧
  ∃ t, h' = h ++ t ∧
       Members.ad_groups_found st'
       = Members.ad_groups_found st
         + length (filter (λ c, is_member_read c = true) t) ∧
       (length (filter (λ c, is_member_read c = true) t)
        ≤ (if tagged g then 1 else 0))%nat.
Proof.
  unfold Members.sync_y360_group, tagged.
  destruct (Py.startswith "DDG;" (default "" (y360_externalId g))); simpl.
  2:{ intros [= <- <-]. split; [lia|]. exists []. rewrite app_nil_r.
      simpl. split_and!; [done|lia|lia]. }
  assert (∀ s,
    (h, Members.Return (A:=Members.stats)
          (Members.incr_skipped (Members.incr_processed st)))
    = (h', Members.Return s) →
    Members.y360_groups_processed s = Members.y360_groups_processed st + 1 ∧
    ∃ t, h' = h ++ t ∧
      Members.ad_groups_found s = Members.ad_groups_found st
        + length (filter (λ c, is_member_read c = true) t) ∧
      (length (filter (λ c, is_member_read c = true) t) ≤ 1)%nat) as Hskip.
  { intros s [= <- <-]. split; [simpl; lia|]. exists []. rewrite app_nil_r.
    simpl. split_and!; [done|lia|lia]. }
  destruct (Py.split_once ";" (default "" (y360_externalId g))) as [[? guid]|];
    [|by apply Hskip].
  destruct (by_guid !! guid) as [a|]; [|by apply Hskip]. clear Hskip.
  destruct (get_group_members_by_api api h (y360_id g)) as [ok members].
  assert (∀ s0 s,
    Members.y360_groups_processed s0 = S (Members.y360_groups_processed st) →
    Members.ad_groups_found s0 = S (Members.ad_groups_found st) →
    (h ++ [GetGroupMembers (y360_id g)], Members.Return (A:=Members.stats) s0)
    = (h', Members.Return s) →
    Members.y360_groups_processed s = Members.y360_groups_processed st + 1 ∧
    ∃ t, h' = h ++ t ∧
      Members.ad_groups_found s = Members.ad_groups_found st
        + length (filter (λ c, is_member_read c = true) t) ∧
      (length (filter (λ c, is_member_read c = true) t) ≤ 1)%nat) as Hone.
  { intros s0 s1 P F [= <- <-]. split; [lia|].
    exists [GetGroupMembers (y360_id g)]. split; [done|].
    rewrite filter_cons_True by done. simpl. lia. }
  destruct ok; simpl; [|by apply Hone].
  destruct (Members.y360_member_nicknames by_nickname ∅ members) as [mn|e];
    [|done].
  destruct (Members.get_group_members_from_file dir a) as [|e0 emails];
    [by apply Hone|].
  destruct (Members.users_to_add by_nickname mn _) as [to_add nf].
  set (h1 := h ++ [GetGroupMembers (y360_id g)]).
  set (st1 := Members.add_not_found nf _).
  pose proof (add_users_counters dry_run api (y360_id g) to_add h1 st1) as A.
  cbv zeta in A.
  destruct (foldl (Members.add_user dry_run api (y360_id g)) (h1, st1) to_add)
    as [h2 st2]. simpl in A. destruct A as (A1 & A2 & t1 & -> & A4).
  set (to_remove := Members.users_to_remove members _).
  pose proof (remove_users_counters dry_run api (y360_id g) to_remove
                (h1 ++ t1) st2) as B. cbv zeta in B.
  destruct (foldl (Members.remove_user dry_run api (y360_id g)) _ to_remove)
    as [h3 st3]. simpl in B. destruct B as (B1 & B2 & t2 & -> & B4).
  intros [= <- <-]. split; [rewrite B1, A1; simpl; lia|].
  exists (GetGroupMembers (y360_id g) :: t1 ++ t2). split.
  - unfold h1. by rewrite <-!app_assoc.
  - rewrite filter_cons_True by done. rewrite filter_app.
    rewrite !filter_reads_none by done. simpl.
    rewrite B2, A2. simpl. lia.
Qed.

Lemma sync_y360_groups_counters (dry_run : bool) (api : Remote)
    (dir : Members.directory) (by_guid : gmap string ad_group)
    (by_nickname : gmap string y360_user) (l : list y360_group)
    (h h' : list call) (st st' : Members.stats) :
  Members.sync_y360_groups dry_run api dir by_guid by_nickname h st l
  = (h', Members.Return st') →
  Members.y360_groups_processed st'
  = Members.y360_groups_processed st + length (filter (λ g, tagged g = true) l) ∧
  ∃ t, h' = h ++ t ∧
       Members.ad_groups_found st'
       = Members.ad_groups_found st
         + length (filter (λ c, is_member_read c = true) t) ∧
       (length (filter (λ c, is_member_read c = true) t)
        ≤ length (filter (λ g, tagged g = true) l))%nat.
Proof.
  revert h st. induction l as [|g l IH]; intros h st.
  - intros [= <- <-]. split; [simpl; lia|]. exists []. rewrite app_nil_r.
    simpl. split_and!; [done|lia|lia].
  - cbn [Members.sync_y360_groups].
    destruct (Members.sync_y360_group dry_run api dir by_guid by_nickname h st g)
      as [h1 [st1|e]] eqn:E; [|done].
    destruct (sync_y360_group_counters _ _ _ _ _ _ _ _ _ _ E)
      as (P1 & t1 & -> & F1 & L1).
    intros Hrest. destruct (IH _ _ Hrest) as (P2 & t2 & -> & F2 & L2).
    assert (length (filter (λ g, tagged g = true) (g :: l))
            = (if tagged g then 1 else 0)
              + length (filter (λ g, tagged g = true) l)) as ->.
    { destruct (tagged g) eqn:Hg.
      - by rewrite filter_cons_True by done.
      - by rewrite filter_cons_False by congruence. }
    split; [lia|]. exists (t1 ++ t2). rewrite <-app_assoc. split; [done|].
    rewrite filter_app, length_app. lia.
Qed.

(** X18: what the counters of the membership sync count.  When
    [sync_group_members] returns (all three inputs non-empty), the processed
    counter is the number of target groups whose externalId starts with the
    tag prefix, the found counter is the number of member reads the run
    made, one per tagged group matched to a source group, and it does not
    exceed the processed counter. *)
Theorem membership_counters (dry_run : bool) (api : Remote)
    (dir : Members.directory) (ad_groups : list ad_group)
    (y360_groups : list y360_group) (y360_users : list y360_user)
    (h : list call) (ok : bool) (st : Members.stats) :
  ad_groups ≠ [] → y360_users ≠ [] →
  Members.sync_group_members dry_run api dir ad_groups y360_groups y360_users
  = (h, Members.Return (ok, st)) →
  Members.y360_groups_processed st
  = length (filter (λ g, tagged g = true) y360_groups) ∧
  Members.ad_groups_found st
  = length (filter (λ c, is_member_read c = true) h) ∧
  (Members.ad_groups_found st ≤ Members.y360_groups_processed st)%nat.
Proof.
  intros Had Hus. unfold Members.sync_group_members.
  destruct ad_groups as [|a ad]; [done|].
  destruct y360_groups as [|g l]; [by intros [= <- <- <-]|].
  destruct y360_users as [|u us]; [done|].
  destruct (Members.sync_y360_groups _ _ _ _ _ _ _ _) as [h1 [st1|e]] eqn:E;
    [|done].
  intros [= <- <- <-].
  destruct (sync_y360_groups_counters _ _ _ _ _ _ _ _ _ _ E)
    as (P & t & -> & F & L).
  simpl in *. split_and!; [done|done|lia].
Qed.

Lemma membership_counters_witness :
  let api := Sample.api_with [Sample.alice; Sample.bob] in
  let y360_groups := [Sample.y360_sales; Sample.y360_old; Sample.y360_foreign] in
  let y360_users := [Sample.alice; Sample.bob; Sample.carol] in
  let r := Members.sync_group_members false api Sample.sales_dir [Sample.sales]
             y360_groups y360_users in
  ([Sample.sales] ≠ [] ∧ y360_users ≠ [] ∧
   r = ([GetGroupMembers (Some 10%Z);
         AddMember (Some 10%Z) "user" (Some "3");
         DeleteMember (Some 10%Z) "user" (Some "1");
         DeleteMember (Some 10%Z) "user" (Some "2")],
        Members.Return (true, Members.Build_stats 2 1 1 2 0 0 1))) ∧
  Members.y360_groups_processed (Members.Build_stats 2 1 1 2 0 0 1)
  = length (filter (λ g, tagged g = true) y360_groups) ∧
  Members.ad_groups_found (Members.Build_stats 2 1 1 2 0 0 1)
  = length (filter (λ c, is_member_read c = true)
              [GetGroupMembers (Some 10%Z);
               AddMember (Some 10%Z) "user" (Some "3");
               DeleteMember (Some 10%Z) "user" (Some "1");
               DeleteMember (Some 10%Z) "user" (Some "2")]) ∧
  (Members.ad_groups_found (Members.Build_stats 2 1 1 2 0 0 1)
   ≤ Members.y360_groups_processed (Members.Build_stats 2 1 1 2 0 0 1))%nat.
Proof.
  intros api y360_groups y360_users r.
  assert (r = ([GetGroupMembers (Some 10%Z);
                AddMember (Some 10%Z) "user" (Some "3");
                DeleteMember (Some 10%Z) "user" (Some "1");
                DeleteMember (Some 10%Z) "user" (Some "2")],
               Members.Return (true, Members.Build_stats 2 1 1 2 0 0 1))) as Hr
    by (vm_compute; reflexivity).
  assert ([Sample.sales] ≠ []) as H1 by discriminate.
  assert (y360_users ≠ []) as H2 by discriminate.
  split; [by repeat split|].
  apply (membership_counters false api Sample.sales_dir [Sample.sales]
           y360_groups y360_users _ true _ H1 H2 Hr).
Defined.

(** ** Masking of logged payloads *)

Lemma json_nested_ind (P : Mask.json → Prop) :
  P Mask.JNull →
  (∀ b, P (Mask.JBool b)) →
  (∀ n, P (Mask.JNum n)) →
  (∀ s, P (Mask.JStr s)) →
  (∀ items, Forall P items → P (Mask.JList items)) →
  (∀ fields, Forall (λ field, P field.2) fields → P (Mask.JDict fields)) →
  ∀ obj, P obj.
Proof.
  intros Hnull Hbool Hnum Hstr Hlist Hdict.
  refine (fix IH (obj : Mask.json) : P obj :=
            match obj with
            | Mask.JNull => Hnull
            | Mask.JBool b => Hbool b
            | Mask.JNum n => Hnum n
            | Mask.JStr s => Hstr s
            | Mask.JList items =>
                Hlist items
                  ((fix go (l : list Mask.json) : Forall P l :=
                      match l with
                      | [] => @List.Forall_nil _ _
                      | x :: r => @List.Forall_cons _ _ x r (IH x) (go r)
                      end) items)
            | Mask.JDict fields =>
                Hdict fields
                  ((fix go (l : list (string * Mask.json))
                     : Forall (λ field, P field.2) l :=
                      match l with
                      | [] => @List.Forall_nil _ _
                      | x :: r => @List.Forall_cons _ _ x r (IH x.2) (go r)
                      end) fields)
            end).
Qed.

Lemma mask_recursive_list (items : list Mask.json) :
  Mask.mask_recursive (Mask.JList items)
  = Mask.JList (Mask.mask_recursive <$> items).
Proof.
  cbn [Mask.mask_recursive]. f_equal.
Qed.

Lemma mask_recursive_dict (fields : list (string * Mask.json)) :
  Mask.mask_recursive (Mask.JDict fields)
  = Mask.JDict (Mask.mask_field <$> fields).
Proof.
  cbn [Mask.mask_recursive]. f_equal.
  induction fields as [|[k v] l IH]; [done|]. rewrite fmap_cons, <-IH.
  unfold Mask.mask_field at 1. cbn [fst snd]. do 2 f_equal.
  destruct (Mask.sensitive k); [done|]. by destruct v.
Qed.

Lemma stored_scalar (obj : Mask.json) (key : string) (value : Mask.json) :
  Mask.is_container obj = false → ¬ Mask.stored obj key value.
Proof. intros Hc Hs. by destruct Hs. Qed.

(** X19: no value survives under a sensitive key.  In what
    [mask_sensitive_data] returns, every value held, at any depth of nested
    dictionaries and lists, under a key whose lower-cased form is password,
    oauth_token, access_token or token is the mask string. *)
Theorem masked_at_every_depth (data : Mask.json) (key : string)
    (value : Mask.json) :
  Mask.stored (Mask.mask_sensitive_data data) key value →
  Mask.sensitive key = true →
  value = Mask.MASKED.
Proof.
  unfold Mask.mask_sensitive_data. revert key value.
  induction data as [| | | |items IH|fields IH] using json_nested_ind;
    intros key value Hs Hkey;
    try (by apply stored_scalar in Hs).
  - rewrite mask_recursive_list in Hs.
    inversion Hs as [| |? child ? ? Hin Hchild]; subst.
    apply list_elem_of_fmap in Hin as (x & -> & Hx).
    rewrite Forall_forall in IH. by apply (IH x Hx key).
  - rewrite mask_recursive_dict in Hs. rewrite Forall_forall in IH.
    inversion Hs as [? ? ? Hin|? k' child ? ? Hin Hchild|]; subst.
    + apply list_elem_of_fmap in Hin as ([k v] & [= -> ->] & Hx).
      cbn [fst]. by rewrite Hkey.
    + apply list_elem_of_fmap in Hin as ([k v] & [= -> ->] & Hx).
      cbn [fst snd] in Hchild. destruct (Mask.sensitive k).
      * by apply stored_scalar in Hchild.
      * by apply (IH (k, v) Hx key).
Qed.

Lemma masked_at_every_depth_witness :
  (Mask.stored (Mask.mask_sensitive_data Mask.sample_payload) "password"
     Mask.MASKED ∧
   Mask.sensitive "password" = true) ∧
  Mask.MASKED = Mask.MASKED.
Proof.
  assert (Mask.stored (Mask.mask_sensitive_data Mask.sample_payload) "password"
            Mask.MASKED) as H.
  { apply (Mask.stored_in_field _ "members"
             (Mask.JList [Mask.JDict [("type", Mask.JStr "user");
                                      ("password", Mask.MASKED)]])).
    - do 2 right. left.
    - apply (Mask.stored_in_item _ (Mask.JDict [("type", Mask.JStr "user");
                                                ("password", Mask.MASKED)])).
      + left.
      + apply Mask.stored_here. right. left. }
  split; [by split|].
  apply (masked_at_every_depth Mask.sample_payload "password" Mask.MASKED H
           eq_refl).
Defined.

(** X20: masking is idempotent: masking a masked payload changes
    nothing. *)
Theorem mask_idempotent (data : Mask.json) :
  Mask.mask_sensitive_data (Mask.mask_sensitive_data data)
  = Mask.mask_sensitive_data data.
Proof.
  unfold Mask.mask_sensitive_data.
  induction data as [| | | |items IH|fields IH] using json_nested_ind;
    try done.
  - rewrite !mask_recursive_list. f_equal. rewrite <-list_fmap_compose.
    apply list_fmap_ext. intros i x Hx. rewrite Forall_forall in IH.
    apply IH. by eapply list_elem_of_lookup_2.
  - rewrite !mask_recursive_dict. f_equal. rewrite <-list_fmap_compose.
    apply list_fmap_ext. intros i [k v] Hx. rewrite Forall_forall in IH.
    unfold Mask.mask_field. cbn [compose fst snd]. f_equal.
    destruct (Mask.sensitive k); [done|].
    apply (IH (k, v)). by eapply list_elem_of_lookup_2.
Qed.

Lemma keys_list (items : list Mask.json) :
  Mask.keys (Mask.JList items) = items ≫= Mask.keys.
Proof.
  cbn [Mask.keys]. induction items as [|x l IH]; [done|].
  cbn [mbind list_bind]. by rewrite IH.
Qed.

Lemma keys_dict (fields : list (string * Mask.json)) :
  Mask.keys (Mask.JDict fields)
  = fields ≫= (λ field, field.1 :: Mask.keys field.2).
Proof.
  cbn [Mask.keys]. induction fields as [|[k v] l IH]; [done|].
  cbn [mbind list_bind]. by rewrite IH.
Qed.

(** X21: a payload without a sensitive key, at any depth, is logged as it
    is: masking returns it unchanged. *)
Theorem mask_without_sensitive_keys (data : Mask.json) :
  (∀ key, key ∈ Mask.keys data → Mask.sensitive key = false) →
  Mask.mask_sensitive_data data = data.
Proof.
  unfold Mask.mask_sensitive_data.
  induction data as [| | | |items IH|fields IH] using json_nested_ind;
    try done; intros Hkeys.
  - rewrite mask_recursive_list. f_equal. rewrite keys_list in Hkeys.
    rewrite Forall_forall in IH.
    rewrite <-(list_fmap_id items) at 2. apply list_fmap_ext.
    intros i x Hx. apply list_elem_of_lookup_2 in Hx. apply IH; [done|].
    intros key Hkey. apply Hkeys. apply list_elem_of_bind. by exists x.
  - rewrite mask_recursive_dict. f_equal. rewrite keys_dict in Hkeys.
    rewrite Forall_forall in IH.
    rewrite <-(list_fmap_id fields) at 2. apply list_fmap_ext.
    intros i [k v] Hx. apply list_elem_of_lookup_2 in Hx.
    unfold Mask.mask_field. cbn [fst snd].
    rewrite (Hkeys k)
      by (apply list_elem_of_bind; exists (k, v); split; [left|done]).
    unfold id. f_equal. apply (IH (k, v) Hx).
    intros key Hkey. apply Hkeys. apply list_elem_of_bind.
    exists (k, v). split; [by right|done].
Qed.

Lemma mask_without_sensitive_keys_witness :
  (∀ key, key ∈ Mask.keys (Mask.JDict [("name", Mask.JStr "Sales");
                                       ("ldap_password", Mask.JStr "kept")]) →
          Mask.sensitive key = false) ∧
  Mask.mask_sensitive_data (Mask.JDict [("name", Mask.JStr "Sales");
                                        ("ldap_password", Mask.JStr "kept")])
  = Mask.JDict [("name", Mask.JStr "Sales");
                ("ldap_password", Mask.JStr "kept")].
Proof.
  assert (∀ key, key ∈ Mask.keys (Mask.JDict [("name", Mask.JStr "Sales");
                                              ("ldap_password", Mask.JStr "kept")]) →
                 Mask.sensitive key = false) as H.
  { intros key Hkey. cbn in Hkey.
    apply elem_of_cons in Hkey as [->|Hkey]; [by vm_compute|].
    apply list_elem_of_singleton in Hkey as ->. by vm_compute. }
  split; [exact H|].
  apply (mask_without_sensitive_keys _ H).
Defined.

(** ** Settings *)

(** X22: [get_settings] returns settings only when they are complete and
    the token was validated: LDAP_PORT converts to a number other than 0,
    OAUTH_TOKEN, ORG_ID, LDAP_HOST, LDAP_USER and LDAP_PASSWORD are set and
    not empty, and the token check answered true.  The settings returned
    are the values read, and their dry-run flag is set exactly when DRY_RUN
    is present and is, letter case apart, the word true: any other value,
    such as 1 or yes, gives a live run. *)
Theorem get_settings_accepted (int : string → option Z)
    (check_oauth_token : string → string → option bool) (now : Z)
    (env : gmap string string) (settings : Settings.SettingParams) :
  Settings.get_settings int check_oauth_token now env
  = Settings.Accepted settings →
  (∃ port : Z,
     env !! "LDAP_PORT" ≫= int = Some port ∧ port ≠ 0%Z ∧
     settings = Settings.read env port now) ∧
  (∃ token org : string,
     env !! "OAUTH_TOKEN" = Some token ∧ token ≠ "" ∧
     env !! "ORG_ID" = Some org ∧ org ≠ "" ∧
     check_oauth_token token org = Some true) ∧
  Py.truthy (env !! "LDAP_HOST") = true ∧
  Py.truthy (env !! "LDAP_USER") = true ∧
  Py.truthy (env !! "LDAP_PASSWORD") = true ∧
  (Settings.dry_run settings = true ↔
   ∃ v : string, env !! "DRY_RUN" = Some v ∧ Py.lower v = "true").
Proof.
  unfold Settings.get_settings.
  destruct (env !! "LDAP_PORT" ≫= int) as [port|] eqn:Hport; [|done].
  cbv zeta.
  cbn [Settings.oauth_token Settings.org_id Settings.ldap_host
       Settings.ldap_port Settings.ldap_user Settings.ldap_password
       Settings.read].
  destruct (Py.truthy (env !! "OAUTH_TOKEN")) eqn:Htoken; cbn [negb orb];
    [|intros [=]].
  destruct (Py.truthy (env !! "ORG_ID")) eqn:Horg; cbn [negb orb]; [|intros [=]].
  apply truthy_Some in Htoken as (token & Htoken & Htoken').
  apply truthy_Some in Horg as (org & Horg & Horg').
  rewrite Htoken, Horg.
  change (default "" (Some token)) with token.
  change (default "" (Some org)) with org.
  destruct (check_oauth_token token org) as [valid|] eqn:Hcheck; [|intros [=]].
  destruct valid, (Py.truthy (env !! "LDAP_HOST")),
    (Py.truthy (env !! "LDAP_USER")), (Py.truthy (env !! "LDAP_PASSWORD")),
    (bool_decide (port = 0%Z)) eqn:Hzero;
    cbn [negb]; try (intros [=]; fail).
  apply bool_decide_eq_false in Hzero.
  intros [= <-]. split_and!; try done.
  - by exists port.
  - by exists token, org.
  - cbn [Settings.dry_run Settings.read]. unfold Settings.flag.
    rewrite bool_decide_eq_true. split.
    + destruct (env !! "DRY_RUN") as [v|]; [by exists v|].
      cbn. discriminate.
    + by intros (v & -> & ?).
Qed.

Lemma get_settings_accepted_witness :
  Settings.get_settings Settings.sample_port (λ _ _, Some true) 0
    Settings.sample_env
  = Settings.Accepted (Settings.read Settings.sample_env 389 0) ∧
  ((∃ port : Z,
      Settings.sample_env !! "LDAP_PORT" ≫= Settings.sample_port = Some port ∧
      port ≠ 0%Z ∧
      Settings.read Settings.sample_env 389 0
      = Settings.read Settings.sample_env port 0) ∧
   (∃ token org : string,
      Settings.sample_env !! "OAUTH_TOKEN" = Some token ∧ token ≠ "" ∧
      Settings.sample_env !! "ORG_ID" = Some org ∧ org ≠ "" ∧
      (λ _ _ : string, Some true) token org = Some true) ∧
   Py.truthy (Settings.sample_env !! "LDAP_HOST") = true ∧
   Py.truthy (Settings.sample_env !! "LDAP_USER") = true ∧
   Py.truthy (Settings.sample_env !! "LDAP_PASSWORD") = true ∧
   (Settings.dry_run (Settings.read Settings.sample_env 389 0) = true ↔
    ∃ v : string, Settings.sample_env !! "DRY_RUN" = Some v ∧
                  Py.lower v = "true")).
Proof.
  assert (Settings.get_settings Settings.sample_port (λ _ _, Some true) 0
            Settings.sample_env
          = Settings.Accepted (Settings.read Settings.sample_env 389 0)) as H
    by (vm_compute; reflexivity).
  split; [exact H|].
  apply (get_settings_accepted Settings.sample_port (λ _ _, Some true) 0
           Settings.sample_env _ H).
Defined.

(** X23: a missing LDAP_PORT is not reported as a missing setting.  The
    port is converted while the settings are read, before any check; when
    LDAP_PORT is absent, or does not convert, [get_settings] raises instead
    of returning [None], whatever the other variables hold and without the
    token being checked. *)
Theorem get_settings_port_raises (int : string → option Z)
    (check_oauth_token : string → string → option bool) (now : Z)
    (env : gmap string string) :
  env !! "LDAP_PORT" ≫= int = None →
  Settings.get_settings int check_oauth_token now env = Settings.Raised.
Proof. intros H. unfold Settings.get_settings. by rewrite H. Qed.

Lemma get_settings_port_raises_witness :
  delete "LDAP_PORT" Settings.sample_env !! "LDAP_PORT" ≫= Settings.sample_port
  = None ∧
  Settings.get_settings Settings.sample_port (λ _ _, Some true) 0
    (delete "LDAP_PORT" Settings.sample_env) = Settings.Raised.
Proof.
  assert (delete "LDAP_PORT" Settings.sample_env !! "LDAP_PORT"
            ≫= Settings.sample_port = None) as H by (vm_compute; reflexivity).
  split; [exact H|].
  apply (get_settings_port_raises Settings.sample_port (λ _ _, Some true) 0
           (delete "LDAP_PORT" Settings.sample_env) H).
Defined.

(** X24: the token is checked only when there is something to check.  When
    OAUTH_TOKEN or ORG_ID is missing or empty (and the port converts),
    [get_settings] returns [None] without the request that validates the
    token: the answer is the same for every behaviour of that request, also
    one that raises, and the LDAP settings are not looked at. *)
Theorem get_settings_without_credentials (int : string → option Z)
    (check_oauth_token : string → string → option bool) (now : Z)
    (env : gmap string string) (port : Z) :
  env !! "LDAP_PORT" ≫= int = Some port →
  Py.truthy (env !! "OAUTH_TOKEN") = false ∨ Py.truthy (env !! "ORG_ID") = false →
  Settings.get_settings int check_oauth_token now env = Settings.Rejected.
Proof.
  intros Hport Hmissing. unfold Settings.get_settings. rewrite Hport.
  cbv zeta. cbn [Settings.oauth_token Settings.org_id Settings.read].
  destruct Hmissing as [-> | ->]; cbn [negb orb].
  - done.
  - rewrite orb_true_r. cbn [negb].
    by destruct (Py.truthy (env !! "OAUTH_TOKEN")).
Qed.

Lemma get_settings_without_credentials_witness :
  (delete "ORG_ID" Settings.sample_env !! "LDAP_PORT" ≫= Settings.sample_port
   = Some 389%Z ∧
   (Py.truthy (delete "ORG_ID" Settings.sample_env !! "OAUTH_TOKEN") = false ∨
    Py.truthy (delete "ORG_ID" Settings.sample_env !! "ORG_ID") = false)) ∧
  Settings.get_settings Settings.sample_port (λ _ _, None) 0
    (delete "ORG_ID" Settings.sample_env) = Settings.Rejected.
Proof.
  assert (delete "ORG_ID" Settings.sample_env !! "LDAP_PORT"
            ≫= Settings.sample_port = Some 389%Z) as H1
    by (vm_compute; reflexivity).
  assert (Py.truthy (delete "ORG_ID" Settings.sample_env !! "OAUTH_TOKEN") = false ∨
          Py.truthy (delete "ORG_ID" Settings.sample_env !! "ORG_ID") = false)
    as H2 by (right; vm_compute; reflexivity).
  split; [by split|].
  apply (get_settings_without_credentials Settings.sample_port (λ _ _, None) 0
           (delete "ORG_ID" Settings.sample_env) 389 H1 H2).
Defined.

(** ** The script *)

Lemma sync_ad_groups_to_y360_dry_calls (api : Remote)
    (ad_groups : list ad_group) (y360_groups : list y360_group) :
  (Groups.sync_ad_groups_to_y360 true api ad_groups y360_groups).1 = [].
Proof.
  unfold Groups.sync_ad_groups_to_y360.
  destruct ad_groups as [|a l]; [done|].
  set (index := Groups.y360_groups_by_external_id y360_groups).
  set (st := Groups.set_counts _ _ _).
  pose proof (foldl_no_call (Groups.sync_ad_group true api index) (a :: l)
                (sync_ad_group_dry api index) [] st) as H1.
  destruct (foldl (Groups.sync_ad_group true api index) ([], st) (a :: l))
    as [h1 st1]. simpl in H1. subst h1.
  pose proof (foldl_no_call (Groups.delete_group true api)
                (Groups.groups_to_delete (a :: l) y360_groups)
                (delete_group_dry api) [] st1) as H2.
  destruct (foldl (Groups.delete_group true api) ([], st1) _) as [h2 st2].
  by simpl in *.
Qed.

Lemma sync_y360_group_dry_calls (api : Remote) (dir : Members.directory)
    (by_guid : gmap string ad_group) (by_nickname : gmap string y360_user)
    (h : list call) (st : Members.stats) (g : y360_group) :
  ∃ t, (Members.sync_y360_group true api dir by_guid by_nickname h st g).1
       = h ++ t ∧ Forall (λ c, mutating c = false) t.
Proof.
  unfold Members.sync_y360_group.
  destruct (Py.startswith "DDG;" (default "" (y360_externalId g))); simpl;
    [|exists []; by rewrite app_nil_r].
  destruct (Py.split_once ";" (default "" (y360_externalId g))) as [[? guid]|];
    [|exists []; by rewrite app_nil_r].
  destruct (by_guid !! guid) as [a|]; [|exists []; by rewrite app_nil_r].
  destruct (get_group_members_by_api api h (y360_id g)) as [ok members].
  destruct ok; simpl;
    [|exists [GetGroupMembers (y360_id g)]; split; [done|by repeat constructor]].
  destruct (Members.y360_member_nicknames by_nickname ∅ members) as [mn|e];
    [|exists [GetGroupMembers (y360_id g)]; split; [done|by repeat constructor]].
  destruct (Members.get_group_members_from_file dir a) as [|e0 emails];
    [exists [GetGroupMembers (y360_id g)]; split; [done|by repeat constructor]|].
  destruct (Members.users_to_add by_nickname mn _) as [to_add nf].
  set (h1 := h ++ [GetGroupMembers (y360_id g)]).
  set (st1 := Members.add_not_found nf _).
  pose proof (foldl_no_call (Members.add_user true api (y360_id g)) to_add
                (add_user_dry api (y360_id g)) h1 st1) as H1.
  destruct (foldl (Members.add_user true api (y360_id g)) (h1, st1) to_add)
    as [h2 st2]. simpl in H1. subst h2.
  set (to_remove := Members.users_to_remove members _).
  pose proof (foldl_no_call (Members.remove_user true api (y360_id g)) to_remove
                (remove_user_dry api (y360_id g)) h1 st2) as H2.
  destruct (foldl (Members.remove_user true api (y360_id g)) (h1, st2) to_remove)
    as [h3 st3]. simpl in H2. subst h3. simpl.
  exists [GetGroupMembers (y360_id g)]. split; [done|by repeat constructor].
Qed.

Lemma sync_group_members_dry_calls (api : Remote) (dir : Members.directory)
    (ad_groups : list ad_group) (y360_groups : list y360_group)
    (y360_users : list y360_user) :
  Forall (λ c, mutating c = false)
    (Members.sync_group_members true api dir ad_groups y360_groups y360_users).1.
Proof.
  unfold Members.sync_group_members.
  destruct ad_groups as [|a ad]; [done|].
  destruct y360_groups as [|g l]; [done|].
  destruct y360_users as [|u us]; [done|].
  set (by_guid := Members.ad_groups_by_guid (a :: ad)).
  set (by_nickname := Members.y360_users_by_nickname (u :: us)).
  assert (∀ (l : list y360_group) (h : list call) (st : Members.stats),
    ∃ t, (Members.sync_y360_groups true api dir by_guid by_nickname h st l).1
         = h ++ t ∧ Forall (λ c, mutating c = false) t) as H.
  { clear. induction l as [|g l IH]; intros h st.
    - exists []. by rewrite app_nil_r.
    - cbn [Members.sync_y360_groups].
      destruct (sync_y360_group_dry_calls api dir by_guid by_nickname h st g)
        as (t1 & E1 & F1).
      destruct (Members.sync_y360_group true api dir by_guid by_nickname h st g)
        as [h1 [st1|e]]; simpl in E1; subst h1.
      + destruct (IH (h ++ t1) st1) as (t2 & E2 & F2).
        exists (t1 ++ t2). rewrite E2, <-app_assoc. split; [done|].
        by apply Forall_app.
      + by exists t1. }
  destruct (H (g :: l) [] Members.stats0) as (t & E & F).
  destruct (Members.sync_y360_groups _ _ _ _ _ _ _ _) as [h [st|e]];
    simpl in E; subst h; done.
Qed.

(** X25: when the script changes the target service.  Whatever the
    service, the directory and the files hold, a run makes a call that
    changes the service only if the file .env_ldap exists, the settings
    were accepted with the dry-run flag off, the read of the users returned
    at least one user, and the source directory returned at least one
    group.  In particular a dry run, a failed read of the users and an
    empty or failed read of the source groups leave the service as it
    is. *)
Theorem main_changes_only_when (fuel : nat) (denv_exists : bool)
    (env : gmap string string) (int : string → option Z)
    (check_oauth_token : string → string → option bool) (now later : Z)
    (users_net : nat → nat → Paging.page_outcome Paging.api_user)
    (ad_groups : list ad_group)
    (groups_net : list call → nat → nat → Paging.page_outcome y360_group)
    (api : Remote) (members_files_dir : Members.directory)
    (r : Main.outcome) (c : call) :
  Main.main fuel denv_exists env int check_oauth_token now later users_net
    ad_groups groups_net api members_files_dir = Some r →
  c ∈ Main.calls_of r →
  mutating c = true →
  denv_exists = true ∧
  ad_groups ≠ [] ∧
  (∃ settings,
     Settings.get_settings int check_oauth_token now env
     = Settings.Accepted settings ∧ Settings.dry_run settings = false) ∧
  (∃ users,
     Paging.get_all_api360_users_from_api int fuel users_net
     = Some (Paging.Fetched users) ∧ users ≠ []).
Proof.
  unfold Main.main. destruct denv_exists; cbn [negb];
    [|intros [= <-] Hc; by apply elem_of_nil in Hc].
  destruct (Settings.get_settings int check_oauth_token now env)
    as [settings| |] eqn:Hsettings;
    [|intros [= <-] Hc; by apply elem_of_nil in Hc..].
  assert (Settings.all_users settings = []) as Hcache.
  { unfold Settings.get_settings in Hsettings.
    destruct (env !! "LDAP_PORT" ≫= int) as [port|]; [|done].
    cbv zeta in Hsettings.
    repeat case_match; try done; by injection Hsettings as <-. }
  unfold get_all_api360_users. rewrite Hcache. cbn [orb].
  destruct (Paging.get_all_api360_users_from_api int fuel users_net)
    as [[users|]|] eqn:Husers;
    [|intros [= <-] Hc; by apply elem_of_nil in Hc|done].
  destruct users as [|u users];
    [intros [= <-] Hc; by apply elem_of_nil in Hc|].
  destruct ad_groups as [|a ad_groups];
    [intros [= <-] Hc; by apply elem_of_nil in Hc|].
  destruct (Paging.get_all_groups_from_api360 fuel (groups_net []))
    as [[y360_groups|]|];
    [|intros [= <-] Hc; by apply elem_of_nil in Hc|done].
  change (Settings.dry_run (with_all_users settings (u :: users) later))
    with (Settings.dry_run settings).
  destruct (Settings.dry_run settings) eqn:Hdry.
  - (* a dry run makes no mutating call *)
    intros Hr Hc Hmut. exfalso.
    pose proof (sync_ad_groups_to_y360_dry_calls api (a :: ad_groups)
                  y360_groups) as H1.
    destruct (Groups.sync_ad_groups_to_y360 true api (a :: ad_groups)
                y360_groups) as [h1 [success stats]]. simpl in H1. subst h1.
    destruct (Paging.get_all_groups_from_api360 fuel (groups_net []))
      as [[updated|]|];
      [|injection Hr as <-; by apply elem_of_nil in Hc|done].
    pose proof (sync_group_members_dry_calls (Main.after [] api)
                  members_files_dir (a :: ad_groups) updated
                  (Paging.user <$> u :: users)) as H2.
    destruct (Members.sync_group_members true _ _ _ _ _) as [h2 [[ok st]|e]];
      injection Hr as <-; simpl in Hc, H2;
      rewrite Forall_forall in H2; specialize (H2 c Hc); congruence.
  - intros _ _ _. split_and!; [done|done| |].
    + by exists settings.
    + by exists (u :: users).
Qed.

Lemma main_changes_only_when_witness :
  let r := Main.Finished [CreateGroup (payload_of Sample.sales)]
             [1; 0; 0; 0; 0] [0; 0; 0; 0; 0; 0] in
  let c := CreateGroup (payload_of Sample.sales) in
  (Main.main 2 true Main.live_env sample_number (λ _ _, Some true) 0 1
     Main.sample_users [Sample.sales] Main.no_groups Store.applied
     Sample.empty_dir = Some r ∧
   c ∈ Main.calls_of r ∧ mutating c = true) ∧
  true = true ∧
  [Sample.sales] ≠ [] ∧
  (∃ settings,
     Settings.get_settings sample_number (λ _ _, Some true) 0 Main.live_env
     = Settings.Accepted settings ∧ Settings.dry_run settings = false) ∧
  (∃ users,
     Paging.get_all_api360_users_from_api sample_number 2 Main.sample_users
     = Some (Paging.Fetched users) ∧ users ≠ []).
Proof.
  intros r c.
  assert (Main.main 2 true Main.live_env sample_number (λ _ _, Some true) 0 1
            Main.sample_users [Sample.sales] Main.no_groups Store.applied
            Sample.empty_dir = Some r) as Hr by (vm_compute; reflexivity).
  assert (c ∈ Main.calls_of r) as Hc by left.
  split; [by repeat split|].
  apply (main_changes_only_when 2 true Main.live_env sample_number
           (λ _ _, Some true) 0 1 Main.sample_users [Sample.sales]
           Main.no_groups Store.applied Sample.empty_dir r c Hr Hc eq_refl).
Defined.

Lemma member_call_keeps_groups (ad_groups : list ad_group)
    (y360_groups : list y360_group) (c : call) :
  member_call ad_groups y360_groups c →
  creation_payload c = None ∧ keeps_groups c.
Proof.
  intros (g & guid & a & _ & _ & _ & _ & _ & [->|[[uid ->]|[uid ->]]]); done.
Qed.

Lemma sync_group_members_keeps_groups (dry_run : bool) (api : Remote)
    (dir : Members.directory) (ad_groups : list ad_group)
    (y360_groups : list y360_group) (y360_users : list y360_user) :
  Forall (λ c, creation_payload c = None ∧ keeps_groups c)
    (Members.sync_group_members dry_run api dir ad_groups y360_groups
       y360_users).1.
Proof.
  unfold Members.sync_group_members.
  destruct ad_groups as [|a ad]; [done|].
  destruct y360_groups as [|g l]; [done|].
  destruct y360_users as [|u us]; [done|].
  destruct (sync_y360_groups_calls dry_run api dir (a :: ad)
              (Members.y360_users_by_nickname (u :: us)) (g :: l) []
              Members.stats0) as (t & E & F).
  destruct (Members.sync_y360_groups _ _ _ _ _ _ _ _) as [h [st|e]];
    simpl in E; subst h; simpl;
    (eapply Forall_impl; [exact F|]); intros c;
    apply member_call_keeps_groups.
Qed.

Lemma omap_creation_none (t : list call) :
  Forall (λ c, creation_payload c = None ∧ keeps_groups c) t →
  omap creation_payload t = [].
Proof.
  induction 1 as [|c t [Hc _] _ IH]; [done|].
  cbn [omap list_omap]. by rewrite Hc.
Qed.

(** X26: a failed read of the target groups is taken for an empty target.
    When the first read of the groups fails, after a successful read of the
    users and of the source groups in a live run, the script goes on with an
    empty list: it asks for the creation of a target group for every source
    group that has objectGUID, displayName and mail, also for those that
    already have one, and it patches and deletes nothing. *)
Theorem main_failed_group_read_creates (fuel : nat)
    (env : gmap string string) (int : string → option Z)
    (check_oauth_token : string → string → option bool) (now later : Z)
    (users_net : nat → nat → Paging.page_outcome Paging.api_user)
    (ad_groups : list ad_group)
    (groups_net : list call → nat → nat → Paging.page_outcome y360_group)
    (api : Remote) (members_files_dir : Members.directory)
    (settings : Settings.SettingParams) (users : list Paging.api_user)
    (r : Main.outcome) :
  Settings.get_settings int check_oauth_token now env
  = Settings.Accepted settings →
  Settings.dry_run settings = false →
  Paging.get_all_api360_users_from_api int fuel users_net
  = Some (Paging.Fetched users) →
  users ≠ [] →
  Paging.get_page Http.MAX_RETRIES (groups_net []) 1 1 = Paging.Failed →
  Main.main fuel true env int check_oauth_token now later users_net
    ad_groups groups_net api members_files_dir = Some r →
  omap creation_payload (Main.calls_of r)
  = payload_of <$> filter (λ a, has_required a = true) ad_groups ∧
  Forall keeps_groups (Main.calls_of r).
Proof.
  intros Hsettings Hdry Husers Hne Hfail. unfold Main.main. cbn [negb].
  rewrite Hsettings.
  assert (Settings.all_users settings = []) as Hcache.
  { unfold Settings.get_settings in Hsettings.
    destruct (env !! "LDAP_PORT" ≫= int) as [port|]; [|done].
    cbv zeta in Hsettings.
    repeat case_match; try done; by injection Hsettings as <-. }
  unfold get_all_api360_users. rewrite Hcache. cbn [orb]. rewrite Husers.
  destruct users as [|u users]; [done|].
  destruct ad_groups as [|a ad_groups]; [by intros [= <-]|].
  assert (Paging.get_all_groups_from_api360 fuel (groups_net []) = None ∨
          Paging.get_all_groups_from_api360 fuel (groups_net [])
          = Some (Paging.Fetched [])) as [-> | ->]; [|done|].
  { destruct fuel as [|fuel]; [by left|right].
    unfold Paging.get_all_groups_from_api360. cbn [Paging.fetch_pages].
    rewrite bool_decide_true by lia. by rewrite Hfail. }
  change (Settings.dry_run (with_all_users settings (u :: users) later))
    with (Settings.dry_run settings). rewrite Hdry.
  pose proof (sync_ad_groups_to_y360_live api (a :: ad_groups) []
                ltac:(done)) as Hlive.
  destruct (Groups.sync_ad_groups_to_y360 false api (a :: ad_groups) [])
    as [h1 [success stats]]. cbn [fst] in Hlive.
  change (Groups.groups_to_delete (a :: ad_groups) []) with (@nil Groups.deletion)
    in Hlive.
  rewrite fmap_nil, app_nil_r in Hlive.
  change (Groups.y360_groups_by_external_id []) with (∅ : gmap string y360_group)
    in Hlive.
  assert (omap creation_payload h1
          = payload_of <$> filter (λ a, has_required a = true) (a :: ad_groups))
    as Hcreated.
  { rewrite Hlive.
    rewrite first_loop_creations. f_equal. apply list_filter_iff.
    intros x. rewrite lookup_empty. naive_solver. }
  assert (Forall keeps_groups h1) as Hkept.
  { rewrite Hlive.
    apply Forall_forall. intros c Hc.
    apply list_elem_of_bind in Hc as (x & Hc & _).
    apply elem_of_first_loop_calls in Hc as (_ & [(g & Hg & _)|(_ & ->)]);
      [by rewrite lookup_empty in Hg|done]. }
  destruct (Paging.get_all_groups_from_api360 fuel (groups_net h1))
    as [[updated|]|]; [|by intros [= <-]|done].
  pose proof (sync_group_members_keeps_groups false (Main.after h1 api)
                members_files_dir (a :: ad_groups) updated
                (Paging.user <$> u :: users)) as Hmembers.
  destruct (Members.sync_group_members false _ _ _ _ _) as [h2 [[ok st]|e]];
    intros [= <-]; cbn [Main.calls_of]; simpl in Hmembers;
    (split;
     [rewrite omap_app, (omap_creation_none h2 Hmembers), app_nil_r; done|
      apply Forall_app; split; [done|];
      eapply Forall_impl; [exact Hmembers|]; by intros c [_ ?]]).
Qed.

Lemma main_failed_group_read_creates_witness :
  let r := Main.Finished [CreateGroup (payload_of Sample.sales)]
             [1; 0; 0; 0; 0] [0; 0; 0; 0; 0; 0] in
  (Settings.get_settings sample_number (λ _ _, Some true) 0 Main.live_env
   = Settings.Accepted (Settings.read Main.live_env 389 0) ∧
   Settings.dry_run (Settings.read Main.live_env 389 0) = false ∧
   Paging.get_all_api360_users_from_api sample_number 2 Main.sample_users
   = Some (Paging.Fetched [api_alice]) ∧
   [api_alice] ≠ [] ∧
   Paging.get_page Http.MAX_RETRIES (Main.groups_down []) 1 1 = Paging.Failed ∧
   Main.main 2 true Main.live_env sample_number (λ _ _, Some true) 0 1
     Main.sample_users [Sample.sales] Main.groups_down Store.applied
     Sample.empty_dir = Some r) ∧
  omap creation_payload (Main.calls_of r)
  = payload_of <$> filter (λ a, has_required a = true) [Sample.sales] ∧
  Forall keeps_groups (Main.calls_of r).
Proof.
  intros r.
  assert (Settings.get_settings sample_number (λ _ _, Some true) 0 Main.live_env
          = Settings.Accepted (Settings.read Main.live_env 389 0)) as H1
    by (vm_compute; reflexivity).
  assert (Settings.dry_run (Settings.read Main.live_env 389 0) = false) as H2
    by (vm_compute; reflexivity).
  assert (Paging.get_all_api360_users_from_api sample_number 2 Main.sample_users
          = Some (Paging.Fetched [api_alice])) as H3
    by (vm_compute; reflexivity).
  assert ([api_alice] ≠ []) as H4 by discriminate.
  assert (Paging.get_page Http.MAX_RETRIES (Main.groups_down []) 1 1
          = Paging.Failed) as H5 by reflexivity.
  assert (Main.main 2 true Main.live_env sample_number (λ _ _, Some true) 0 1
            Main.sample_users [Sample.sales] Main.groups_down Store.applied
            Sample.empty_dir = Some r) as H6 by (vm_compute; reflexivity).
  split; [by repeat split|].
  apply (main_failed_group_read_creates 2 Main.live_env sample_number
           (λ _ _, Some true) 0 1 Main.sample_users [Sample.sales]
           Main.groups_down Store.applied Sample.empty_dir
           (Settings.read Main.live_env 389 0) [api_alice] r H1 H2 H3 H4 H5 H6).
Defined.

Lemma members_summary_zero (st : Members.stats) :
  Main.members_summary (Main.members_stats_dict st) = [0; 0; 0; 0; 0; 0].
Proof.
  unfold Main.members_summary, Main.members_stats_dict.
  cbn [fmap list_fmap]. by simplify_map_eq.
Qed.

(** X27: the final summary never reports the membership sync.  The block
    reads the membership statistics under the keys processed_groups,
    skipped_groups, added_members, removed_members, add_errors and
    remove_errors, none of which [sync_group_members] sets: whenever the
    script reaches its end, the six membership numbers it logs are 0,
    whatever was added, removed or failed. *)
Theorem main_summary_members_zero (fuel : nat) (denv_exists : bool)
    (env : gmap string string) (int : string → option Z)
    (check_oauth_token : string → string → option bool) (now later : Z)
    (users_net : nat → nat → Paging.page_outcome Paging.api_user)
    (ad_groups : list ad_group)
    (groups_net : list call → nat → nat → Paging.page_outcome y360_group)
    (api : Remote) (members_files_dir : Members.directory)
    (calls : list call) (groups_line members_line : list nat) :
  Main.main fuel denv_exists env int check_oauth_token now later users_net
    ad_groups groups_net api members_files_dir
  = Some (Main.Finished calls groups_line members_line) →
  members_line = [0; 0; 0; 0; 0; 0].
Proof.
  unfold Main.main. intros H.
  repeat (case_match; try done).
  injection H as _ _ <-. apply members_summary_zero.
Qed.

Lemma main_summary_members_zero_witness :
  Main.main 2 true Main.live_env sample_number (λ _ _, Some true) 0 1
    Main.sample_two_users [Sample.sales] Main.sales_groups Store.applied
    Sample.sales_dir
  = Some (Main.Finished
            [GetGroupMembers (Some 10%Z);
             AddMember (Some 10%Z) "user" (Some "1130000000000002")]
            [0; 0; 0; 0; 0] [0; 0; 0; 0; 0; 0]) ∧
  [0; 0; 0; 0; 0; 0] = [0; 0; 0; 0; 0; 0].
Proof.
  assert (Main.main 2 true Main.live_env sample_number (λ _ _, Some true) 0 1
            Main.sample_two_users [Sample.sales] Main.sales_groups Store.applied
            Sample.sales_dir
          = Some (Main.Finished
                    [GetGroupMembers (Some 10%Z);
                     AddMember (Some 10%Z) "user" (Some "1130000000000002")]
                    [0; 0; 0; 0; 0] [0; 0; 0; 0; 0; 0])) as H
    by (vm_compute; reflexivity).
  split; [exact H|].
  apply (main_summary_members_zero 2 true Main.live_env sample_number
           (λ _ _, Some true) 0 1 Main.sample_two_users [Sample.sales]
           Main.sales_groups Store.applied Sample.sales_dir _ _ _ H).
Defined.
(** * The reconciliation under the invariant of the target users *)

Lemma y360_users_by_nickname_claimed (y360_users : list y360_user) (k : string)
    (u : y360_user) :
  Members.y360_users_by_nickname y360_users !! k = Some u →
  u ∈ y360_users ∧ k ∈ claimed u.
Proof.
  unfold Members.y360_users_by_nickname.
  assert (∀ (l : list y360_user) (m : gmap string y360_user),
    foldl Members.index_user m l !! k = Some u →
    m !! k = Some u ∨ (u ∈ l ∧ k ∈ claimed u)) as H.
  { induction l as [|v l IH]; intros m; [by left|].
    cbn [foldl]. intros Hl. destruct (IH _ Hl) as [Hm|[? ?]].
    - rewrite index_user_lookup in Hm.
      destruct (Py.truthy (user_nickname v)) eqn:Hv; [|by left].
      cbn [andb] in Hm. case_bool_decide as Hk; [|by left].
      injection Hm as <-. right. split; [left|].
      apply truthy_Some in Hv as (n & Hn & _).
      unfold handles, claimed in *. rewrite Hn in *. done.
    - right. split; [by right|done]. }
  intros Hl. destruct (H _ _ Hl) as [Hm|?]; [|done].
  by rewrite lookup_empty in Hm.
Qed.

Lemma unique_handles_NoDup (y360_users : list y360_user) :
  NoDup (y360_users ≫= claimed) → unique_handles y360_users.
Proof.
  induction y360_users as [|a l IH]; intros Hnd u v k Hu Hv Hku Hkv.
  { by apply elem_of_nil in Hu. }
  cbn [mbind list_bind] in Hnd. apply NoDup_app in Hnd as (_ & Hdisj & Hl).
  assert (∀ w, w ∈ l → k ∈ claimed w → k ∈ claimed a → False) as Hno.
  { intros w Hw Hkw Hka. apply (Hdisj k Hka).
    apply list_elem_of_bind. by exists w. }
  apply elem_of_cons in Hu as [->|Hu]; apply elem_of_cons in Hv as [->|Hv].
  - done.
  - destruct (Hno v Hv Hkv Hku).
  - destruct (Hno u Hu Hku Hkv).
  - by apply (IH Hl u v k).
Qed.

Lemma member_resolved_to_user (y360_users members : list y360_user)
    (member_nicknames : gset string) (u m : y360_user) :
  unique_handles y360_users →
  Members.y360_member_nicknames (Members.y360_users_by_nickname y360_users)
    ∅ members = Members.Return member_nicknames →
  u ∈ y360_users → m ∈ members → entry_of u m →
  ∃ n, user_nickname m = Some n ∧
       Members.y360_users_by_nickname y360_users !! Py.lower n = Some u.
Proof.
  intros Huniq Hs Hu Hm [_ Hnick].
  apply y360_member_nicknames_Return in Hs as [_ Hs].
  destruct (Hs m Hm) as (n & u' & Hn & Hu' & _ & _).
  exists n. split; [done|].
  destruct (y360_users_by_nickname_claimed _ _ _ Hu') as [Hin Hk].
  assert (u' = u) as ->; [|done].
  apply (Huniq u' u (Py.lower n)); [done|done|done|].
  unfold claimed. rewrite <-Hnick, Hn. left.
Qed.

(** C6: alias symmetry for additions.  The target users satisfy the
    invariant of the data model: a handle, primary or alias, resolves to at
    most one of them.  When the reconciliation of a group reaches the
    comparison (the member nicknames were computed), for every target user
    [u] that is a current member of the group, every alias of [u] and every
    source handle [h] equal to that alias up to case, no entry of
    [users_to_add] carries [h]. *)
Theorem alias_of_member_not_added (y360_users members : list y360_user)
    (member_nicknames ad_nicknames : gset string) (u : y360_user)
    (alias h : string) :
  let index := Members.y360_users_by_nickname y360_users in
  unique_handles y360_users →
  Members.y360_member_nicknames index ∅ members
    = Members.Return member_nicknames →
  u ∈ y360_users →
  is_member u members →
  alias ∈ user_aliases u →
  Py.lower h = Py.lower alias →
  ∀ c, c ∈ (Members.users_to_add index member_nicknames ad_nicknames).1 →
       Members.nickname c ≠ Py.lower h.
Proof.
  intros index Huniq Hs Hu (m & Hm & Hentry) Halias Hh.
  destruct (member_resolved_to_user _ _ _ _ _ Huniq Hs Hu Hm Hentry)
    as (n & Hn & Hidx).
  by apply (alias_of_resolved_member_not_added index members member_nicknames
              ad_nicknames m u n alias h).
Qed.

Lemma alias_of_member_not_added_witness :
  let y360_users := [Sample.alice; Sample.bob; Sample.carol] in
  let members := [Sample.alice; Sample.bob] in
  let index := Members.y360_users_by_nickname y360_users in
  let ad_nicknames := Members.ad_nicknames_set ["A.Smith@x"; "carol@x"] in
  (unique_handles y360_users ∧
   Members.y360_member_nicknames index ∅ members
     = Members.Return {["a.smith"; "alice"; "bob"]} ∧
   Sample.alice ∈ y360_users ∧ is_member Sample.alice members ∧
   "a.smith" ∈ user_aliases Sample.alice ∧
   Py.lower "A.Smith" = Py.lower "a.smith") ∧
  ∀ c, c ∈ (Members.users_to_add index {["a.smith"; "alice"; "bob"]} ad_nicknames).1 →
       Members.nickname c ≠ Py.lower "A.Smith".
Proof.
  intros y360_users members index ad_nicknames.
  assert (unique_handles y360_users) as H1.
  { apply unique_handles_NoDup. apply (bool_decide_unpack _).
    vm_compute. reflexivity. }
  assert (Members.y360_member_nicknames index ∅ members
          = Members.Return {["a.smith"; "alice"; "bob"]}) as H2
    by (vm_compute; reflexivity).
  assert (Sample.alice ∈ y360_users) as H3 by left.
  assert (is_member Sample.alice members) as H4
    by (exists Sample.alice; split; [left|done]).
  assert ("a.smith" ∈ user_aliases Sample.alice) as H5 by left.
  split; [by repeat split|].
  apply (alias_of_member_not_added y360_users members
           {["a.smith"; "alice"; "bob"]} ad_nicknames Sample.alice
           "a.smith" "A.Smith" H1 H2 H3 H4 H5 eq_refl).
Defined.


